(** * Reference datatypes of HDF5

    A shallow embedding of [H5Tref.c] (the location state machine of a
    reference datatype and its memory-side and disk-side converters) and of
    the blob callbacks of the native VOL connector, with the properties the
    specification states about them.

    Conventions of the embedding.
    - C integers are [Z]; [size_t] is taken as a 64-bit unsigned integer and
      its arithmetic is written with the wrap-around ([size_add], [size_sub],
      [size_mul]).
    - A pointer to a library object ([H5F_t *], a VOL object) is an address
      in [Z], [NULL] being [0]; what the code reads through such a pointer is
      a function of the address.
    - A pointer into a byte buffer is the list of the bytes from the pointer
      to the end of the buffer; an access outside it is the outcome [Fault].
    - [HDassert] is compiled out (the release build).
    - A function returns through [FUNC_LEAVE_NOAPI(ret_value)]: outcome
      [Val r], or [Exit r e] after [HGOTO_ERROR] pushed the error [e]. *)

From Stdlib Require Import ZArith Lia List String.
From Stdlib.Strings Require Import Byte.
From stdpp Require Import base decidable list numbers option.
Import ListNotations.
Open Scope Z_scope.

(** ** Bytes and fixed-width integers *)

Definition byte_val (b : byte) : Z := Z.of_N (Byte.to_N b).

Definition byte_of (z : Z) : byte :=
  match Byte.of_N (Z.to_N (z mod 256)) with
  | Some b => b
  | None => Byte.x00
  end.

Definition SIZE_T_MODULUS : Z := 2 ^ 64.
Definition size_wrap (z : Z) : Z := z mod SIZE_T_MODULUS.
Definition size_add (a b : Z) : Z := size_wrap (a + b).
Definition size_sub (a b : Z) : Z := size_wrap (a - b).
Definition size_mul (a b : Z) : Z := size_wrap (a * b).

(** [(int8_t)z] and [(uint8_t)z]. *)
Definition int8_cast (z : Z) : Z := (z + 128) mod 256 - 128.
Definition uint8_cast (z : Z) : Z := z mod 256.

(** Modelled from the spec: the [UINT32DECODE] and [UINT32ENCODE] macros of
    H5Fprivate.h, which is not among the sources: the 4-byte length field of
    a record, least significant byte first as the library's macros have it.
    [UINT32DECODE] yields the value and the advanced pointer. *)
Definition UINT32DECODE (p : list byte) : option (Z * list byte) :=
  match p with
  | b0 :: b1 :: b2 :: b3 :: p' =>
      Some (Z.lor (Z.lor (Z.lor (byte_val b0) (Z.shiftl (byte_val b1) 8))
                         (Z.shiftl (byte_val b2) 16))
                  (Z.shiftl (byte_val b3) 24), p')
  | _ => None
  end.

Definition UINT32ENCODE (i : Z) : list byte :=
  [ byte_of (Z.land i 255);
    byte_of (Z.land (Z.shiftr i 8) 255);
    byte_of (Z.land (Z.shiftr i 16) 255);
    byte_of (Z.land (Z.shiftr i 24) 255) ].

(** Modelled from the spec: [H5_SIZEOF_UINT32_T] (the 4-byte length field)
    and [H5R_ENCODE_HEADER_SIZE] (the header of an encoded reference: one
    tag byte and one flags byte); H5Rpkg.h is not among the sources. *)
Definition H5_SIZEOF_UINT32_T : Z := 4.
Definition H5R_ENCODE_HEADER_SIZE : Z := 2.

(** ** Return values and the error stack *)

Definition SUCCEED : Z := 0.
Definition FAIL : Z := -1.
Definition TRUE : Z := 1.
Definition FALSE : Z := 0.

Inductive H5E_major : Set :=
| H5E_ARGS | H5E_DATATYPE | H5E_REFERENCE | H5E_VOL.

Inductive H5E_minor : Set :=
| H5E_BADTYPE | H5E_BADVALUE | H5E_BADRANGE | H5E_CANTGET | H5E_CANTSET
| H5E_CANTENCODE | H5E_CANTDECODE | H5E_CANTREMOVE | H5E_READERROR
| H5E_WRITEERROR | H5E_UNSUPPORTED.

Record H5E_t : Set := H5E_push {
  err_major : H5E_major;
  err_minor : H5E_minor;
  err_msg : string
}.

Inductive outcome (A : Type) : Type :=
| Val (a : A)
| Exit (ret_value : Z) (e : H5E_t)
| Fault.
Arguments Val {A} a.
Arguments Exit {A} ret_value e.
Arguments Fault {A}.

(** ** The monad of a function body: state passing with early exit *)

Definition M (S A : Type) : Type := S -> outcome A * S.

Definition ret {S A : Type} (a : A) : M S A := fun s => (Val a, s).

Definition bind {S A B : Type} (m : M S A) (k : A -> M S B) : M S B :=
  fun s =>
    match m s with
    | (Val a, s') => k a s'
    | (Exit r e, s') => (Exit r e, s')
    | (Fault, s') => (Fault, s')
    end.

Definition get {S : Type} : M S S := fun s => (Val s, s).
Definition modify {S : Type} (f : S -> S) : M S unit := fun s => (Val tt, f s).
Definition fault {S A : Type} : M S A := fun s => (Fault, s).

Definition HGOTO_ERROR {S A : Type} (maj : H5E_major) (min : H5E_minor)
    (ret_value : Z) (msg : string) : M S A :=
  fun s => (Exit ret_value (H5E_push maj min msg), s).

Declare Scope h5_scope.
Delimit Scope h5_scope with h5.
Notation "x <- m ;; k" := (bind m (fun x => k))
  (at level 100, m at next level, right associativity) : h5_scope.
Notation "m ;; k" := (bind m (fun _ => k))
  (at level 100, right associativity) : h5_scope.
Open Scope h5_scope.

(** ** Enumerations *)

Inductive H5T_loc_t : Set :=
| H5T_LOC_BADLOC | H5T_LOC_MEMORY | H5T_LOC_DISK | H5T_LOC_MAXLOC.

Inductive H5R_type_t : Set :=
| H5R_BADTYPE | H5R_OBJECT1 | H5R_DATASET_REGION1 | H5R_OBJECT2
| H5R_DATASET_REGION2 | H5R_ATTR | H5R_MAXTYPE.

#[global] Instance H5T_loc_t_eq_dec : EqDecision H5T_loc_t.
Proof. solve_decision. Defined.

#[global] Instance H5R_type_t_eq_dec : EqDecision H5R_type_t.
Proof. solve_decision. Defined.

(** The static functions of H5Tref.c a datatype can be bound to. *)
Inductive H5T_ref_func : Set :=
| PTR_H5T__ref_mem_getsize | PTR_H5T__ref_mem_read | PTR_H5T__ref_mem_write
| PTR_H5T__ref_disk_getsize | PTR_H5T__ref_disk_read | PTR_H5T__ref_disk_write
| PTR_H5T__ref_obj_disk_getsize | PTR_H5T__ref_obj_disk_read
| PTR_H5T__ref_dsetreg_disk_getsize | PTR_H5T__ref_dsetreg_disk_read.

(** ** Structures *)

(** The fields of [dt->shared] that [H5T__ref_set_loc] reads or writes:
    [size], [u.atomic.prec] and the members of [u.atomic.u.r]. A function
    pointer is [None] when [NULL]. *)
Record H5T_shared_t : Set := mk_H5T_shared {
  size : Z;
  prec : Z;
  r_rtype : H5R_type_t;
  r_opaque : bool;
  r_loc : H5T_loc_t;
  r_f : Z;
  r_getsize : option H5T_ref_func;
  r_read : option H5T_ref_func;
  r_write : option H5T_ref_func
}.

Definition with_size (v : Z) (d : H5T_shared_t) : H5T_shared_t :=
  mk_H5T_shared v (prec d) (r_rtype d) (r_opaque d) (r_loc d) (r_f d)
                (r_getsize d) (r_read d) (r_write d).
Definition with_prec (v : Z) (d : H5T_shared_t) : H5T_shared_t :=
  mk_H5T_shared (size d) v (r_rtype d) (r_opaque d) (r_loc d) (r_f d)
                (r_getsize d) (r_read d) (r_write d).
Definition with_loc (v : H5T_loc_t) (d : H5T_shared_t) : H5T_shared_t :=
  mk_H5T_shared (size d) (prec d) (r_rtype d) (r_opaque d) v (r_f d)
                (r_getsize d) (r_read d) (r_write d).
Definition with_f (v : Z) (d : H5T_shared_t) : H5T_shared_t :=
  mk_H5T_shared (size d) (prec d) (r_rtype d) (r_opaque d) (r_loc d) v
                (r_getsize d) (r_read d) (r_write d).
Definition with_getsize (v : option H5T_ref_func) (d : H5T_shared_t) : H5T_shared_t :=
  mk_H5T_shared (size d) (prec d) (r_rtype d) (r_opaque d) (r_loc d) (r_f d)
                v (r_read d) (r_write d).
Definition with_read (v : option H5T_ref_func) (d : H5T_shared_t) : H5T_shared_t :=
  mk_H5T_shared (size d) (prec d) (r_rtype d) (r_opaque d) (r_loc d) (r_f d)
                (r_getsize d) v (r_write d).
Definition with_write (v : option H5T_ref_func) (d : H5T_shared_t) : H5T_shared_t :=
  mk_H5T_shared (size d) (prec d) (r_rtype d) (r_opaque d) (r_loc d) (r_f d)
                (r_getsize d) (r_read d) v.

(** [H5VL_file_cont_info_t]. *)
Record H5VL_file_cont_info_t : Set := mk_cont_info {
  ci_version : Z;
  ci_feature_flags : Z;
  ci_token_size : Z;
  ci_blob_id_size : Z
}.

(** [struct href]: the members H5Tref.c names, and the rest of the structure
    (the union of the reference's data) as its bytes. *)
Record href : Set := mk_href {
  loc_id : Z;
  encode_size : Z;
  ref_type : Z;
  token_size : Z;
  ref_info : list byte
}.

(** Calls that leave H5Tref.c, in the order they are issued. *)
Inductive lib_call : Set :=
| Call_H5CX_set_libver_bounds (f : Z)
| Call_H5R__encode (filename : option string) (ref : href)
                   (buf : option (list byte * Z)) (flags : Z)
| Call_H5VL_blob_put (f : Z) (blob : list byte) (size : Z)
| Call_H5VL_blob_get (f : Z) (id : list byte)
| Call_H5VL_blob_specific_DELETE (f : Z) (id : list byte).

(** What a converter of H5Tref.c can change: the bytes behind [dst_buf],
    [*dst_copy], the Blob Store of the container (of type [B]), and the
    calls issued so far (oldest first). *)
Record conv_state (B : Type) : Type := mk_conv_state {
  dst_buf : list byte;
  dst_copy : bool;
  blobs : B;
  calls : list lib_call
}.
Arguments mk_conv_state {B} _ _ _ _.
Arguments dst_buf {B} _.
Arguments dst_copy {B} _.
Arguments blobs {B} _.
Arguments calls {B} _.

Definition with_dst_buf {B} (v : list byte) (s : conv_state B) : conv_state B :=
  mk_conv_state v (dst_copy s) (blobs s) (calls s).
Definition with_dst_copy {B} (v : bool) (s : conv_state B) : conv_state B :=
  mk_conv_state (dst_buf s) v (blobs s) (calls s).
Definition with_blobs {B} (v : B) (s : conv_state B) : conv_state B :=
  mk_conv_state (dst_buf s) (dst_copy s) v (calls s).
Definition log_call {B} (c : lib_call) (s : conv_state B) : conv_state B :=
  mk_conv_state (dst_buf s) (dst_copy s) (blobs s) (calls s ++ [c]).

(** [H5VL_blob_specific_t]; [H5VL_BLOB_UNKNOWN] stands for any other value
    of the C enumeration type. *)
Inductive H5VL_blob_specific_t : Set :=
| H5VL_BLOB_DELETE | H5VL_BLOB_GETSIZE | H5VL_BLOB_ISNULL | H5VL_BLOB_SETNULL
| H5VL_BLOB_UNKNOWN.

(** [H5HG_t]: the identity of an object of the global heap. *)
Record H5HG_t : Set := mk_H5HG { hg_addr : Z; hg_idx : Z }.

(** Calls from the native blob callbacks into the global heap. *)
Inductive heap_call : Set :=
| Call_H5HG_insert (f : Z) (size : Z) (obj : list byte)
| Call_H5HG_read (f : Z) (hobjid : H5HG_t)
| Call_H5HG_remove (f : Z) (hobjid : H5HG_t).

(** What a native blob callback can change: the bytes behind [id] and
    [buf], the two results returned through the [va_list] ([*size],
    [*isnull]), the global heap (of type [G]) and the calls made to it. *)
Record blob_state (G : Type) : Type := mk_blob_state {
  id_mem : list byte;
  buf_mem : list byte;
  out_size : Z;
  out_isnull : bool;
  gheap : G;
  heap_calls : list heap_call
}.
Arguments mk_blob_state {G} _ _ _ _ _ _.
Arguments id_mem {G} _.
Arguments buf_mem {G} _.
Arguments out_size {G} _.
Arguments out_isnull {G} _.
Arguments gheap {G} _.
Arguments heap_calls {G} _.

Definition with_id_mem {G} (v : list byte) (s : blob_state G) : blob_state G :=
  mk_blob_state v (buf_mem s) (out_size s) (out_isnull s) (gheap s) (heap_calls s).
Definition with_buf_mem {G} (v : list byte) (s : blob_state G) : blob_state G :=
  mk_blob_state (id_mem s) v (out_size s) (out_isnull s) (gheap s) (heap_calls s).
Definition with_out_size {G} (v : Z) (s : blob_state G) : blob_state G :=
  mk_blob_state (id_mem s) (buf_mem s) v (out_isnull s) (gheap s) (heap_calls s).
Definition with_out_isnull {G} (v : bool) (s : blob_state G) : blob_state G :=
  mk_blob_state (id_mem s) (buf_mem s) (out_size s) v (gheap s) (heap_calls s).
Definition with_gheap {G} (v : G) (s : blob_state G) : blob_state G :=
  mk_blob_state (id_mem s) (buf_mem s) (out_size s) (out_isnull s) v (heap_calls s).
Definition log_heap_call {G} (c : heap_call) (s : blob_state G) : blob_state G :=
  mk_blob_state (id_mem s) (buf_mem s) (out_size s) (out_isnull s) (gheap s)
                (heap_calls s ++ [c]).

(** Writing [bs] at offset [q] of a buffer: [None] outside the buffer. *)
Definition store_bytes (q : nat) (bs buf : list byte) : option (list byte) :=
  if (q + length bs <=? length buf)%nat
  then Some (take q buf ++ bs ++ drop (q + length bs) buf)
  else None.

(** [H5T__ref_mem_write] pushes three minor codes beside those of
    [H5E_minor], and can push two errors in one call: one on the way to
    [done:] and one from [HDONE_ERROR] in the cleanup. *)
Inductive H5E_minor_mem_write : Set :=
| H5E_CANTCREATE | H5E_CANTFREE | H5E_CANTDEC
| H5E_MINOR (m : H5E_minor).

Record H5E_entry : Set := H5E_push_entry {
  ent_major : H5E_major;
  ent_minor : H5E_minor_mem_write;
  ent_msg : string
}.

(** Calls that leave [H5T__ref_mem_write], each with the value it returned
    ([status], or the identifier [id] for [H5F__get_file_id]). *)
Inductive id_call : Set :=
| Call_H5R__create_object (status : Z)
| Call_H5R__create_region (space : Z) (status : Z)
| Call_H5S_close (space : Z) (status : Z)
| Call_H5R__decode (status : Z)
| Call_H5F__get_file_id (f : Z) (app_ref : bool) (id : Z)
| Call_H5R__set_loc_id (id : Z) (status : Z)
| Call_H5I_dec_ref (id : Z) (status : Z).

(** What [H5T__ref_mem_write] can change: the [struct href] behind
    [dst_buf], the state of the library behind the calls above (identifier
    registry, dataspaces; of type [L]) and the calls issued so far. *)
Record mem_write_state (L : Type) : Type := mk_mem_write_state {
  mw_dst : href;
  mw_lib : L;
  mw_calls : list id_call
}.
Arguments mk_mem_write_state {L} _ _ _.
Arguments mw_dst {L} _.
Arguments mw_lib {L} _.
Arguments mw_calls {L} _.

(** The state after a call: the reference and the library as the call left
    them, the call appended to the log. *)
Definition after_call {L} (c : id_call) (dst : href) (l : L) (s : mem_write_state L)
    : mem_write_state L :=
  mk_mem_write_state dst l (mw_calls s ++ [c]).

(** Reading a log of [H5T__ref_mem_write]: the identifiers
    [H5F__get_file_id] returned, the identifiers handed to [H5I_dec_ref],
    the dataspaces of the region references created with success, and the
    dataspaces handed to [H5S_close]. *)
Definition acquired_ids (l : list id_call) : list Z :=
  flat_map (fun c => match c with Call_H5F__get_file_id _ _ id => [id] | _ => [] end) l.

Definition released_ids (l : list id_call) : list Z :=
  flat_map (fun c => match c with Call_H5I_dec_ref id _ => [id] | _ => [] end) l.

Definition region_spaces (l : list id_call) : list Z :=
  flat_map (fun c => match c with
                     | Call_H5R__create_region space status =>
                         if status <? 0 then [] else [space]
                     | _ => []
                     end) l.

Definition closed_spaces (l : list id_call) : list Z :=
  flat_map (fun c => match c with Call_H5S_close space _ => [space] | _ => [] end) l.

(** ** A concrete environment

    Instances of what the sources leave open, used to run the model on
    concrete inputs: the numbering of [H5R_type_t] and the buffer sizes of
    the public header, a container with 8-byte addresses, a Blob Store that
    keeps its blobs in a list, and a global heap that is the list of its
    live objects. *)

Definition std_type_value (t : H5R_type_t) : Z :=
  match t with
  | H5R_BADTYPE => -1
  | H5R_OBJECT1 => 0
  | H5R_DATASET_REGION1 => 1
  | H5R_OBJECT2 => 2
  | H5R_DATASET_REGION2 => 3
  | H5R_ATTR => 4
  | H5R_MAXTYPE => 5
  end.

Definition addr8_sizeof (f : Z) : Z := 8.
Definition addr8_heap_id_size (f : Z) : Z := 12.

(** A container that reports 8-byte tokens and 12-byte blob identifiers,
    and one whose info cannot be retrieved. *)
Definition addr8_cont_info (f : Z) (ci : H5VL_file_cont_info_t)
    : option H5VL_file_cont_info_t :=
  Some (mk_cont_info (ci_version ci) 0 8 12).

Definition no_cont_info (f : Z) (ci : H5VL_file_cont_info_t)
    : option H5VL_file_cont_info_t := None.

(** An encoder that reports the header, one byte for the width of the
    token and the token, and leaves the buffer alone; it refuses a reference
    whose type is not one of the generic ones. *)
Definition token_encode (filename : option string) (ref : href)
    (buf : option (list byte * Z)) (flags : Z) : option (option (list byte) * Z) :=
  if (2 <=? ref_type ref) && (ref_type ref <=? 4)
  then Some (option_map fst buf, H5R_ENCODE_HEADER_SIZE + 1 + token_size ref)
  else None.

(** Every identifier but 0 has a VOL object, the object of identifier [i]
    at address [i + 1000]; its file is at address [i + 2000]; files at an
    address below 2500 share one container. *)
Definition ex_vol_object (id : Z) : Z := if id =? 0 then 0 else id + 1000.
Definition ex_object_data (obj : Z) : Z := if obj =? 0 then 0 else obj + 1000.
Definition ex_shared (f : Z) : Z := if f <? 2500 then 1 else f.
Definition ex_actual_name (f : Z) : option string := Some "file.h5"%string.

(** A Blob Store over a list: the blob stored by the [k]-th put has the
    identifier [k] (four bytes); a deleted blob leaves [None] in its place.
    Get and delete fail on an identifier that names no stored blob. *)
Definition list_blob_put (f : Z) (blob : list byte) (size : Z) (id : list byte)
    (st : list (option (list byte))) : option (list byte * list (option (list byte))) :=
  match store_bytes 0 (UINT32ENCODE (Z.of_nat (length st) + 1)) id with
  | Some id' => Some (id', st ++ [Some (take (Z.to_nat size) blob)])
  | None => None
  end.

Definition list_blob_find (id : list byte) (st : list (option (list byte)))
    : option (nat * list byte) :=
  match UINT32DECODE id with
  | Some (k, _) =>
      if 0 <? k then
        match st !! (Z.to_nat k - 1)%nat with
        | Some (Some blob) => Some ((Z.to_nat k - 1)%nat, blob)
        | _ => None
        end
      else None
  | None => None
  end.

Definition list_blob_get (f : Z) (id buf : list byte) (size : Z)
    (st : list (option (list byte)))
    : option (list byte * Z * list (option (list byte))) :=
  match list_blob_find id st with
  | Some (_, blob) =>
      match store_bytes 0 blob buf with
      | Some buf' => Some (buf', Z.of_nat (length blob), st)
      | None => None
      end
  | None => None
  end.

Definition list_blob_delete (f : Z) (id : list byte) (st : list (option (list byte)))
    : option (list (option (list byte))) :=
  match list_blob_find id st with
  | Some (i, _) => Some (<[i := None]> st)
  | None => None
  end.

(** Modelled from the spec: the address codec of the file layer
    ([H5F_addr_encode], [H5F_addr_decode]; H5Fint.c is not among the
    sources), the fixed-width address serialization of a container: [n]
    bytes, least significant first, the undefined address as [n] bytes
    [0xff]. *)
Definition HADDR_UNDEF : Z := 2 ^ 64 - 1.

Fixpoint le_bytes (n : nat) (a : Z) : list byte :=
  match n with
  | O => []
  | S n' => byte_of (Z.land a 255) :: le_bytes n' (Z.shiftr a 8)
  end.

Fixpoint le_value (bs : list byte) : Z :=
  match bs with
  | [] => 0
  | b :: bs' => Z.lor (byte_val b) (Z.shiftl (le_value bs') 8)
  end.

Definition le_addr_encode (n : nat) (f : Z) (addr : Z) : list byte :=
  if addr =? HADDR_UNDEF then repeat Byte.xff n else le_bytes n addr.

Definition le_addr_decode (n : nat) (f : Z) (p : list byte) : option (Z * list byte) :=
  if (length p <? n)%nat then None
  else
    let bs := take n p in
    Some (if forallb (fun b => byte_val b =? 255) bs then HADDR_UNDEF else le_value bs,
          drop n p).

(** A global heap as the list of its live objects. *)
Definition H5HG_eqb (a b : H5HG_t) : bool :=
  (hg_addr a =? hg_addr b) && (hg_idx a =? hg_idx b).

Definition list_heap_insert (f size : Z) (obj : list byte) (g : list (H5HG_t * list byte))
    : option (H5HG_t * list (H5HG_t * list byte)) :=
  let h := mk_H5HG 4096 (Z.of_nat (length g) + 1) in
  Some (h, g ++ [(h, take (Z.to_nat size) obj)]).

Definition list_heap_read (f : Z) (h : H5HG_t) (buf : list byte)
    (g : list (H5HG_t * list byte)) : option (list byte * list (H5HG_t * list byte)) :=
  match find (fun e => H5HG_eqb (fst e) h) g with
  | Some (_, obj) =>
      match store_bytes 0 obj buf with
      | Some buf' => Some (buf', g)
      | None => None
      end
  | None => None
  end.

Definition list_heap_remove (f : Z) (h : H5HG_t) (g : list (H5HG_t * list byte))
    : option (list (H5HG_t * list byte)) :=
  if existsb (fun e => H5HG_eqb (fst e) h) g
  then Some (filter (fun e => negb (H5HG_eqb (fst e) h)) g)
  else None.

(** Concrete inputs. *)

(** An opaque (generic) reference type in memory, the same type once it is
    on disk in file 100, and a legacy object reference type. *)
Definition ex_dt_mem : H5T_shared_t :=
  mk_H5T_shared 64 512 H5R_OBJECT2 true H5T_LOC_MEMORY 0
                (Some PTR_H5T__ref_mem_getsize) (Some PTR_H5T__ref_mem_read)
                (Some PTR_H5T__ref_mem_write).

Definition ex_dt_disk : H5T_shared_t :=
  mk_H5T_shared 18 144 H5R_OBJECT2 true H5T_LOC_DISK 100
                (Some PTR_H5T__ref_disk_getsize) (Some PTR_H5T__ref_disk_read)
                (Some PTR_H5T__ref_disk_write).

Definition ex_dt_obj1 : H5T_shared_t :=
  mk_H5T_shared 0 0 H5R_OBJECT1 false H5T_LOC_BADLOC 0 None None None.

(** A destination of 18 bytes over an empty Blob Store. *)
Definition ex_conv0 : conv_state (list (option (list byte))) :=
  mk_conv_state (repeat Byte.x00 18) false [] [].

(** Two encoded references: header (a region reference, no flags) and a
    payload of three and of two bytes. *)
Definition ex_src_abc : list byte := [Byte.x03; Byte.x00; Byte.x61; Byte.x62; Byte.x63].
Definition ex_src_de : list byte := [Byte.x03; Byte.x00; Byte.x64; Byte.x65].

(** The record a write of [ex_src_abc] leaves: header, length 3, blob
    identifier 1. *)
Definition ex_record_abc : list byte :=
  [Byte.x03; Byte.x00; Byte.x03; Byte.x00; Byte.x00; Byte.x00;
   Byte.x01; Byte.x00; Byte.x00; Byte.x00] ++ repeat Byte.x00 8.

(** The state after that write, with a fresh destination. *)
Definition ex_conv1 : conv_state (list (option (list byte))) :=
  mk_conv_state (repeat Byte.x00 18) false
                [Some [Byte.x61; Byte.x62; Byte.x63]]
                [Call_H5VL_blob_put 100 [Byte.x61; Byte.x62; Byte.x63] 3].

(** A handle of type [H5R_OBJECT2] with identifier 7 and a cached encode
    size, and the same handle without the cached size. *)
Definition ex_ref_cached : href := mk_href 7 11 2 8 [].
Definition ex_ref_fresh : href := mk_href 7 0 2 8 [].

(** Blob identifiers of the native connector (length, 8-byte address,
    index) and a heap that holds the object (4096, 1). *)
Definition ex_blob_id (seq_len addr idx : Z) : list byte :=
  UINT32ENCODE seq_len ++ le_addr_encode 8 1 addr ++ UINT32ENCODE idx.

Definition ex_blob_state (id : list byte) : blob_state (list (H5HG_t * list byte)) :=
  mk_blob_state id (repeat Byte.xff 4) 0 false [(mk_H5HG 4096 1, [Byte.x61])] [].

(** A library behind [H5T__ref_mem_write]: its state is the reference
    count of the one file identifier, 55. A reference decoded from more
    than its header carries a file name; a region reference cannot be
    created on the dataspace 0. *)
Definition ex_create_object (p : list byte) (n : Z) (dst : href) (l : Z)
    : Z * href * Z :=
  (SUCCEED, mk_href (loc_id dst) (encode_size dst) 0 n (take (Z.to_nat n) p), l).

Definition ex_create_region (p : list byte) (n : Z) (space : Z) (dst : href) (l : Z)
    : Z * href * Z :=
  if space =? 0 then (FAIL, dst, l)
  else (SUCCEED, mk_href (loc_id dst) (encode_size dst) 1 n (take (Z.to_nat n) p), l).

Definition ex_space_close (space : Z) (l : Z) : Z * Z :=
  (if space <? 0 then FAIL else SUCCEED, l).

Definition ex_decode (p : list byte) (n : Z) (dst : href) (l : Z) : Z * href * Z :=
  match p with
  | tag :: _ :: payload =>
      (SUCCEED, mk_href (loc_id dst) n (byte_val tag) 0 payload, l)
  | _ => (FAIL, dst, l)
  end.

Definition ex_ref_filename (r : href) : option string :=
  match ref_info r with
  | [] => None
  | _ => if ref_type r <? 2 then None else Some "remote.h5"%string
  end.

Definition ex_get_file_id (f : Z) (app_ref : bool) (l : Z) : Z * Z :=
  if f =? 0 then (-1, l) else (55, l + 1).

Definition ex_set_loc_id (dst : href) (id : Z) (l : Z) : Z * href * Z :=
  if encode_size dst =? 99 then (FAIL, dst, l)
  else (SUCCEED,
        mk_href id (encode_size dst) (ref_type dst) (token_size dst) (ref_info dst),
        l + 1).

Definition ex_dec_ref (id : Z) (l : Z) : Z * Z :=
  if 0 <? l then (l - 1, l - 1) else (-1, l).

Definition ex_dsetreg_space (p : list byte) : Z :=
  match drop 8 p with
  | b :: _ => byte_val b
  | [] => 0
  end.

Definition ex_mem_write0 : mem_write_state Z :=
  mk_mem_write_state (mk_href 9 9 9 9 []) 0 [].

Section H5.

Set Default Proof Using "Type".

(** ** The location state machine *)

(** What H5Tref.c takes from headers and files that are not among the
    sources: the integer value of each [H5R_type_t] enumerator, the buffer
    sizes of H5Rpublic.h, the container macros, and the two library calls of
    the generic disk branch. *)
Variable H5R_type_value : H5R_type_t -> Z.
Variable H5R_REF_BUF_SIZE : Z.
Variable H5R_OBJ_REF_BUF_SIZE : Z.
Variable H5R_DSET_REG_REF_BUF_SIZE : Z.
Variable H5VL_CONTAINER_INFO_VERSION : Z.
Variable H5F_SIZEOF_ADDR : Z -> Z.
Variable H5HG_HEAP_ID_SIZE : Z -> Z.
(** [H5F__get_cont_info(f, &cont_info)]: [None] when it returns a negative
    value, else the structure as the call leaves it. *)
Variable H5F__get_cont_info : Z -> H5VL_file_cont_info_t -> option H5VL_file_cont_info_t.
(** [H5R__encode(filename, ref, buf, &nalloc, flags)]: [buf] is [None] when
    [NULL], else the buffer and the value of [nalloc] on entry; the result
    is [None] when the call returns a negative value, else the buffer and
    [nalloc] as the call leaves them. *)
Variable H5R__encode :
  option string -> href -> option (list byte * Z) -> Z ->
  option (option (list byte) * Z).
(** The number of bytes of [struct href] after the members named above. *)
Variable sizeof_ref_info : nat.

Definition H5T_REF_MEM_SIZE : Z := H5R_REF_BUF_SIZE.
Definition H5T_REF_OBJ_MEM_SIZE : Z := H5R_OBJ_REF_BUF_SIZE.
Definition H5T_REF_DSETREG_MEM_SIZE : Z := H5R_DSET_REG_REF_BUF_SIZE.
Definition H5T_REF_OBJ_DISK_SIZE (f : Z) : Z := H5F_SIZEOF_ADDR f.
Definition H5T_REF_DSETREG_DISK_SIZE (f : Z) : Z := H5HG_HEAP_ID_SIZE f.

(** [HDmemset(&fixed_ref, 0, sizeof(fixed_ref))] followed by the two
    assignments of the generic disk branch. *)
Definition fixed_ref (cont_info : H5VL_file_cont_info_t) : href :=
  mk_href 0 0 (int8_cast (H5R_type_value H5R_OBJECT2))
          (uint8_cast (ci_token_size cont_info)) (repeat Byte.x00 sizeof_ref_info).

Definition set_size_and_prec (v : Z) : M H5T_shared_t unit :=
  modify (with_size v) ;;
  dt <- get ;;
  modify (with_prec (size_mul 8 (size dt))).

Definition set_funcs (g r w : option H5T_ref_func) : M H5T_shared_t unit :=
  modify (with_getsize g) ;;
  modify (with_read r) ;;
  modify (with_write w).

Definition H5T__ref_set_loc (f : Z) (loc : H5T_loc_t) : M H5T_shared_t Z :=
  dt <- get ;;
  (* Only change the location if it's different *)
  if bool_decide (loc = r_loc dt) && (f =? r_f dt) then ret FALSE
  else
    (match loc with
     | H5T_LOC_MEMORY =>
         modify (with_loc H5T_LOC_MEMORY) ;;
         modify (with_f f) ;;
         if r_opaque dt then
           set_size_and_prec H5T_REF_MEM_SIZE ;;
           set_funcs (Some PTR_H5T__ref_mem_getsize) (Some PTR_H5T__ref_mem_read)
                     (Some PTR_H5T__ref_mem_write)
         else if bool_decide (r_rtype dt = H5R_OBJECT1) then
           set_size_and_prec H5T_REF_OBJ_MEM_SIZE ;;
           set_funcs None None None
         else if bool_decide (r_rtype dt = H5R_DATASET_REGION1) then
           set_size_and_prec H5T_REF_DSETREG_MEM_SIZE ;;
           set_funcs None None None
         else ret tt
     | H5T_LOC_DISK =>
         modify (with_loc H5T_LOC_DISK) ;;
         modify (with_f f) ;;
         if f =? 0 then fault (* the branches below read through f *)
         else if bool_decide (r_rtype dt = H5R_OBJECT1) then
           set_size_and_prec (H5T_REF_OBJ_DISK_SIZE f) ;;
           set_funcs (Some PTR_H5T__ref_obj_disk_getsize)
                     (Some PTR_H5T__ref_obj_disk_read) None
         else if bool_decide (r_rtype dt = H5R_DATASET_REGION1) then
           set_size_and_prec (H5T_REF_DSETREG_DISK_SIZE f) ;;
           set_funcs (Some PTR_H5T__ref_dsetreg_disk_getsize)
                     (Some PTR_H5T__ref_dsetreg_disk_read) None
         else
           cont_info <-
             match H5F__get_cont_info f (mk_cont_info H5VL_CONTAINER_INFO_VERSION 0 0 0) with
             | Some ci => ret ci
             | None => HGOTO_ERROR H5E_DATATYPE H5E_CANTGET FAIL
                                   "can't get file container info"
             end ;;
           ref_encode_size <-
             match H5R__encode None (fixed_ref cont_info) None 0 with
             | Some (_, n) => ret n
             | None => HGOTO_ERROR H5E_REFERENCE H5E_CANTGET FAIL
                                   "can't get encode size"
             end ;;
           set_size_and_prec
             (Z.max (size_add (size_add H5_SIZEOF_UINT32_T H5R_ENCODE_HEADER_SIZE)
                              (ci_blob_id_size cont_info))
                    ref_encode_size) ;;
           set_funcs (Some PTR_H5T__ref_disk_getsize) (Some PTR_H5T__ref_disk_read)
                     (Some PTR_H5T__ref_disk_write)
     | H5T_LOC_BADLOC =>
         modify (with_loc H5T_LOC_BADLOC) ;;
         modify (with_f 0) ;;
         set_funcs None None None
     | H5T_LOC_MAXLOC =>
         HGOTO_ERROR H5E_DATATYPE H5E_BADRANGE FAIL
                     "invalid reference datatype location"
     end) ;;
    (* Indicate that the location changed *)
    ret TRUE.

(** The branches of the switch of [H5T__ref_set_loc] that assign
    [dt->shared->size]: every disk branch, and the memory branches of an
    opaque type, of [H5R_OBJECT1] and of [H5R_DATASET_REGION1]. *)
Definition assigns_size (loc : H5T_loc_t) (dt : H5T_shared_t) : bool :=
  match loc with
  | H5T_LOC_DISK => true
  | H5T_LOC_MEMORY =>
      r_opaque dt || bool_decide (r_rtype dt = H5R_OBJECT1)
      || bool_decide (r_rtype dt = H5R_DATASET_REGION1)
  | _ => false
  end.

(** ** The converters of H5Tref.c *)

(** The Blob Store of a container, reached through its VOL class
    ([H5F_VOL_CLS(f)]); its state has type [B]. Each callback is [None] when
    it returns a negative value.
    - put: the file, the bytes behind [blob], [size], the bytes behind [id];
      yields the bytes behind [id] as the callback leaves them.
    - get: the file, the bytes behind [id], the bytes behind [buf], [*size]
      on entry; yields the bytes behind [buf] and [*size] on return.
    - delete: the file and the bytes behind [id]. *)
Variable B : Type.
Variable blob_put_cb : Z -> list byte -> Z -> list byte -> B -> option (list byte * B).
Variable blob_get_cb : Z -> list byte -> list byte -> Z -> B -> option (list byte * Z * B).
Variable blob_delete_cb : Z -> list byte -> B -> option B.

(** What the memory-side size query reads through pointers: the VOL object
    of an identifier, the file of a VOL object, and two members of the
    file structure. [H5R_IS_EXTERNAL] is a flag of H5Rpkg.h. *)
Variable H5VL_vol_object : Z -> Z.
Variable H5VL_object_data : Z -> Z.
Variable H5F_shared : Z -> Z.
Variable H5F_ACTUAL_NAME : Z -> option string.
Variable H5R_IS_EXTERNAL : Z.

(** Modelled from the spec: the dispatch functions [H5VL_blob_specific],
    [H5VL_blob_put] and [H5VL_blob_get] of the VOL layer, which are not
    among the sources: each hands the call to the Blob Store of the
    container and returns its status. *)
Definition H5VL_blob_specific_DELETE (f : Z) (id : list byte) : M (conv_state B) Z :=
  fun s =>
    let s1 := log_call (Call_H5VL_blob_specific_DELETE f id) s in
    match blob_delete_cb f id (blobs s) with
    | Some b' => (Val SUCCEED, with_blobs b' s1)
    | None => (Val FAIL, s1)
    end.

(** [q] is the offset in [dst_buf] the blob identifier is written at. *)
Definition H5VL_blob_put (f : Z) (blob : list byte) (size : Z) (q : nat)
    : M (conv_state B) Z :=
  fun s =>
    let s1 := log_call (Call_H5VL_blob_put f blob size) s in
    match blob_put_cb f blob size (drop q (dst_buf s)) (blobs s) with
    | Some (id', b') =>
        (Val SUCCEED, with_blobs b' (with_dst_buf (take q (dst_buf s) ++ id') s1))
    | None => (Val FAIL, s1)
    end.

(** [q] is the offset in [dst_buf] the blob is read to; the result is the
    status and [*size] on return. *)
Definition H5VL_blob_get (f : Z) (id : list byte) (q : nat) (size : Z)
    : M (conv_state B) (Z * Z) :=
  fun s =>
    let s1 := log_call (Call_H5VL_blob_get f id) s in
    match blob_get_cb f id (drop q (dst_buf s)) size (blobs s) with
    | Some (buf', size', b') =>
        (Val (SUCCEED, size'),
         with_blobs b' (with_dst_buf (take q (dst_buf s) ++ buf') s1))
    | None => (Val (FAIL, size), s1)
    end.

Definition H5CX_set_libver_bounds (f : Z) : M (conv_state B) unit :=
  modify (log_call (Call_H5CX_set_libver_bounds f)).

(** The call of [H5R__encode] with a [NULL] buffer: the status and
    [*nalloc] on return. *)
Definition H5R__encode_size (filename : option string) (ref : href) (nalloc flags : Z)
    : M (conv_state B) (Z * Z) :=
  fun s =>
    let s1 := log_call (Call_H5R__encode filename ref None flags) s in
    match H5R__encode filename ref None flags with
    | Some (_, n) => (Val (SUCCEED, n), s1)
    | None => (Val (FAIL, nalloc), s1)
    end.

(** [*q++ = ...] for the bytes [bs], [q] an offset in [dst_buf]. *)
Definition store_dst (q : nat) (bs : list byte) : M (conv_state B) unit :=
  fun s =>
    match store_bytes q bs (dst_buf s) with
    | Some buf' => (Val tt, with_dst_buf buf' s)
    | None => (Fault, s)
    end.

(** [HDmemcpy(dst_buf + q, p, n)]. *)
Definition HDmemcpy_dst (q : nat) (p : list byte) (n : nat) : M (conv_state B) unit :=
  if (n <=? length p)%nat then store_dst q (take n p) else fault.

(** [*p++] and [UINT32DECODE(p, v)] on a source pointer. *)
Definition read_u8 {S : Type} (p : list byte) : M S (Z * list byte) :=
  match p with
  | b :: p' => ret (byte_val b, p')
  | [] => fault
  end.

Definition read_u32 {S : Type} (p : list byte) : M S (Z * list byte) :=
  match UINT32DECODE p with
  | Some r => ret r
  | None => fault
  end.

Definition H5T__ref_mem_getsize (src_buf : href) (dst_f : Z) : M (conv_state B) Z :=
  let src_ref := src_buf in
  let flags := 0 in
  (* Retrieve VOL object *)
  let vol_obj_file := H5VL_vol_object (loc_id src_ref) in
  if vol_obj_file =? 0
  then HGOTO_ERROR H5E_ARGS H5E_BADTYPE 0 "invalid location identifier"
  else
  (* Retrieve file from VOL object *)
  let src_f := H5VL_object_data vol_obj_file in
  if src_f =? 0
  then HGOTO_ERROR H5E_ARGS H5E_BADTYPE 0 "invalid VOL object"
  else
  (* Set external flag if referenced file is not destination file *)
  let flags :=
    Z.lor flags (if negb (H5F_shared src_f =? H5F_shared dst_f)
                 then H5R_IS_EXTERNAL else 0) in
  (* Force re-calculating encoding size if any flags are set *)
  if negb (flags =? 0) || (encode_size src_ref =? 0) then
    (if ref_type src_ref =? int8_cast (H5R_type_value H5R_DATASET_REGION2)
     then H5CX_set_libver_bounds dst_f
     else ret tt) ;;
    (* Determine encoding size *)
    r <- H5R__encode_size (H5F_ACTUAL_NAME src_f) src_ref 0 flags ;;
    if fst r <? 0
    then HGOTO_ERROR H5E_REFERENCE H5E_CANTENCODE 0 "unable to determine encoding size"
    else ret (snd r)
  else
    (* Can do a direct copy and skip blob decoding *)
    (if ref_type src_ref =? int8_cast (H5R_type_value H5R_OBJECT2)
     then modify (with_dst_copy true)
     else ret tt) ;;
    (* Get cached encoding size *)
    ret (encode_size src_ref).

Definition H5T__ref_disk_getsize (src_buf : list byte) (src_size : Z)
    : M (conv_state B) Z :=
  let p := src_buf in
  (* Set reference type *)
  r <- read_u8 p ;;
  let ref_type := fst r in
  let p := snd r in
  if (ref_type <=? H5R_type_value H5R_BADTYPE) || (ref_type >=? H5R_type_value H5R_MAXTYPE)
  then HGOTO_ERROR H5E_ARGS H5E_BADVALUE 0 "invalid reference type"
  else
  (* Set flags *)
  r <- read_u8 p ;;
  let flags := fst r in
  let p := snd r in
  if (Z.land flags H5R_IS_EXTERNAL =? 0) && (ref_type =? H5R_type_value H5R_OBJECT2)
  then
    (* Can do a direct copy and skip blob decoding *)
    modify (with_dst_copy true) ;;
    ret src_size
  else
    (* Retrieve encoded data size *)
    r <- read_u32 p ;;
    (* Add size of the header *)
    ret (size_add (fst r) H5R_ENCODE_HEADER_SIZE).

Definition H5T__ref_disk_read (src_f : Z) (src_buf : list byte) (src_size dst_size : Z)
    : M (conv_state B) Z :=
  let p := src_buf in
  let q := 0%nat in
  let expected_size := dst_size in
  (* Copy header manually *)
  HDmemcpy_dst q p (Z.to_nat H5R_ENCODE_HEADER_SIZE) ;;
  let p := drop (Z.to_nat H5R_ENCODE_HEADER_SIZE) p in
  let q := (q + Z.to_nat H5R_ENCODE_HEADER_SIZE)%nat in
  let expected_size := size_sub expected_size H5R_ENCODE_HEADER_SIZE in
  (* Skip the length of the sequence *)
  let p := drop (Z.to_nat H5_SIZEOF_UINT32_T) p in
  (* Retrieve blob *)
  r <- H5VL_blob_get src_f p q dst_size ;;
  let dst_size := snd r in
  if fst r <? 0
  then HGOTO_ERROR H5E_DATATYPE H5E_CANTGET FAIL "unable to get blob"
  else if negb (dst_size =? expected_size)
  then HGOTO_ERROR H5E_REFERENCE H5E_CANTDECODE FAIL "Expected data size does not match"
  else ret SUCCEED.

Definition H5T__ref_disk_write (src_buf : list byte) (src_size : Z) (dst_f : Z)
    (dst_size : Z) (bg_buf : option (list byte)) : M (conv_state B) Z :=
  let p := src_buf in
  let q := 0%nat in
  (* TODO Should get rid of bg stuff *)
  (match bg_buf with
   | Some p_bg =>
       (* Skip the length of the reference *)
       let p_bg := drop (Z.to_nat H5_SIZEOF_UINT32_T) p_bg in
       (* Remove blob for old data *)
       status <- H5VL_blob_specific_DELETE dst_f p_bg ;;
       if status <? 0
       then HGOTO_ERROR H5E_DATATYPE H5E_CANTREMOVE FAIL "unable to delete blob"
       else ret tt
   | None => ret tt
   end) ;;
  (* Copy header manually so that it does not get encoded into the blob *)
  HDmemcpy_dst q p (Z.to_nat H5R_ENCODE_HEADER_SIZE) ;;
  let p := drop (Z.to_nat H5R_ENCODE_HEADER_SIZE) p in
  let q := (q + Z.to_nat H5R_ENCODE_HEADER_SIZE)%nat in
  let src_size := size_sub src_size H5R_ENCODE_HEADER_SIZE in
  (* Set the size *)
  store_dst q (UINT32ENCODE src_size) ;;
  let q := (q + Z.to_nat H5_SIZEOF_UINT32_T)%nat in
  (* Store blob *)
  status <- H5VL_blob_put dst_f p src_size q ;;
  if status <? 0
  then HGOTO_ERROR H5E_DATATYPE H5E_CANTSET FAIL "unable to put blob"
  else ret SUCCEED.

(** The call of [H5R__encode] on [dst_buf] with [*nalloc] on entry: the
    status and [*nalloc] on return; the bytes behind [dst_buf] are as the
    call leaves them. *)
Definition H5R__encode_dst (filename : option string) (ref : href) (nalloc flags : Z)
    : M (conv_state B) (Z * Z) :=
  fun s =>
    let s1 := log_call (Call_H5R__encode filename ref (Some (dst_buf s, nalloc)) flags) s in
    match H5R__encode filename ref (Some (dst_buf s, nalloc)) flags with
    | Some (Some buf', n) => (Val (SUCCEED, n), with_dst_buf buf' s1)
    | Some (None, n) => (Val (SUCCEED, n), s1)
    | None => (Val (FAIL, nalloc), s1)
    end.

Definition H5T__ref_mem_read (src_buf : href) (dst_f : Z) (dst_size : Z)
    : M (conv_state B) Z :=
  let src_ref := src_buf in
  let flags := 0 in
  (* Retrieve VOL object *)
  let vol_obj_file := H5VL_vol_object (loc_id src_ref) in
  if vol_obj_file =? 0
  then HGOTO_ERROR H5E_ARGS H5E_BADTYPE 0 "invalid location identifier"
  else
  (* Retrieve file from VOL object *)
  let src_f := H5VL_object_data vol_obj_file in
  if src_f =? 0
  then HGOTO_ERROR H5E_ARGS H5E_BADTYPE 0 "invalid VOL object"
  else
  (* Set external flag if referenced file is not destination file *)
  let flags :=
    Z.lor flags (if negb (H5F_shared src_f =? H5F_shared dst_f)
                 then H5R_IS_EXTERNAL else 0) in
  (if ref_type src_ref =? int8_cast (H5R_type_value H5R_DATASET_REGION2)
   then H5CX_set_libver_bounds dst_f
   else ret tt) ;;
  (* Encode reference *)
  r <- H5R__encode_dst (H5F_ACTUAL_NAME src_f) src_ref dst_size flags ;;
  if fst r <? 0
  then HGOTO_ERROR H5E_REFERENCE H5E_CANTENCODE FAIL "Cannot encode reference"
  else ret SUCCEED.

(** ** The blob callbacks of the native VOL connector *)

(** The global heap of a file (its state has type [G]) and the address
    codec of the file layer, neither among the sources. A heap call is
    [None] when it fails ([H5HG_insert] and [H5HG_remove] return a negative
    value, [H5HG_read] returns [NULL]).
    - [H5HG_read]: the file, the heap identity, the bytes behind the object
      buffer; yields those bytes as the call leaves them.
    - [H5F_addr_encode f addr]: the bytes written at the pointer, which
      advances past them.
    - [H5F_addr_decode f p]: the address and the advanced pointer, [None]
      when it reads outside the buffer. *)
Variable G : Type.
Variable H5HG_insert : Z -> Z -> list byte -> G -> option (H5HG_t * G).
Variable H5HG_read : Z -> H5HG_t -> list byte -> G -> option (list byte * G).
Variable H5HG_remove : Z -> H5HG_t -> G -> option G.
Variable H5F_addr_encode : Z -> Z -> list byte.
Variable H5F_addr_decode : Z -> list byte -> option (Z * list byte).

Definition call_H5HG_insert (f size : Z) (obj : list byte)
    : M (blob_state G) (Z * H5HG_t) :=
  fun s =>
    let s1 := log_heap_call (Call_H5HG_insert f size obj) s in
    match H5HG_insert f size obj (gheap s) with
    | Some (hobjid, g') => (Val (SUCCEED, hobjid), with_gheap g' s1)
    | None => (Val (FAIL, mk_H5HG 0 0), s1)
    end.

(** The result is [true] when the call returns a pointer other than
    [NULL]. *)
Definition call_H5HG_read (f : Z) (hobjid : H5HG_t) : M (blob_state G) bool :=
  fun s =>
    let s1 := log_heap_call (Call_H5HG_read f hobjid) s in
    match H5HG_read f hobjid (buf_mem s) (gheap s) with
    | Some (buf', g') => (Val true, with_gheap g' (with_buf_mem buf' s1))
    | None => (Val false, s1)
    end.

Definition call_H5HG_remove (f : Z) (hobjid : H5HG_t) : M (blob_state G) Z :=
  fun s =>
    let s1 := log_heap_call (Call_H5HG_remove f hobjid) s in
    match H5HG_remove f hobjid (gheap s) with
    | Some g' => (Val SUCCEED, with_gheap g' s1)
    | None => (Val FAIL, s1)
    end.

(** Writing [bs] through the pointer [vl], an offset in the bytes behind
    [id]: the advanced pointer. *)
Definition store_id (vl : nat) (bs : list byte) : M (blob_state G) nat :=
  fun s =>
    match store_bytes vl bs (id_mem s) with
    | Some m => (Val (vl + length bs)%nat, with_id_mem m s)
    | None => (Fault, s)
    end.

Definition addr_decode {S : Type} (f : Z) (p : list byte) : M S (Z * list byte) :=
  match H5F_addr_decode f p with
  | Some r => ret r
  | None => fault
  end.

(** [ctx_f] and [ctx_seq_len] are [ctx->f] and [ctx->seq_len]. *)
Definition H5VL__native_blob_put (blob : list byte) (size : Z) (ctx_f ctx_seq_len : Z)
    : M (blob_state G) Z :=
  let vl := 0%nat in
  (* Write the VL information to disk (allocates space also) *)
  r <- call_H5HG_insert ctx_f size blob ;;
  if fst r <? 0
  then HGOTO_ERROR H5E_VOL H5E_WRITEERROR FAIL "unable to write VL information"
  else
  let hobjid := snd r in
  (* Set the length of the sequence *)
  vl <- store_id vl (UINT32ENCODE ctx_seq_len) ;;
  (* Encode the heap information *)
  vl <- store_id vl (H5F_addr_encode ctx_f (hg_addr hobjid)) ;;
  vl <- store_id vl (UINT32ENCODE (hg_idx hobjid)) ;;
  ret SUCCEED.

Definition H5VL__native_blob_get (id : list byte) (f : Z) : M (blob_state G) Z :=
  let vl := id in
  (* Skip the length of the sequence *)
  let vl := drop 4 vl in
  (* Get the heap information *)
  r <- addr_decode f vl ;;
  let hobjid_addr := fst r in
  let vl := snd r in
  r <- read_u32 vl ;;
  let hobjid_idx := fst r in
  (* Check if this sequence actually has any data *)
  if 0 <? hobjid_addr then
    (* Read the VL information from disk *)
    p <- call_H5HG_read f (mk_H5HG hobjid_addr hobjid_idx) ;;
    if negb p
    then HGOTO_ERROR H5E_DATATYPE H5E_READERROR FAIL "unable to read VL information"
    else ret SUCCEED
  else ret SUCCEED.

(** [f] is the [H5F_t *] of the [va_list] (there is none for
    [H5VL_BLOB_GETSIZE]); [*size] and [*isnull] are [out_size] and
    [out_isnull] of the state. *)
Definition H5VL__native_blob_specific (specific_type : H5VL_blob_specific_t) (f : Z)
    : M (blob_state G) Z :=
  match specific_type with
  | H5VL_BLOB_GETSIZE =>
      s <- get ;;
      let vl := id_mem s in
      (* Get length of sequence *)
      r <- read_u32 vl ;;
      modify (with_out_size (fst r)) ;;
      ret SUCCEED
  | H5VL_BLOB_ISNULL =>
      s <- get ;;
      let vl := id_mem s in
      (* Skip the sequence's length *)
      let vl := drop 4 vl in
      (* Get the heap address *)
      r <- addr_decode f vl ;;
      let addr := fst r in
      (* Check if heap address is 'nil' *)
      modify (with_out_isnull (addr =? 0)) ;;
      ret SUCCEED
  | H5VL_BLOB_SETNULL =>
      let vl := 0%nat in
      (* Set the length of the sequence *)
      vl <- store_id vl (UINT32ENCODE 0) ;;
      (* Encode the "nil" heap pointer information *)
      vl <- store_id vl (H5F_addr_encode f 0) ;;
      vl <- store_id vl (UINT32ENCODE 0) ;;
      ret SUCCEED
  | H5VL_BLOB_DELETE =>
      s <- get ;;
      let vl := id_mem s in
      (* Get length of sequence *)
      r <- read_u32 vl ;;
      let seq_len := fst r in
      let vl := snd r in
      (* Delete object, if length > 0 *)
      if 0 <? seq_len then
        (* Get heap information *)
        r <- addr_decode f vl ;;
        let hobjid_addr := fst r in
        let vl := snd r in
        r <- read_u32 vl ;;
        let hobjid_idx := fst r in
        (* Free heap object *)
        (if 0 <? hobjid_addr then
           status <- call_H5HG_remove f (mk_H5HG hobjid_addr hobjid_idx) ;;
           if status <? 0
           then HGOTO_ERROR H5E_VOL H5E_CANTREMOVE FAIL "unable to remove heap object"
           else ret tt
         else ret tt) ;;
        ret SUCCEED
      else ret SUCCEED
  | H5VL_BLOB_UNKNOWN =>
      HGOTO_ERROR H5E_VOL H5E_UNSUPPORTED FAIL "invalid specific operation"
  end.

Definition H5VL__native_blob_optional : M (blob_state G) Z := ret SUCCEED.

(** ** The memory-side write *)

(** What [H5T__ref_mem_write] calls and reads that is not among the
    sources. The state of the library behind these calls has type [L]; a
    call yields its status (the identifier for [H5F__get_file_id]), the
    reference behind [dst_ref] as it leaves it where it has one, and the
    library state.
    - [H5R__create_object], [H5R__create_region], [H5R__decode]: the bytes
      behind the source pointer and the size passed with them.
    - [dsetreg_space]: the member [space] of the [struct H5Tref_dsetreg]
      behind the source pointer.
    - [H5R_REF_FILENAME]: the file name member of a reference, [None] when
      [NULL]. *)
Variable L : Type.
Variable sizeof_haddr_t : Z.
Variable H5I_INVALID_HID : Z.
Variable dsetreg_space : list byte -> Z.
Variable H5R__create_object : list byte -> Z -> href -> L -> Z * href * L.
Variable H5R__create_region : list byte -> Z -> Z -> href -> L -> Z * href * L.
Variable H5S_close : Z -> L -> Z * L.
Variable H5R__decode : list byte -> Z -> href -> L -> Z * href * L.
Variable H5R_REF_FILENAME : href -> option string.
Variable H5F__get_file_id : Z -> bool -> L -> Z * L.
Variable H5R__set_loc_id : href -> Z -> L -> Z * href * L.
Variable H5I_dec_ref : Z -> L -> Z * L.

(** [HDmemset(dst_buf, 0, dst_size)] on the [struct href] behind
    [dst_buf]. *)
Definition zeroed_ref : href := mk_href 0 0 0 0 (repeat Byte.x00 sizeof_ref_info).

Definition mem_write_error (maj : H5E_major) (min : H5E_minor_mem_write) (msg : string)
    : option H5E_entry :=
  Some (H5E_push_entry maj min msg).

(** The [switch] on [src_type]: the error pushed on the way to [done:], if
    any, and the state. *)
Definition mem_write_switch (src_buf : list byte) (src_size : Z) (src_type : H5R_type_t)
    (s : mem_write_state L) : option H5E_entry * mem_write_state L :=
  match src_type with
  | H5R_OBJECT1 =>
      let obj_addr_ptr := src_buf in
      let '(status, dst, l) :=
        H5R__create_object obj_addr_ptr sizeof_haddr_t (mw_dst s) (mw_lib s) in
      let s := after_call (Call_H5R__create_object status) dst l s in
      if status <? 0
      then (mem_write_error H5E_REFERENCE H5E_CANTCREATE
                            "unable to create object reference", s)
      else (None, s)
  | H5R_DATASET_REGION1 =>
      let src_reg := src_buf in
      let '(status, dst, l) :=
        H5R__create_region src_reg sizeof_haddr_t (dsetreg_space src_reg)
                           (mw_dst s) (mw_lib s) in
      let s := after_call (Call_H5R__create_region (dsetreg_space src_reg) status)
                          dst l s in
      if status <? 0
      then (mem_write_error H5E_REFERENCE H5E_CANTCREATE
                            "unable to create region reference", s)
      else
        (* create_region creates its internal copy of the space *)
        let '(status, l) := H5S_close (dsetreg_space src_reg) (mw_lib s) in
        let s := after_call (Call_H5S_close (dsetreg_space src_reg) status)
                            (mw_dst s) l s in
        if status <? 0
        then (mem_write_error H5E_REFERENCE H5E_CANTFREE "Cannot close dataspace", s)
        else (None, s)
  | H5R_OBJECT2 | H5R_DATASET_REGION2 | H5R_ATTR =>
      (* Decode reference *)
      let '(status, dst, l) := H5R__decode src_buf src_size (mw_dst s) (mw_lib s) in
      let s := after_call (Call_H5R__decode status) dst l s in
      if status <? 0
      then (mem_write_error H5E_REFERENCE (H5E_MINOR H5E_CANTDECODE)
                            "Cannot decode reference", s)
      else (None, s)
  | H5R_BADTYPE | H5R_MAXTYPE =>
      (mem_write_error H5E_REFERENCE (H5E_MINOR H5E_UNSUPPORTED)
                       "internal error (unknown reference type)", s)
  end.

(** The part between the [switch] and [done:]: the error pushed, if any,
    the value of [loc_id] at [done:], and the state. *)
Definition mem_write_attach (src_f : Z) (s : mem_write_state L)
    : option H5E_entry * Z * mem_write_state L :=
  (* If no filename set, this is not an external reference *)
  match H5R_REF_FILENAME (mw_dst s) with
  | None =>
      (* Retrieve loc ID *)
      let '(loc_id, l) := H5F__get_file_id src_f false (mw_lib s) in
      let s := after_call (Call_H5F__get_file_id src_f false loc_id) (mw_dst s) l s in
      if loc_id <? 0
      then (mem_write_error H5E_ARGS (H5E_MINOR H5E_BADTYPE) "not a file or file object",
            loc_id, s)
      else
        (* Attach loc ID to reference *)
        let '(status, dst, l) := H5R__set_loc_id (mw_dst s) loc_id (mw_lib s) in
        let s := after_call (Call_H5R__set_loc_id loc_id status) dst l s in
        if status <? 0
        then (mem_write_error H5E_REFERENCE (H5E_MINOR H5E_CANTSET)
                              "unable to attach location id to reference", loc_id, s)
        else (None, loc_id, s)
  | Some _ => (None, H5I_INVALID_HID, s)
  end.

(** [done:] of [H5T__ref_mem_write]: [err] is the error pushed on the way
    here. The result is [ret_value] and the errors pushed, oldest first. *)
Definition mem_write_done (err : option H5E_entry) (loc_id : Z) (s : mem_write_state L)
    : (Z * list H5E_entry) * mem_write_state L :=
  let ret_value := match err with Some _ => FAIL | None => SUCCEED end in
  let errors := match err with Some e => [e] | None => [] end in
  if negb (loc_id =? H5I_INVALID_HID) then
    let '(status, l) := H5I_dec_ref loc_id (mw_lib s) in
    let s := after_call (Call_H5I_dec_ref loc_id status) (mw_dst s) l s in
    if status <? 0
    then ((FAIL, errors ++ [H5E_push_entry H5E_REFERENCE H5E_CANTDEC
                              "unable to decrement refcount on location id"]), s)
    else ((ret_value, errors), s)
  else ((ret_value, errors), s).

(** The bytes behind [src_buf] are read as a [haddr_t], as a
    [struct H5Tref_dsetreg] or as an encoded reference, by [src_type]. *)
Definition H5T__ref_mem_write (src_f : Z) (src_buf : list byte) (src_size : Z)
    (src_type : H5R_type_t) (s : mem_write_state L)
    : (Z * list H5E_entry) * mem_write_state L :=
  let loc_id := H5I_INVALID_HID in
  (* Make sure reference buffer is correctly initialized *)
  let s := mk_mem_write_state zeroed_ref (mw_lib s) (mw_calls s) in
  match mem_write_switch src_buf src_size src_type s with
  | (Some e, s) => mem_write_done (Some e) loc_id s
  | (None, s) =>
      let '(err, loc_id, s) := mem_write_attach src_f s in
      mem_write_done err loc_id s
  end.

(** ** Properties of the location state machine *)

Ltac unfold_body :=
  cbv beta iota zeta delta
    [H5T__ref_set_loc set_size_and_prec set_funcs bind get modify ret fault
     HGOTO_ERROR].

Ltac split_body :=
  repeat first
    [ progress simplify_eq
    | progress cbn
    | case_bool_decide
    | case_match ].

Lemma set_loc_same (f : Z) (loc : H5T_loc_t) (dt : H5T_shared_t) :
  loc = r_loc dt -> f = r_f dt ->
  H5T__ref_set_loc f loc dt = (Val FALSE, dt).
Proof.
  intros -> ->. unfold_body.
  rewrite bool_decide_eq_true_2 by done.
  by rewrite Z.eqb_refl.
Qed.

Lemma set_loc_success_other (f : Z) (loc : H5T_loc_t) (dt dt' : H5T_shared_t) (r : Z) :
  ~ (loc = r_loc dt /\ f = r_f dt) ->
  H5T__ref_set_loc f loc dt = (Val r, dt') -> r = TRUE.
Proof.
  intros Hne. unfold_body.
  destruct (bool_decide (loc = r_loc dt) && (f =? r_f dt)) eqn:Hg.
  - apply andb_true_iff in Hg as [H1 H2].
    apply bool_decide_eq_true_1 in H1. apply Z.eqb_eq in H2.
    exfalso. apply Hne. by split.
  - intros H. destruct loc; split_body; done.
Qed.

(** C7. With the target location and container the descriptor already has,
    [H5T__ref_set_loc] returns [FALSE] and leaves the whole descriptor
    (function triple, size, precision, location, container) as it was; with
    another target, a call that returns a result returns [TRUE]; so a call
    that returns a result and has changed the descriptor returns [TRUE]. *)
Theorem set_loc_unchanged_or_changed (f : Z) (loc : H5T_loc_t) (dt : H5T_shared_t) :
  (loc = r_loc dt -> f = r_f dt -> H5T__ref_set_loc f loc dt = (Val FALSE, dt)) /\
  (~ (loc = r_loc dt /\ f = r_f dt) ->
   forall r dt', H5T__ref_set_loc f loc dt = (Val r, dt') -> r = TRUE) /\
  (forall r dt', H5T__ref_set_loc f loc dt = (Val r, dt') -> dt' <> dt -> r = TRUE).
Proof.
  split; [apply set_loc_same|]. split.
  - intros Hne r dt'. by apply set_loc_success_other.
  - intros r dt' Hrun Hch.
    destruct (decide (loc = r_loc dt /\ f = r_f dt)) as [[H1 H2]|Hne].
    + rewrite set_loc_same in Hrun by done. by simplify_eq.
    + by eapply set_loc_success_other.
Qed.

(** C6 (as amended). A transition to [H5T_LOC_BADLOC] that is not a no-op
    succeeds with [TRUE], records the location, resets the file pointer to
    [NULL] and the three function pointers to [NULL]; size and precision
    (the width) stay as they were. *)
Theorem set_loc_badloc_resets (f : Z) (dt : H5T_shared_t) :
  ~ (r_loc dt = H5T_LOC_BADLOC /\ f = r_f dt) ->
  H5T__ref_set_loc f H5T_LOC_BADLOC dt =
    (Val TRUE,
     mk_H5T_shared (size dt) (prec dt) (r_rtype dt) (r_opaque dt)
                   H5T_LOC_BADLOC 0 None None None).
Proof.
  intros Hne. unfold_body.
  destruct (bool_decide (H5T_LOC_BADLOC = r_loc dt) && (f =? r_f dt)) eqn:Hg.
  - apply andb_true_iff in Hg as [H1 H2].
    apply bool_decide_eq_true_1 in H1. apply Z.eqb_eq in H2.
    exfalso. apply Hne. by split.
  - reflexivity.
Qed.

Lemma size_mul_small (a b : Z) :
  0 <= a * b < SIZE_T_MODULUS -> size_mul a b = a * b.
Proof. intros H. unfold size_mul, size_wrap. by apply Z.mod_small. Qed.

Lemma set_loc_assigned_prec (f : Z) (loc : H5T_loc_t) (dt dt' : H5T_shared_t) :
  H5T__ref_set_loc f loc dt = (Val TRUE, dt') ->
  assigns_size loc dt = true ->
  prec dt' = size_mul 8 (size dt').
Proof.
  unfold_body. unfold assigns_size.
  intros Hrun Ha. destruct loc; split_body; try done.
Qed.

(** C10. After a successful transition through a branch that assigns the
    size (any disk branch; the memory branches of an opaque type, of
    [H5R_OBJECT1] and of [H5R_DATASET_REGION1]) the precision is [8 * size]
    as [size_t] arithmetic computes it, hence exactly 8 times the size
    whenever that product is a [size_t] value. *)
Theorem set_loc_prec_is_8_times_size
    (f : Z) (loc : H5T_loc_t) (dt dt' : H5T_shared_t) :
  H5T__ref_set_loc f loc dt = (Val TRUE, dt') ->
  assigns_size loc dt = true ->
  prec dt' = size_mul 8 (size dt') /\
  (0 <= 8 * size dt' < SIZE_T_MODULUS -> prec dt' = 8 * size dt').
Proof.
  intros Hrun Ha.
  pose proof (set_loc_assigned_prec _ _ _ _ Hrun Ha) as Hp.
  split; [done|]. intros Hsmall. rewrite Hp. by apply size_mul_small.
Qed.

(** C2. A successful transition to disk of a generic reference type (one
    that is neither [H5R_OBJECT1] nor [H5R_DATASET_REGION1]) has obtained
    the container info [ci] of the file and the size [n] of a trial encode
    ([NULL] name, [NULL] buffer, no flags) of the zeroed [fixed_ref] of type
    [H5R_OBJECT2] carrying the token size of [ci], and leaves as size the
    larger of [H5_SIZEOF_UINT32_T + H5R_ENCODE_HEADER_SIZE +
    ci.blob_id_size] and [n]. *)
Theorem set_loc_disk_generic_size (f : Z) (dt dt' : H5T_shared_t) :
  H5T__ref_set_loc f H5T_LOC_DISK dt = (Val TRUE, dt') ->
  r_rtype dt <> H5R_OBJECT1 ->
  r_rtype dt <> H5R_DATASET_REGION1 ->
  exists ci buf n,
    H5F__get_cont_info f (mk_cont_info H5VL_CONTAINER_INFO_VERSION 0 0 0) = Some ci /\
    H5R__encode None (fixed_ref ci) None 0 = Some (buf, n) /\
    ref_type (fixed_ref ci) = int8_cast (H5R_type_value H5R_OBJECT2) /\
    token_size (fixed_ref ci) = uint8_cast (ci_token_size ci) /\
    size dt' =
      Z.max (size_add (size_add H5_SIZEOF_UINT32_T H5R_ENCODE_HEADER_SIZE)
                      (ci_blob_id_size ci)) n /\
    (0 <= ci_blob_id_size ci < SIZE_T_MODULUS - 6 ->
     size dt' =
       Z.max (H5_SIZEOF_UINT32_T + H5R_ENCODE_HEADER_SIZE + ci_blob_id_size ci) n).
Proof.
  unfold_body. intros Hrun H1 H2.
  split_body.
  all: eexists _, _, _; repeat split; try done.
  all: intros Hb; f_equal.
  all: unfold size_add, size_wrap, SIZE_T_MODULUS, H5_SIZEOF_UINT32_T,
         H5R_ENCODE_HEADER_SIZE in *.
  all: rewrite (Z.mod_small (4 + 2)) by lia.
  all: rewrite Z.mod_small; lia.
Qed.

(** ** Properties of the converters *)

Lemma byte_val_range (b : byte) : 0 <= byte_val b < 256.
Proof.
  unfold byte_val. pose proof (Byte.to_N_bounded b). lia.
Qed.

Lemma lor_range (n a b : Z) :
  0 <= n -> 0 <= a < 2 ^ n -> 0 <= b < 2 ^ n -> 0 <= Z.lor a b < 2 ^ n.
Proof.
  intros Hn Ha Hb. split; [apply Z.lor_nonneg; lia|].
  destruct (decide (Z.lor a b = 0)) as [->|Hz]; [apply Z.pow_pos_nonneg; lia|].
  assert (0 < Z.lor a b) by (pose proof (proj2 (Z.lor_nonneg a b)); lia).
  apply Z.log2_lt_pow2; [done|].
  rewrite Z.log2_lor by lia.
  destruct (decide (a = 0)) as [->|]; destruct (decide (b = 0)) as [->|].
  - by destruct Hz.
  - rewrite Z.max_r by (simpl; apply Z.log2_nonneg). apply Z.log2_lt_pow2; lia.
  - rewrite Z.max_l by (simpl; apply Z.log2_nonneg). apply Z.log2_lt_pow2; lia.
  - apply Z.max_lub_lt; apply Z.log2_lt_pow2; lia.
Qed.

Lemma UINT32DECODE_range (p p' : list byte) (v : Z) :
  UINT32DECODE p = Some (v, p') -> 0 <= v < 2 ^ 32.
Proof.
  unfold UINT32DECODE. intros H.
  destruct p as [|b0 [|b1 [|b2 [|b3 q]]]]; simplify_eq.
  pose proof (byte_val_range b0). pose proof (byte_val_range b1).
  pose proof (byte_val_range b2). pose proof (byte_val_range b3).
  rewrite !Z.shiftl_mul_pow2 by lia.
  repeat apply lor_range; lia.
Qed.

Lemma size_add_header (v : Z) :
  0 <= v < 2 ^ 32 ->
  size_add v H5R_ENCODE_HEADER_SIZE = v + H5R_ENCODE_HEADER_SIZE.
Proof.
  intros H. unfold size_add, size_wrap, SIZE_T_MODULUS, H5R_ENCODE_HEADER_SIZE.
  apply Z.mod_small. lia.
Qed.

Ltac unfold_conv :=
  cbv beta iota zeta delta
    [H5T__ref_disk_getsize H5T__ref_mem_getsize H5T__ref_disk_read
     H5T__ref_disk_write H5VL_blob_specific_DELETE H5VL_blob_put H5VL_blob_get
     H5CX_set_libver_bounds H5R__encode_size HDmemcpy_dst store_dst
     read_u8 read_u32 bind get modify ret fault HGOTO_ERROR fst snd].

(** C3. The generic disk-side size query reads the tag byte and the flags
    byte at the front of the source. A tag outside the open range
    [(H5R_BADTYPE, H5R_MAXTYPE)] fails with [H5E_BADVALUE] (return value 0).
    A valid tag equal to [H5R_OBJECT2] with the external flag clear returns
    [src_size] and sets [*dst_copy]. Every other valid case returns the
    4-byte length that follows the flags byte plus
    [H5R_ENCODE_HEADER_SIZE] and leaves [*dst_copy] as it was. *)
Theorem disk_getsize_cases
    (tag fl : byte) (rest : list byte) (src_size : Z) (s : conv_state B) :
  ((byte_val tag <= H5R_type_value H5R_BADTYPE \/
    H5R_type_value H5R_MAXTYPE <= byte_val tag) ->
   H5T__ref_disk_getsize (tag :: rest) src_size s =
     (Exit 0 (H5E_push H5E_ARGS H5E_BADVALUE "invalid reference type"), s)) /\
  (H5R_type_value H5R_BADTYPE < byte_val tag < H5R_type_value H5R_MAXTYPE ->
   Z.land (byte_val fl) H5R_IS_EXTERNAL = 0 ->
   byte_val tag = H5R_type_value H5R_OBJECT2 ->
   H5T__ref_disk_getsize (tag :: fl :: rest) src_size s =
     (Val src_size, with_dst_copy true s)) /\
  (H5R_type_value H5R_BADTYPE < byte_val tag < H5R_type_value H5R_MAXTYPE ->
   ~ (Z.land (byte_val fl) H5R_IS_EXTERNAL = 0 /\
      byte_val tag = H5R_type_value H5R_OBJECT2) ->
   forall len rest',
     UINT32DECODE rest = Some (len, rest') ->
     H5T__ref_disk_getsize (tag :: fl :: rest) src_size s =
       (Val (len + H5R_ENCODE_HEADER_SIZE), s)).
Proof.
  split; [|split].
  - intros Hbad. unfold_conv.
    destruct (_ || _) eqn:Hg; [done|].
    apply orb_false_iff in Hg as [H1 H2]. lia.
  - intros Hok Hext Hobj. unfold_conv.
    destruct (_ || _) eqn:Hg; [apply orb_true_iff in Hg; lia|].
    rewrite Hext, Hobj, !Z.eqb_refl. done.
  - intros Hok Hnot len rest' Hdec. unfold_conv.
    destruct (_ || _) eqn:Hg; [apply orb_true_iff in Hg; lia|].
    destruct (_ && _) eqn:Hd.
    + apply andb_true_iff in Hd as [H1 H2]. lia.
    + rewrite Hdec. cbn.
      by rewrite (size_add_header len) by (by eapply UINT32DECODE_range).
Qed.

(** C4. For a handle whose identifier resolves to a file [src_f]: when
    [src_f] shares its container with [dst_f] and the cached [encode_size]
    is not zero, the memory-side size query returns the cached size, issues
    no call (no trial encode), and writes [TRUE] to [*dst_copy] exactly when
    the handle is of type [H5R_OBJECT2] (otherwise [*dst_copy] is left as it
    was); when the containers differ or the cached size is zero, it calls
    [H5R__encode] with a [NULL] buffer (after [H5CX_set_libver_bounds] for a
    [H5R_DATASET_REGION2] handle) and returns the size that call reports, or
    fails with [H5E_CANTENCODE]. *)
Theorem mem_getsize_cached_or_encoded
    (src_ref : href) (dst_f : Z) (s : conv_state B) :
  H5VL_vol_object (loc_id src_ref) <> 0 ->
  H5VL_object_data (H5VL_vol_object (loc_id src_ref)) <> 0 ->
  H5R_IS_EXTERNAL <> 0 ->
  let src_f := H5VL_object_data (H5VL_vol_object (loc_id src_ref)) in
  let res := H5T__ref_mem_getsize src_ref dst_f s in
  (H5F_shared src_f = H5F_shared dst_f -> encode_size src_ref <> 0 ->
   fst res = Val (encode_size src_ref) /\
   calls (snd res) = calls s /\
   (ref_type src_ref = int8_cast (H5R_type_value H5R_OBJECT2) ->
    dst_copy (snd res) = true) /\
   (ref_type src_ref <> int8_cast (H5R_type_value H5R_OBJECT2) ->
    dst_copy (snd res) = dst_copy s)) /\
  (H5F_shared src_f <> H5F_shared dst_f \/ encode_size src_ref = 0 ->
   let flags := if negb (H5F_shared src_f =? H5F_shared dst_f)
                then H5R_IS_EXTERNAL else 0 in
   let encode := Call_H5R__encode (H5F_ACTUAL_NAME src_f) src_ref None flags in
   calls (snd res) =
     calls s ++
     (if ref_type src_ref =? int8_cast (H5R_type_value H5R_DATASET_REGION2)
      then [Call_H5CX_set_libver_bounds dst_f; encode] else [encode]) /\
   dst_copy (snd res) = dst_copy s /\
   fst res =
     match H5R__encode (H5F_ACTUAL_NAME src_f) src_ref None flags with
     | Some (_, n) => Val n
     | None => Exit 0 (H5E_push H5E_REFERENCE H5E_CANTENCODE
                                "unable to determine encoding size")
     end).
Proof.
  intros Hv Hf Hext src_f res. subst src_f res. unfold_conv.
  rewrite (proj2 (Z.eqb_neq _ _) Hv), (proj2 (Z.eqb_neq _ _) Hf).
  rewrite Z.lor_0_l.
  split.
  - intros Hsh Hsz.
    rewrite Hsh, Z.eqb_refl, (proj2 (Z.eqb_neq _ _) Hsz). cbn.
    destruct (ref_type src_ref =? _) eqn:Ht; cbn.
    + apply Z.eqb_eq in Ht. done.
    + apply Z.eqb_neq in Ht. done.
  - intros Hor.
    match goal with
    | |- context [negb (?x =? 0) || ?y] =>
        assert (negb (x =? 0) || y = true) as ->
    end.
    { destruct Hor as [Hsh|Hsz].
      - rewrite (proj2 (Z.eqb_neq _ _) Hsh). cbn.
        by rewrite (proj2 (Z.eqb_neq _ _) Hext).
      - rewrite Hsz. cbn. apply orb_true_r. }
    destruct (ref_type src_ref =? int8_cast (H5R_type_value H5R_DATASET_REGION2));
      cbn; destruct (H5R__encode _ _ _ _) as [[? ?]|]; cbn;
      rewrite <- ?app_assoc; done.
Qed.

Lemma header_size_nat : Z.to_nat H5R_ENCODE_HEADER_SIZE = 2%nat.
Proof. reflexivity. Qed.

Lemma uint32_size_nat : Z.to_nat H5_SIZEOF_UINT32_T = 4%nat.
Proof. reflexivity. Qed.

Lemma store_bytes_front (bs buf : list byte) :
  (length bs <= length buf)%nat ->
  store_bytes 0 bs buf = Some (bs ++ drop (length bs) buf).
Proof.
  intros H. unfold store_bytes.
  rewrite (proj2 (Nat.leb_le _ _)) by (simpl; lia). done.
Qed.

Lemma store_bytes_after (pre bs old : list byte) :
  (length bs <= length old)%nat ->
  store_bytes (length pre) bs (pre ++ old) = Some (pre ++ bs ++ drop (length bs) old).
Proof.
  intros H. unfold store_bytes.
  rewrite (proj2 (Nat.leb_le _ _)) by (rewrite length_app; lia).
  rewrite take_app_length. rewrite drop_app_add'; done.
Qed.

(** The header copy of the two disk converters. *)
Lemma copy_header (p : list byte) (s : conv_state B) :
  (2 <= length p)%nat -> (2 <= length (dst_buf s))%nat ->
  HDmemcpy_dst 0 p (Z.to_nat H5R_ENCODE_HEADER_SIZE) s =
    (Val tt, with_dst_buf (take 2 p ++ drop 2 (dst_buf s)) s).
Proof.
  intros Hp Hd. rewrite header_size_nat. unfold HDmemcpy_dst, store_dst.
  rewrite (proj2 (Nat.leb_le _ _)) by done.
  rewrite store_bytes_front by (rewrite length_take; lia).
  rewrite length_take, Nat.min_l by done. done.
Qed.

Lemma drop_header_copied (p d : list byte) :
  (2 <= length p)%nat -> drop 2 (take 2 p ++ d) = d.
Proof.
  intros Hp. apply drop_app_length'. rewrite length_take. lia.
Qed.

Lemma take_header_copied (p d : list byte) :
  (2 <= length p)%nat -> take 2 (take 2 p ++ d) = take 2 p.
Proof.
  intros Hp. apply take_app_length'. rewrite length_take. lia.
Qed.

Lemma size_sub_header (n : Z) :
  H5R_ENCODE_HEADER_SIZE <= n < SIZE_T_MODULUS ->
  size_sub n H5R_ENCODE_HEADER_SIZE = n - H5R_ENCODE_HEADER_SIZE.
Proof.
  unfold size_sub, size_wrap, SIZE_T_MODULUS, H5R_ENCODE_HEADER_SIZE.
  intros H. apply Z.mod_small. lia.
Qed.

(** What [H5T__ref_disk_read] does once the header is copied. *)
Lemma disk_read_run (src_f : Z) (src_buf : list byte) (src_size dst_size : Z)
    (s : conv_state B) :
  (2 <= length src_buf)%nat -> (2 <= length (dst_buf s))%nat ->
  let id := drop 4 (drop 2 src_buf) in
  let get := Call_H5VL_blob_get src_f id in
  H5T__ref_disk_read src_f src_buf src_size dst_size s =
    match blob_get_cb src_f id (drop 2 (dst_buf s)) dst_size (blobs s) with
    | None =>
        (Exit FAIL (H5E_push H5E_DATATYPE H5E_CANTGET "unable to get blob"),
         log_call get (with_dst_buf (take 2 src_buf ++ drop 2 (dst_buf s)) s))
    | Some (buf', n, b') =>
        let s' :=
          with_blobs b'
            (with_dst_buf (take 2 src_buf ++ buf')
               (log_call get (with_dst_buf (take 2 src_buf ++ drop 2 (dst_buf s)) s))) in
        if n =? size_sub dst_size H5R_ENCODE_HEADER_SIZE
        then (Val SUCCEED, s')
        else (Exit FAIL (H5E_push H5E_REFERENCE H5E_CANTDECODE
                                  "Expected data size does not match"), s')
    end.
Proof.
  intros Hp Hd id get0. subst id get0.
  unfold H5T__ref_disk_read, bind.
  rewrite copy_header by done.
  rewrite header_size_nat, uint32_size_nat.
  unfold H5VL_blob_get. cbn [dst_buf with_dst_buf log_call blobs Nat.add].
  rewrite drop_header_copied, take_header_copied by done.
  destruct (blob_get_cb _ _ _ _ _) as [[[buf' n] b']|]; cbn.
  - destruct (n =? _); done.
  - done.
Qed.

(** C5. With a source and a destination that hold the header and a
    destination capacity [dst_size] of at least the header:
    [H5T__ref_disk_read] fails with [H5E_CANTGET] when the blob cannot be
    retrieved; when it is retrieved with a length other than
    [dst_size - H5R_ENCODE_HEADER_SIZE] the read fails with the error
    "Expected data size does not match"; only the exact length succeeds. *)
Theorem disk_read_failures
    (src_f : Z) (src_buf : list byte) (src_size dst_size : Z) (s : conv_state B) :
  (2 <= length src_buf)%nat -> (2 <= length (dst_buf s))%nat ->
  H5R_ENCODE_HEADER_SIZE <= dst_size < SIZE_T_MODULUS ->
  let id := drop 4 (drop 2 src_buf) in
  let res := H5T__ref_disk_read src_f src_buf src_size dst_size s in
  (blob_get_cb src_f id (drop 2 (dst_buf s)) dst_size (blobs s) = None ->
   fst res = Exit FAIL (H5E_push H5E_DATATYPE H5E_CANTGET "unable to get blob")) /\
  (forall buf' n b',
     blob_get_cb src_f id (drop 2 (dst_buf s)) dst_size (blobs s) = Some (buf', n, b') ->
     (n <> dst_size - H5R_ENCODE_HEADER_SIZE ->
      fst res = Exit FAIL (H5E_push H5E_REFERENCE H5E_CANTDECODE
                                    "Expected data size does not match")) /\
     (n = dst_size - H5R_ENCODE_HEADER_SIZE -> fst res = Val SUCCEED)).
Proof.
  intros Hp Hd Hsz id res. subst id res.
  rewrite disk_read_run by done. cbn zeta.
  rewrite size_sub_header by done.
  split.
  - by intros ->.
  - intros buf' n b' ->. split; intros Hn.
    + by rewrite (proj2 (Z.eqb_neq _ _) Hn).
    + by rewrite (proj2 (Z.eqb_eq _ _) Hn).
Qed.

Lemma UINT32ENCODE_length (i : Z) : length (UINT32ENCODE i) = 4%nat.
Proof. reflexivity. Qed.

(** What [H5T__ref_disk_write] does after the background part, on buffers
    that hold the header and the length field. *)
Lemma disk_write_tail_run (src_buf : list byte) (src_size dst_f dst_size : Z)
    (s : conv_state B) :
  (2 <= length src_buf)%nat -> (6 <= length (dst_buf s))%nat ->
  let n := size_sub src_size H5R_ENCODE_HEADER_SIZE in
  let put := Call_H5VL_blob_put dst_f (drop 2 src_buf) n in
  let hdr := take 2 src_buf ++ UINT32ENCODE n in
  let s1 := with_dst_buf (hdr ++ drop 6 (dst_buf s)) s in
  H5T__ref_disk_write src_buf src_size dst_f dst_size None s =
    match blob_put_cb dst_f (drop 2 src_buf) n (drop 6 (dst_buf s)) (blobs s) with
    | None =>
        (Exit FAIL (H5E_push H5E_DATATYPE H5E_CANTSET "unable to put blob"),
         log_call put s1)
    | Some (id', b2) =>
        (Val SUCCEED, with_blobs b2 (with_dst_buf (hdr ++ id') (log_call put s1)))
    end.
Proof.
  intros Hp Hd n put hdr s1. subst n put hdr s1.
  unfold H5T__ref_disk_write, bind, ret.
  rewrite copy_header by lia.
  rewrite header_size_nat, uint32_size_nat.
  unfold store_dst. cbn [dst_buf with_dst_buf Nat.add].
  pose proof (store_bytes_after (take 2 src_buf)
                (UINT32ENCODE (size_sub src_size H5R_ENCODE_HEADER_SIZE))
                (drop 2 (dst_buf s))) as Hst.
  rewrite length_take, Nat.min_l in Hst by done.
  rewrite Hst by (rewrite length_drop, UINT32ENCODE_length; lia).
  rewrite UINT32ENCODE_length, drop_drop.
  unfold H5VL_blob_put. cbn [dst_buf with_dst_buf log_call blobs Nat.add].
  rewrite (app_assoc (take 2 src_buf)).
  assert (length (take 2 src_buf ++
                  UINT32ENCODE (size_sub src_size H5R_ENCODE_HEADER_SIZE)) = 6%nat)
    as Hlen by (rewrite length_app, length_take, UINT32ENCODE_length; lia).
  rewrite (drop_app_length' _ _ 6 (eq_sym Hlen)), (take_app_length' _ _ 6 (eq_sym Hlen)).
  destruct (blob_put_cb _ _ _ _ _) as [[id' b2]|]; done.
Qed.

(** The background part: the delete is issued first, on the bytes of the
    background buffer from offset [H5_SIZEOF_UINT32_T] on, and a failure
    leaves the function at once. *)
Lemma disk_write_bg_run (src_buf : list byte) (src_size dst_f dst_size : Z)
    (p_bg : list byte) (s : conv_state B) :
  let del := Call_H5VL_blob_specific_DELETE dst_f (drop 4 p_bg) in
  H5T__ref_disk_write src_buf src_size dst_f dst_size (Some p_bg) s =
    match blob_delete_cb dst_f (drop 4 p_bg) (blobs s) with
    | None =>
        (Exit FAIL (H5E_push H5E_DATATYPE H5E_CANTREMOVE "unable to delete blob"),
         log_call del s)
    | Some b1 =>
        H5T__ref_disk_write src_buf src_size dst_f dst_size None
                            (with_blobs b1 (log_call del s))
    end.
Proof.
  intros del. subst del.
  unfold H5T__ref_disk_write at 1, bind at 1, bind at 1, bind at 1.
  rewrite uint32_size_nat. unfold H5VL_blob_specific_DELETE.
  destruct (blob_delete_cb _ _ _) as [b1|]; cbn; [|done].
  unfold H5T__ref_disk_write, bind at 1, ret at 1. done.
Qed.

(** Without a background buffer the function issues at most one call, the
    put. *)
Lemma disk_write_tail_calls (src_buf : list byte) (src_size dst_f dst_size : Z)
    (s : conv_state B) :
  let res := H5T__ref_disk_write src_buf src_size dst_f dst_size None s in
  let put := Call_H5VL_blob_put dst_f (drop 2 src_buf)
                                (size_sub src_size H5R_ENCODE_HEADER_SIZE) in
  calls (snd res) = calls s \/ calls (snd res) = calls s ++ [put].
Proof.
  intros res put. subst res put.
  unfold H5T__ref_disk_write, bind, ret, HDmemcpy_dst, store_dst, fault,
    H5VL_blob_put, HGOTO_ERROR.
  rewrite header_size_nat, uint32_size_nat.
  destruct (2 <=? length src_buf)%nat; [|by left].
  destruct (store_bytes 0 _ _) as [d1|]; [|by left].
  cbn [dst_buf with_dst_buf].
  destruct (store_bytes _ _ d1) as [d2|]; [|by left].
  cbn [dst_buf with_dst_buf blobs].
  destruct (blob_put_cb _ _ _ _ _) as [[id' b2]|]; cbn; by right.
Qed.

(** X1. Delete before put. For every call of [H5T__ref_disk_write] with a
    background buffer: the calls it issues are one
    [H5VL_blob_specific(DELETE)] on the bytes of that buffer from offset
    [H5_SIZEOF_UINT32_T] on, followed by at most one [H5VL_blob_put]; when
    the delete fails the function returns [FAIL] with [H5E_CANTREMOVE] and
    the put is not issued; on buffers that hold the header and the length
    field a delete that succeeds is followed by exactly one put. *)
Theorem disk_write_delete_before_put
    (src_buf : list byte) (src_size dst_f dst_size : Z) (p_bg : list byte)
    (s : conv_state B) :
  let res := H5T__ref_disk_write src_buf src_size dst_f dst_size (Some p_bg) s in
  let del := Call_H5VL_blob_specific_DELETE dst_f (drop 4 p_bg) in
  let put := Call_H5VL_blob_put dst_f (drop 2 src_buf)
                                (size_sub src_size H5R_ENCODE_HEADER_SIZE) in
  (calls (snd res) = calls s ++ [del] \/ calls (snd res) = calls s ++ [del; put]) /\
  (blob_delete_cb dst_f (drop 4 p_bg) (blobs s) = None ->
   calls (snd res) = calls s ++ [del] /\
   fst res = Exit FAIL (H5E_push H5E_DATATYPE H5E_CANTREMOVE "unable to delete blob")) /\
  (blob_delete_cb dst_f (drop 4 p_bg) (blobs s) <> None ->
   (2 <= length src_buf)%nat -> (6 <= length (dst_buf s))%nat ->
   calls (snd res) = calls s ++ [del; put]).
Proof.
  intros res del put. subst res del put.
  rewrite disk_write_bg_run. cbn zeta.
  destruct (blob_delete_cb _ _ _) as [b1|] eqn:Hdel.
  - split; [|split; [done|]].
    + destruct (disk_write_tail_calls src_buf src_size dst_f dst_size
                  (with_blobs b1
                     (log_call (Call_H5VL_blob_specific_DELETE dst_f (drop 4 p_bg)) s)))
        as [H|H]; rewrite H; cbn; [by left|right].
      by rewrite <- app_assoc.
    + intros _ Hp Hd.
      rewrite disk_write_tail_run by done. cbn zeta.
      destruct (blob_put_cb _ _ _ _ _) as [[id' b2]|]; cbn;
        by rewrite <- app_assoc.
  - split; [by left|]. split; [done|]. by intros [].
Qed.

(** Where a record keeps its blob identifier: a write that succeeds leaves
    the header in bytes 0-1 of the record, the length in bytes 2-5, and from
    byte 6 on whatever the put callback left behind [id]. *)
Lemma disk_write_record_layout (src_buf : list byte) (src_size dst_f dst_size : Z)
    (s s' : conv_state B) :
  (2 <= length src_buf)%nat -> (6 <= length (dst_buf s))%nat ->
  H5T__ref_disk_write src_buf src_size dst_f dst_size None s = (Val SUCCEED, s') ->
  exists id' b',
    blob_put_cb dst_f (drop 2 src_buf) (size_sub src_size H5R_ENCODE_HEADER_SIZE)
                (drop 6 (dst_buf s)) (blobs s) = Some (id', b') /\
    take 2 (dst_buf s') = take 2 src_buf /\
    take 4 (drop 2 (dst_buf s')) =
      UINT32ENCODE (size_sub src_size H5R_ENCODE_HEADER_SIZE) /\
    drop 6 (dst_buf s') = id'.
Proof.
  intros Hp Hd. rewrite disk_write_tail_run by done. cbn zeta.
  destruct (blob_put_cb _ _ _ _ _) as [[id' b2]|]; [|done].
  intros [= <-]. exists id', b2. cbn [dst_buf with_dst_buf with_blobs].
  split; [done|].
  rewrite <- !app_assoc.
  rewrite take_app_length' by (rewrite length_take; lia).
  rewrite drop_app_length' by (rewrite length_take; lia).
  rewrite take_app_length' by done.
  rewrite (app_assoc (take 2 src_buf)).
  rewrite drop_app_length'; [done|].
  rewrite length_app, length_take, UINT32ENCODE_length. lia.
Qed.

(** The delete of an overwrite and the identifier of the record. When a
    write without background has left the record [dst_buf s'], the bytes of
    that record from offset 4 on, which a later write with this record as
    background hands to the delete, are the last two bytes of the length
    field followed by the blob identifier the put left at offset 6. *)
Lemma disk_write_delete_target (src_buf : list byte) (src_size dst_f dst_size : Z)
    (s s' : conv_state B) :
  (2 <= length src_buf)%nat -> (6 <= length (dst_buf s))%nat ->
  H5T__ref_disk_write src_buf src_size dst_f dst_size None s = (Val SUCCEED, s') ->
  drop 4 (dst_buf s') =
    drop 2 (UINT32ENCODE (size_sub src_size H5R_ENCODE_HEADER_SIZE)) ++
    drop 6 (dst_buf s').
Proof.
  intros Hp Hd Hrun.
  destruct (disk_write_record_layout _ _ _ _ _ _ Hp Hd Hrun)
    as (id' & b' & _ & _ & Hlen & _).
  assert (length (take 4 (drop 2 (dst_buf s'))) = 4%nat) as Hl4
    by (by rewrite Hlen).
  rewrite <- Hlen.
  change 4%nat with (2 + 2)%nat at 1. rewrite <- drop_drop.
  rewrite <- (take_drop 4 (drop 2 (dst_buf s'))) at 1.
  rewrite drop_app_le by lia.
  by rewrite drop_drop.
Qed.

(** ** Properties of the native blob callbacks *)

Ltac unfold_blob :=
  cbv beta iota zeta delta
    [H5VL__native_blob_specific H5VL__native_blob_get H5VL__native_blob_put
     call_H5HG_insert call_H5HG_read call_H5HG_remove addr_decode read_u32
     bind get modify ret fault HGOTO_ERROR fst snd].

(** C8 (as amended). [H5VL_BLOB_DELETE] decodes the length of the sequence
    first. With length 0 it is a no-op that succeeds, whatever the address.
    With a positive length it decodes the heap identity: address 0 is a
    no-op that succeeds; a positive address makes exactly one call of
    [H5HG_remove] for that identity, and the callback fails with
    [H5E_CANTREMOVE] when that call fails. *)
Theorem native_blob_delete_cases (f : Z) (s : blob_state G)
    (seq_len : Z) (vl1 : list byte) :
  UINT32DECODE (id_mem s) = Some (seq_len, vl1) ->
  (seq_len = 0 ->
   H5VL__native_blob_specific H5VL_BLOB_DELETE f s = (Val SUCCEED, s)) /\
  (0 < seq_len ->
   forall addr idx vl2 vl3,
     H5F_addr_decode f vl1 = Some (addr, vl2) ->
     UINT32DECODE vl2 = Some (idx, vl3) ->
     (addr = 0 ->
      H5VL__native_blob_specific H5VL_BLOB_DELETE f s = (Val SUCCEED, s)) /\
     (0 < addr ->
      let s1 := log_heap_call (Call_H5HG_remove f (mk_H5HG addr idx)) s in
      H5VL__native_blob_specific H5VL_BLOB_DELETE f s =
        match H5HG_remove f (mk_H5HG addr idx) (gheap s) with
        | Some g' => (Val SUCCEED, with_gheap g' s1)
        | None =>
            (Exit FAIL (H5E_push H5E_VOL H5E_CANTREMOVE "unable to remove heap object"),
             s1)
        end)).
Proof.
  intros Hlen. unfold_blob. rewrite Hlen. cbn.
  split.
  - by intros ->.
  - intros Hpos addr idx vl2 vl3 Haddr Hidx.
    rewrite (proj2 (Z.ltb_lt _ _) Hpos), Haddr. cbn. rewrite Hidx. cbn.
    split.
    + by intros ->.
    + intros Ha. rewrite (proj2 (Z.ltb_lt _ _) Ha).
      destruct (H5HG_remove _ _ _); done.
Qed.

Lemma store_id_front (bs : list byte) (s : blob_state G) :
  (length bs <= length (id_mem s))%nat ->
  store_id 0 bs s =
    (Val (length bs), with_id_mem (bs ++ drop (length bs) (id_mem s)) s).
Proof.
  intros H. unfold store_id. by rewrite store_bytes_front.
Qed.

Lemma store_id_after (pre bs old : list byte) (s : blob_state G) :
  id_mem s = pre ++ old ->
  (length bs <= length old)%nat ->
  store_id (length pre) bs s =
    (Val (length pre + length bs)%nat,
     with_id_mem (pre ++ bs ++ drop (length bs) old) s).
Proof.
  intros Hm H. unfold store_id. by rewrite Hm, store_bytes_after.
Qed.

Lemma store_id_three (a b c : list byte) (s : blob_state G) :
  (length a + length b + length c <= length (id_mem s))%nat ->
  (vl <- store_id 0 a ;; vl <- store_id vl b ;; vl <- store_id vl c ;; ret SUCCEED) s =
    (Val SUCCEED,
     with_id_mem
       (a ++ b ++ c ++ drop (length a + length b + length c) (id_mem s)) s).
Proof.
  intros Hlen. unfold bind, ret.
  rewrite store_id_front by lia.
  set (s1 := with_id_mem _ s).
  rewrite (store_id_after a b (drop (length a) (id_mem s)) s1)
    by (try done; rewrite length_drop; lia).
  set (s2 := with_id_mem _ s1).
  rewrite <- length_app.
  rewrite (store_id_after (a ++ b) c (drop (length b) (drop (length a) (id_mem s))) s2).
  - subst s1 s2. unfold with_id_mem. cbn.
    rewrite <- ?app_assoc, ?drop_drop, ?length_app, ?Nat.add_assoc. done.
  - subst s2. cbn [with_id_mem id_mem]. by rewrite <- app_assoc.
  - rewrite !length_drop. lia.
Qed.

(** [H5VL_BLOB_SETNULL] on a buffer that holds a blob identifier: a zero
    length, the encoding of address 0 and a zero index, in place. *)
Lemma native_blob_setnull_run (f : Z) (s : blob_state G) :
  (4 + length (H5F_addr_encode f 0) + 4 <= length (id_mem s))%nat ->
  H5VL__native_blob_specific H5VL_BLOB_SETNULL f s =
    (Val SUCCEED,
     with_id_mem
       (UINT32ENCODE 0 ++ H5F_addr_encode f 0 ++ UINT32ENCODE 0 ++
        drop (4 + length (H5F_addr_encode f 0) + 4) (id_mem s)) s).
Proof.
  intros Hlen. unfold H5VL__native_blob_specific.
  by rewrite store_id_three.
Qed.

(** C9. With an address codec that decodes its encoding of address 0 as 0,
    on a buffer that holds a blob identifier: [H5VL_BLOB_SETNULL] succeeds
    and leaves an identifier for which [H5VL_BLOB_ISNULL] reports [TRUE],
    and for which [H5VL__native_blob_get] succeeds without any change of
    state: the destination buffer is as the caller left it and no call
    reaches the heap. *)
Theorem native_blob_setnull_isnull_get (f : Z) (s : blob_state G) :
  (forall rest, H5F_addr_decode f (H5F_addr_encode f 0 ++ rest) = Some (0, rest)) ->
  (4 + length (H5F_addr_encode f 0) + 4 <= length (id_mem s))%nat ->
  exists s1,
    H5VL__native_blob_specific H5VL_BLOB_SETNULL f s = (Val SUCCEED, s1) /\
    (exists s2,
       H5VL__native_blob_specific H5VL_BLOB_ISNULL f s1 = (Val SUCCEED, s2) /\
       out_isnull s2 = true) /\
    (forall sg : blob_state G,
       H5VL__native_blob_get (id_mem s1) f sg = (Val SUCCEED, sg)).
Proof.
  intros Hnil Hlen. eexists. split; [by apply native_blob_setnull_run|].
  cbn [with_id_mem id_mem]. split.
  - eexists. unfold_blob. cbn [id_mem with_id_mem].
    rewrite (drop_app_length' (UINT32ENCODE 0)) by done.
    rewrite Hnil. cbn. done.
  - intros sg. unfold_blob.
    rewrite (drop_app_length' (UINT32ENCODE 0)) by done.
    rewrite Hnil. cbn. done.
Qed.

(** ** Further properties *)

(** X2. A transition to [H5T_LOC_MAXLOC] that is not a no-op fails with
    [H5E_BADRANGE] and leaves the descriptor as it was. *)
Theorem set_loc_maxloc_fails (f : Z) (dt : H5T_shared_t) :
  ~ (r_loc dt = H5T_LOC_MAXLOC /\ f = r_f dt) ->
  H5T__ref_set_loc f H5T_LOC_MAXLOC dt =
    (Exit FAIL (H5E_push H5E_DATATYPE H5E_BADRANGE "invalid reference datatype location"),
     dt).
Proof.
  intros Hne. unfold_body.
  destruct (bool_decide (H5T_LOC_MAXLOC = r_loc dt) && (f =? r_f dt)) eqn:Hg.
  - apply andb_true_iff in Hg as [H1 H2].
    apply bool_decide_eq_true_1 in H1. apply Z.eqb_eq in H2.
    exfalso. apply Hne. by split.
  - reflexivity.
Qed.

(** X7. A call that goes through no size-assigning branch (a no-op, a
    transition to [H5T_LOC_BADLOC] or [H5T_LOC_MAXLOC], the memory branch of
    a non-opaque type that is neither [H5R_OBJECT1] nor
    [H5R_DATASET_REGION1]) leaves size and precision as they were, whatever
    its outcome. *)
Theorem set_loc_keeps_width (f : Z) (loc : H5T_loc_t) (dt dt' : H5T_shared_t)
    (r : outcome Z) :
  H5T__ref_set_loc f loc dt = (r, dt') ->
  r = Val FALSE \/ assigns_size loc dt = false ->
  size dt' = size dt /\ prec dt' = prec dt.
Proof.
  unfold_body. unfold assigns_size.
  destruct (bool_decide (loc = r_loc dt) && (f =? r_f dt)) eqn:Hg.
  - intros [= <- <-]. done.
  - intros Hrun [->|Ha].
    + destruct loc; split_body; done.
    + destruct loc; try done.
      * by injection Hrun as <- <-.
      * apply orb_false_iff in Ha as [Ha H3].
        apply orb_false_iff in Ha as [H1 H2].
        rewrite H1, H2, H3 in Hrun. by injection Hrun as <- <-.
      * by injection Hrun as <- <-.
Qed.

(** X3. A transition to memory that is not a no-op succeeds with [TRUE] and
    records location and file pointer. An opaque type gets the size
    [H5R_REF_BUF_SIZE] and the three memory converters; a non-opaque
    [H5R_OBJECT1] or [H5R_DATASET_REGION1] type gets its own memory size and
    no converter; any other type keeps size, precision and converters. *)
Theorem set_loc_memory_binding (f : Z) (dt : H5T_shared_t) :
  ~ (r_loc dt = H5T_LOC_MEMORY /\ f = r_f dt) ->
  H5T__ref_set_loc f H5T_LOC_MEMORY dt =
    (Val TRUE,
     if r_opaque dt then
       mk_H5T_shared H5R_REF_BUF_SIZE (size_mul 8 H5R_REF_BUF_SIZE) (r_rtype dt) true
                     H5T_LOC_MEMORY f (Some PTR_H5T__ref_mem_getsize)
                     (Some PTR_H5T__ref_mem_read) (Some PTR_H5T__ref_mem_write)
     else if bool_decide (r_rtype dt = H5R_OBJECT1) then
       mk_H5T_shared H5R_OBJ_REF_BUF_SIZE (size_mul 8 H5R_OBJ_REF_BUF_SIZE)
                     (r_rtype dt) false H5T_LOC_MEMORY f None None None
     else if bool_decide (r_rtype dt = H5R_DATASET_REGION1) then
       mk_H5T_shared H5R_DSET_REG_REF_BUF_SIZE (size_mul 8 H5R_DSET_REG_REF_BUF_SIZE)
                     (r_rtype dt) false H5T_LOC_MEMORY f None None None
     else
       mk_H5T_shared (size dt) (prec dt) (r_rtype dt) false H5T_LOC_MEMORY f
                     (r_getsize dt) (r_read dt) (r_write dt)).
Proof.
  intros Hne. unfold_body.
  destruct (bool_decide (H5T_LOC_MEMORY = r_loc dt) && (f =? r_f dt)) eqn:Hg.
  - apply andb_true_iff in Hg as [H1 H2].
    apply bool_decide_eq_true_1 in H1. apply Z.eqb_eq in H2.
    exfalso. apply Hne. by split.
  - destruct (r_opaque dt) eqn:Ho; repeat case_bool_decide;
      unfold with_write, with_read, with_getsize, with_prec, with_size, with_f,
        with_loc; cbn; by rewrite ?Ho.
Qed.

(** X4. A transition to disk (a file pointer other than [NULL]) of a
    legacy type that is not a no-op succeeds with [TRUE]: [H5R_OBJECT1] gets
    the address size of the file, [H5R_DATASET_REGION1] the size of a heap
    identifier, each with its size query and its read function and no write
    function. *)
Theorem set_loc_disk_legacy (f : Z) (dt : H5T_shared_t) :
  f <> 0 ->
  ~ (r_loc dt = H5T_LOC_DISK /\ f = r_f dt) ->
  (r_rtype dt = H5R_OBJECT1 ->
   H5T__ref_set_loc f H5T_LOC_DISK dt =
     (Val TRUE,
      mk_H5T_shared (H5F_SIZEOF_ADDR f) (size_mul 8 (H5F_SIZEOF_ADDR f)) H5R_OBJECT1
                    (r_opaque dt) H5T_LOC_DISK f (Some PTR_H5T__ref_obj_disk_getsize)
                    (Some PTR_H5T__ref_obj_disk_read) None)) /\
  (r_rtype dt = H5R_DATASET_REGION1 ->
   H5T__ref_set_loc f H5T_LOC_DISK dt =
     (Val TRUE,
      mk_H5T_shared (H5HG_HEAP_ID_SIZE f) (size_mul 8 (H5HG_HEAP_ID_SIZE f))
                    H5R_DATASET_REGION1 (r_opaque dt) H5T_LOC_DISK f
                    (Some PTR_H5T__ref_dsetreg_disk_getsize)
                    (Some PTR_H5T__ref_dsetreg_disk_read) None)).
Proof.
  intros Hf Hne.
  assert (bool_decide (H5T_LOC_DISK = r_loc dt) && (f =? r_f dt) = false) as Hg.
  { apply andb_false_iff.
    destruct (decide (H5T_LOC_DISK = r_loc dt)) as [Hl|Hl].
    - right. apply Z.eqb_neq. intros Heq. apply Hne. by split.
    - left. by apply bool_decide_eq_false_2. }
  split; intros Ht; unfold_body; rewrite Hg, (proj2 (Z.eqb_neq _ _) Hf), Ht;
    unfold with_write, with_read, with_getsize, with_prec, with_size, with_f,
      with_loc; cbn; by rewrite ?Ht.
Qed.

(** X5. [H5VL_BLOB_GETSIZE] returns the length at the front of the
    identifier through [*size] and touches neither the identifier nor the
    heap. *)
Theorem native_blob_getsize_decodes (f : Z) (s : blob_state G)
    (len : Z) (rest : list byte) :
  UINT32DECODE (id_mem s) = Some (len, rest) ->
  H5VL__native_blob_specific H5VL_BLOB_GETSIZE f s = (Val SUCCEED, with_out_size len s).
Proof.
  intros Hlen. unfold_blob. by rewrite Hlen.
Qed.

(** X6. [H5VL__native_blob_put] inserts the blob into the global heap and
    writes the identifier of the new object behind [id]: the sequence
    length, the heap address, the heap index. When the insert fails it
    fails with [H5E_WRITEERROR] and leaves the bytes behind [id] alone. *)
Theorem native_blob_put_identifier (blob : list byte) (size ctx_f ctx_seq_len : Z)
    (s : blob_state G) :
  let s1 := log_heap_call (Call_H5HG_insert ctx_f size blob) s in
  (H5HG_insert ctx_f size blob (gheap s) = None ->
   H5VL__native_blob_put blob size ctx_f ctx_seq_len s =
     (Exit FAIL (H5E_push H5E_VOL H5E_WRITEERROR "unable to write VL information"), s1)) /\
  (forall h g',
     H5HG_insert ctx_f size blob (gheap s) = Some (h, g') ->
     (4 + length (H5F_addr_encode ctx_f (hg_addr h)) + 4 <= length (id_mem s))%nat ->
     H5VL__native_blob_put blob size ctx_f ctx_seq_len s =
       (Val SUCCEED,
        with_id_mem
          (UINT32ENCODE ctx_seq_len ++ H5F_addr_encode ctx_f (hg_addr h) ++
           UINT32ENCODE (hg_idx h) ++
           drop (4 + length (H5F_addr_encode ctx_f (hg_addr h)) + 4) (id_mem s))
          (with_gheap g' s1))).
Proof.
  intros s1. subst s1. split.
  - intros Hins. unfold H5VL__native_blob_put, bind at 1, call_H5HG_insert.
    by rewrite Hins.
  - intros h g' Hins Hlen.
    unfold H5VL__native_blob_put, bind at 1, call_H5HG_insert.
    rewrite Hins. cbn [fst snd SUCCEED Z.ltb Z.compare].
    by rewrite store_id_three.
Qed.

(** ** The length field *)

Lemma byte_val_of (z : Z) : byte_val (byte_of z) = z mod 256.
Proof.
  unfold byte_val, byte_of.
  assert (0 <= z mod 256 < 256) as Hr by (apply Z.mod_pos_bound; lia).
  destruct (Byte.of_N (Z.to_N (z mod 256))) as [b|] eqn:Hb.
  - apply Byte.to_of_N in Hb. first [rewrite Hb | rewrite <- Hb]. apply Z2N.id. lia.
  - apply Byte.of_N_None_iff in Hb. lia.
Qed.

Lemma land_255_byte (z : Z) : byte_val (byte_of (Z.land z 255)) = Z.land z 255.
Proof.
  rewrite byte_val_of. apply Z.mod_small.
  change 255 with (Z.ones 8). rewrite Z.land_ones by lia.
  apply Z.mod_pos_bound. lia.
Qed.

Lemma uint32_pieces (i : Z) :
  Z.lor (Z.lor (Z.lor (Z.land i 255) (Z.shiftl (Z.land (Z.shiftr i 8) 255) 8))
               (Z.shiftl (Z.land (Z.shiftr i 16) 255) 16))
        (Z.shiftl (Z.land (Z.shiftr i 24) 255) 24) = i mod 2 ^ 32.
Proof.
  rewrite <- Z.land_ones by lia.
  apply Z.bits_inj'. intros n Hn.
  change 255 with (Z.ones 8).
  rewrite !Z.lor_spec, !Z.shiftl_spec, !Z.land_spec by lia.
  rewrite !Z.testbit_ones by lia.
  destruct (Z.leb_spec 0 (n - 8)), (Z.leb_spec 0 (n - 16)), (Z.leb_spec 0 (n - 24));
    try lia;
    rewrite ?Z.shiftr_spec by lia;
    rewrite ?Z.sub_add, ?andb_false_r, ?orb_false_r, ?andb_true_l;
    destruct (Z.leb_spec 0 n); try lia;
    destruct (Z.ltb_spec n 8), (Z.ltb_spec (n - 8) 8), (Z.ltb_spec (n - 16) 8),
      (Z.ltb_spec (n - 24) 8), (Z.ltb_spec n 32); try lia;
    rewrite ?andb_false_r, ?andb_true_r, ?orb_false_r, ?orb_false_l; done.
Qed.

(** Decoding what [UINT32ENCODE] wrote gives the low 32 bits of the value
    and the pointer past the four bytes. *)
Lemma UINT32DECODE_ENCODE (i : Z) (rest : list byte) :
  UINT32DECODE (UINT32ENCODE i ++ rest) = Some (i mod 2 ^ 32, rest).
Proof.
  unfold UINT32ENCODE, UINT32DECODE. cbn [app].
  rewrite !land_255_byte. by rewrite uint32_pieces.
Qed.

(** ** Further properties of the location state machine *)

Lemma set_loc_guard_false (f : Z) (loc : H5T_loc_t) (dt : H5T_shared_t) :
  ~ (loc = r_loc dt /\ f = r_f dt) ->
  bool_decide (loc = r_loc dt) && (f =? r_f dt) = false.
Proof.
  intros Hne. apply andb_false_iff.
  destruct (decide (loc = r_loc dt)) as [Hl|Hl].
  - right. apply Z.eqb_neq. intros Heq. apply Hne. by split.
  - left. by apply bool_decide_eq_false_2.
Qed.

(** A transition that reports a change has recorded the target location,
    and the file pointer it was given ([NULL] for [H5T_LOC_BADLOC]). *)
Lemma set_loc_records (f : Z) (loc : H5T_loc_t) (dt dt' : H5T_shared_t) :
  H5T__ref_set_loc f loc dt = (Val TRUE, dt') ->
  r_loc dt' = loc /\ r_f dt' = (if bool_decide (loc = H5T_LOC_BADLOC) then 0 else f).
Proof.
  unfold_body.
  destruct (bool_decide (loc = r_loc dt) && (f =? r_f dt)) eqn:Hg.
  - intros H. discriminate H.
  - intros H. destruct loc; split_body; done.
Qed.

(** X8. Asking twice. After a transition that reported a change, the same
    call again reports no change and leaves the descriptor alone, for a
    memory or disk target and for [H5T_LOC_BADLOC] with a [NULL] file
    pointer. For [H5T_LOC_BADLOC] with a file pointer other than [NULL] the
    descriptor keeps [NULL], the guard never matches, and the same call
    reports a change again (with the descriptor as it is). *)
Theorem set_loc_repeated (f : Z) (loc : H5T_loc_t) (dt dt' : H5T_shared_t) :
  H5T__ref_set_loc f loc dt = (Val TRUE, dt') ->
  (loc <> H5T_LOC_BADLOC \/ f = 0 ->
   H5T__ref_set_loc f loc dt' = (Val FALSE, dt')) /\
  (loc = H5T_LOC_BADLOC -> f <> 0 ->
   H5T__ref_set_loc f loc dt' = (Val TRUE, dt')).
Proof.
  intros Hrun. split.
  - intros Hor. destruct (set_loc_records _ _ _ _ Hrun) as [Hl Hf].
    apply set_loc_same; [done|].
    rewrite Hf. case_bool_decide; [|done].
    destruct Hor as [Hne| ->]; done.
  - intros -> Hf. revert Hrun. unfold_body.
    destruct (bool_decide (H5T_LOC_BADLOC = r_loc dt) && (f =? r_f dt)) eqn:Hg.
    + intros H. discriminate H.
    + intros [= <-]. cbn.
      by rewrite (proj2 (Z.eqb_neq _ _) Hf), andb_false_r.
Qed.

(** X9. What a call that does not succeed leaves behind. The reference
    type and the opacity flag are never written. A call that fails (or
    reads through a [NULL] file pointer) has changed neither size,
    precision nor the three function pointers: the descriptor is as it was,
    or, for a disk target, has only location and file pointer overwritten
    with the target. *)
Theorem set_loc_failure_frame (f : Z) (loc : H5T_loc_t) (dt dt' : H5T_shared_t)
    (r : outcome Z) :
  H5T__ref_set_loc f loc dt = (r, dt') ->
  r_rtype dt' = r_rtype dt /\ r_opaque dt' = r_opaque dt /\
  ((forall v, r <> Val v) ->
   dt' = dt \/
   (loc = H5T_LOC_DISK /\ dt' = with_f f (with_loc H5T_LOC_DISK dt))).
Proof.
  unfold_body.
  destruct (bool_decide (loc = r_loc dt) && (f =? r_f dt)) eqn:Hg.
  - intros [= <- <-]. split; [done|]. split; [done|]. by left.
  - intros Hrun.
    destruct loc; split_body;
      (split; [done|]); (split; [done|]); intros Hnv;
      first [ by left | by right | by (exfalso; eapply Hnv) ].
Qed.

(** ** Further properties of the disk converters *)

(** The record a write that succeeds leaves: header, length field, and the
    identifier the put left. *)
Lemma disk_write_success (src_buf : list byte) (src_size dst_f dst_size : Z)
    (s s1 : conv_state B) :
  (2 <= length src_buf)%nat -> (6 <= length (dst_buf s))%nat ->
  H5T__ref_disk_write src_buf src_size dst_f dst_size None s = (Val SUCCEED, s1) ->
  let n := size_sub src_size H5R_ENCODE_HEADER_SIZE in
  exists id' b',
    blob_put_cb dst_f (drop 2 src_buf) n (drop 6 (dst_buf s)) (blobs s) = Some (id', b') /\
    dst_buf s1 = take 2 src_buf ++ UINT32ENCODE n ++ id' /\
    blobs s1 = b'.
Proof.
  intros Hp Hd. rewrite disk_write_tail_run by done. cbn zeta.
  destruct (blob_put_cb _ _ _ _ _) as [[id' b2]|]; [|done].
  intros [= <-]. exists id', b2. cbn [dst_buf with_dst_buf with_blobs blobs].
  by rewrite <- app_assoc.
Qed.

(** X10. Round trip through the container. A write without background
    that succeeds leaves a record from which [H5T__ref_disk_read] rebuilds
    the encoded reference that was written: provided the Blob Store, asked
    for the identifier the put left, returns the bytes it was given, a read
    of the record into a destination of [src_size] bytes succeeds and the
    destination holds the first [src_size] bytes of the source. *)
Theorem disk_write_read_round_trip
    (src_buf : list byte) (src_size dst_f dst_size : Z) (s s1 : conv_state B)
    (out : list byte) :
  (2 <= length src_buf)%nat -> (6 <= length (dst_buf s))%nat ->
  (2 <= length out)%nat ->
  H5R_ENCODE_HEADER_SIZE <= src_size < SIZE_T_MODULUS ->
  H5T__ref_disk_write src_buf src_size dst_f dst_size None s = (Val SUCCEED, s1) ->
  (forall id' b',
     blob_put_cb dst_f (drop 2 src_buf) (src_size - H5R_ENCODE_HEADER_SIZE)
                 (drop 6 (dst_buf s)) (blobs s) = Some (id', b') ->
     exists b2,
       blob_get_cb dst_f id' (drop 2 out) src_size b' =
         Some (take (Z.to_nat (src_size - H5R_ENCODE_HEADER_SIZE)) (drop 2 src_buf),
               src_size - H5R_ENCODE_HEADER_SIZE, b2)) ->
  forall rec_size : Z,
  exists sr,
    H5T__ref_disk_read dst_f (dst_buf s1) rec_size src_size (with_dst_buf out s1) =
      (Val SUCCEED, sr) /\
    dst_buf sr = take (Z.to_nat src_size) src_buf.
Proof.
  intros Hp Hd Ho Hsz Hw Hstore rec_size.
  destruct (disk_write_success _ _ _ _ _ _ Hp Hd Hw) as (id' & b' & Hput & Hrec & Hb).
  rewrite size_sub_header in Hput, Hrec by done.
  destruct (Hstore _ _ Hput) as [b2 Hget].
  assert (2 <= length (dst_buf s1))%nat as Hr
    by (rewrite Hrec, length_app, length_take; lia).
  rewrite disk_read_run by done. cbn zeta.
  cbn [dst_buf with_dst_buf blobs].
  rewrite Hrec, Hb.
  rewrite drop_header_copied, take_header_copied by done.
  rewrite (drop_app_length' (UINT32ENCODE _)) by done.
  rewrite Hget, size_sub_header, Z.eqb_refl by done.
  eexists. split; [done|]. cbn [dst_buf with_dst_buf with_blobs].
  rewrite take_take_drop. f_equal.
  unfold H5R_ENCODE_HEADER_SIZE in *. lia.
Qed.

(** X11. The size query on a written record. For a reference whose header
    does not qualify for the direct copy, the size query on the record a
    write left returns the length the write stored plus the header: the
    size of the encoded reference as long as it is below
    [2 ^ 32 + H5R_ENCODE_HEADER_SIZE]; above, the 4-byte length field has
    kept only the low 32 bits of the payload length. *)
Theorem disk_getsize_of_written_record
    (tag fl : byte) (rest : list byte) (src_size dst_f dst_size : Z)
    (s s1 : conv_state B) :
  (6 <= length (dst_buf s))%nat ->
  H5T__ref_disk_write (tag :: fl :: rest) src_size dst_f dst_size None s =
    (Val SUCCEED, s1) ->
  H5R_type_value H5R_BADTYPE < byte_val tag < H5R_type_value H5R_MAXTYPE ->
  ~ (Z.land (byte_val fl) H5R_IS_EXTERNAL = 0 /\
     byte_val tag = H5R_type_value H5R_OBJECT2) ->
  forall (rec_size : Z) (sq : conv_state B),
    H5T__ref_disk_getsize (dst_buf s1) rec_size sq =
      (Val (size_sub src_size H5R_ENCODE_HEADER_SIZE mod 2 ^ 32 + H5R_ENCODE_HEADER_SIZE),
       sq) /\
    (H5R_ENCODE_HEADER_SIZE <= src_size < 2 ^ 32 + H5R_ENCODE_HEADER_SIZE ->
     H5T__ref_disk_getsize (dst_buf s1) rec_size sq = (Val src_size, sq)).
Proof.
  intros Hd Hw Hok Hnot rec_size sq.
  assert (2 <= length (tag :: fl :: rest))%nat as Hp by (simpl; lia).
  destruct (disk_write_success _ _ _ _ _ _ Hp Hd Hw) as (id' & b' & _ & Hrec & _).
  assert (H5T__ref_disk_getsize (dst_buf s1) rec_size sq =
            (Val (size_sub src_size H5R_ENCODE_HEADER_SIZE mod 2 ^ 32
                  + H5R_ENCODE_HEADER_SIZE), sq)) as Hq.
  { rewrite Hrec. cbn [take app]. unfold_conv.
    destruct (_ || _) eqn:Hg; [apply orb_true_iff in Hg; lia|].
    destruct (_ && _) eqn:Hdc.
    - apply andb_true_iff in Hdc as [H1 H2]. exfalso. apply Hnot. lia.
    - rewrite take_0, app_nil_l, UINT32DECODE_ENCODE. cbn.
      rewrite size_add_header; [done|]. apply Z.mod_pos_bound. lia. }
  split; [done|]. intros Hsz. rewrite Hq. do 2 f_equal.
  unfold size_sub, size_wrap, SIZE_T_MODULUS, H5R_ENCODE_HEADER_SIZE in *.
  rewrite (Z.mod_small (src_size - 2)) by lia.
  rewrite Z.mod_small by lia. lia.
Qed.

(** X12. A put that fails. When the put fails the write returns [FAIL]
    with [H5E_CANTSET], but the destination already carries the new header
    and the new length, in front of the identifier bytes it had; and in an
    overwrite the delete of the old blob has already been done: the store
    is the one the delete left. *)
Theorem disk_write_put_failure
    (src_buf : list byte) (src_size dst_f dst_size : Z) (p_bg : list byte)
    (s : conv_state B) (b1 : B) :
  (2 <= length src_buf)%nat -> (6 <= length (dst_buf s))%nat ->
  blob_delete_cb dst_f (drop 4 p_bg) (blobs s) = Some b1 ->
  blob_put_cb dst_f (drop 2 src_buf) (size_sub src_size H5R_ENCODE_HEADER_SIZE)
              (drop 6 (dst_buf s)) b1 = None ->
  let res := H5T__ref_disk_write src_buf src_size dst_f dst_size (Some p_bg) s in
  fst res = Exit FAIL (H5E_push H5E_DATATYPE H5E_CANTSET "unable to put blob") /\
  blobs (snd res) = b1 /\
  dst_buf (snd res) =
    take 2 src_buf ++ UINT32ENCODE (size_sub src_size H5R_ENCODE_HEADER_SIZE) ++
    drop 6 (dst_buf s).
Proof.
  intros Hp Hd Hdel Hput res. subst res.
  rewrite disk_write_bg_run. cbn zeta. rewrite Hdel.
  rewrite disk_write_tail_run by done. cbn zeta.
  cbn [dst_buf with_blobs log_call blobs]. rewrite Hput.
  cbn [fst snd blobs dst_buf log_call with_dst_buf with_blobs].
  by rewrite <- app_assoc.
Qed.

(** ** Properties of the memory-side read *)

Ltac unfold_mem_read :=
  cbv beta iota zeta delta
    [H5T__ref_mem_read H5T__ref_mem_getsize H5R__encode_dst H5R__encode_size
     H5CX_set_libver_bounds bind get modify ret fault HGOTO_ERROR fst snd].

(** X13. A handle that does not resolve. When the identifier of the handle
    has no VOL object, or the VOL object no file, [H5T__ref_mem_read]
    pushes [H5E_BADTYPE] and leaves through [done:] with the return value
    0: the value [SUCCEED], which the test [< 0] of a caller of this
    [herr_t] function does not take for a failure. Nothing has been encoded:
    the destination and the call log are as they were. *)
Theorem mem_read_unresolved_returns_zero
    (src_ref : href) (dst_f dst_size : Z) (s : conv_state B) :
  H5VL_vol_object (loc_id src_ref) = 0 \/
  H5VL_object_data (H5VL_vol_object (loc_id src_ref)) = 0 ->
  exists (r : Z) (e : H5E_t),
    H5T__ref_mem_read src_ref dst_f dst_size s = (Exit r e, s) /\
    err_major e = H5E_ARGS /\ err_minor e = H5E_BADTYPE /\
    r = SUCCEED /\ ~ r < 0.
Proof.
  intros Hbad. unfold_mem_read.
  destruct (H5VL_vol_object (loc_id src_ref) =? 0) eqn:Hv.
  - eexists _, _. split; [done|]. repeat split; done.
  - destruct Hbad as [H|H]; [apply Z.eqb_neq in Hv; done|].
    rewrite H. cbn. eexists _, _. split; [done|]. repeat split; done.
Qed.

(** X14. The encode of the read is the encode of the size query. For a
    handle that resolves to a file [src_f], [H5T__ref_mem_read] issues one
    call of [H5R__encode] on the destination buffer with its capacity
    (after [H5CX_set_libver_bounds] for a [H5R_DATASET_REGION2] handle),
    with the name of [src_f] and the external flag set exactly when [src_f]
    and [dst_f] do not share a container; it succeeds with the bytes that
    call leaves, or fails with [H5E_CANTENCODE]. Whenever the size query
    makes a trial encode, it is the same call but for the [NULL] buffer. *)
Theorem mem_read_encodes_like_getsize
    (src_ref : href) (dst_f dst_size : Z) (s : conv_state B) :
  H5VL_vol_object (loc_id src_ref) <> 0 ->
  H5VL_object_data (H5VL_vol_object (loc_id src_ref)) <> 0 ->
  let src_f := H5VL_object_data (H5VL_vol_object (loc_id src_ref)) in
  let flags := if negb (H5F_shared src_f =? H5F_shared dst_f)
               then H5R_IS_EXTERNAL else 0 in
  let pre := if ref_type src_ref =? int8_cast (H5R_type_value H5R_DATASET_REGION2)
             then [Call_H5CX_set_libver_bounds dst_f] else [] in
  let buf := Some (dst_buf s, dst_size) in
  let res := H5T__ref_mem_read src_ref dst_f dst_size s in
  calls (snd res) =
    calls s ++ pre ++ [Call_H5R__encode (H5F_ACTUAL_NAME src_f) src_ref buf flags] /\
  fst res =
    match H5R__encode (H5F_ACTUAL_NAME src_f) src_ref buf flags with
    | Some _ => Val SUCCEED
    | None => Exit FAIL (H5E_push H5E_REFERENCE H5E_CANTENCODE "Cannot encode reference")
    end /\
  dst_buf (snd res) =
    match H5R__encode (H5F_ACTUAL_NAME src_f) src_ref buf flags with
    | Some (Some buf', _) => buf'
    | _ => dst_buf s
    end /\
  dst_copy (snd res) = dst_copy s /\
  (flags <> 0 \/ encode_size src_ref = 0 ->
   calls (snd (H5T__ref_mem_getsize src_ref dst_f s)) =
     calls s ++ pre ++ [Call_H5R__encode (H5F_ACTUAL_NAME src_f) src_ref None flags]).
Proof.
  intros Hv Hf src_f flags pre buf res. subst src_f flags pre buf res.
  unfold_mem_read.
  rewrite (proj2 (Z.eqb_neq _ _) Hv), (proj2 (Z.eqb_neq _ _) Hf).
  rewrite Z.lor_0_l.
  repeat split.
  - destruct (ref_type src_ref =? _); cbn;
      destruct (H5R__encode _ _ _ _) as [[[?|] ?]|]; cbn;
      rewrite <- ?app_assoc; done.
  - destruct (ref_type src_ref =? _); cbn;
      destruct (H5R__encode _ _ _ _) as [[[?|] ?]|]; done.
  - destruct (ref_type src_ref =? _); cbn;
      destruct (H5R__encode _ _ _ _) as [[[?|] ?]|]; done.
  - destruct (ref_type src_ref =? _); cbn;
      destruct (H5R__encode _ _ _ _) as [[[?|] ?]|]; done.
  - intros Hor.
    match goal with
    | |- context [negb (?x =? 0) || ?y] =>
        assert (negb (x =? 0) || y = true) as ->
    end.
    { destruct Hor as [Hfl|Hsz].
      - by rewrite (proj2 (Z.eqb_neq _ _) Hfl).
      - rewrite Hsz. cbn. apply orb_true_r. }
    destruct (ref_type src_ref =? _); cbn;
      destruct (H5R__encode _ _ None _) as [[? ?]|]; cbn;
      rewrite <- ?app_assoc; done.
Qed.

(** ** Further properties of the native blob callbacks *)

(** The identifier [H5VL__native_blob_put] writes for the heap object [h]
    under the sequence length [seq_len], in front of the bytes [rest]. *)
Lemma native_blob_put_run (blob : list byte) (size ctx_f ctx_seq_len : Z)
    (s : blob_state G) (h : H5HG_t) (g' : G) :
  H5HG_insert ctx_f size blob (gheap s) = Some (h, g') ->
  (4 + length (H5F_addr_encode ctx_f (hg_addr h)) + 4 <= length (id_mem s))%nat ->
  H5VL__native_blob_put blob size ctx_f ctx_seq_len s =
    (Val SUCCEED,
     with_id_mem
       (UINT32ENCODE ctx_seq_len ++ H5F_addr_encode ctx_f (hg_addr h) ++
        UINT32ENCODE (hg_idx h) ++
        drop (4 + length (H5F_addr_encode ctx_f (hg_addr h)) + 4) (id_mem s))
       (with_gheap g' (log_heap_call (Call_H5HG_insert ctx_f size blob) s))).
Proof.
  intros Hins Hlen.
  unfold H5VL__native_blob_put, bind at 1, call_H5HG_insert.
  rewrite Hins. cbn [fst snd SUCCEED Z.ltb Z.compare].
  by rewrite store_id_three.
Qed.

(** Decoding the heap identity of an identifier laid out as the put and
    [H5VL_BLOB_SETNULL] write it. *)
Lemma native_blob_identity (f seq_len : Z) (h : H5HG_t) (rest : list byte) :
  (forall r, H5F_addr_decode f (H5F_addr_encode f (hg_addr h) ++ r) = Some (hg_addr h, r)) ->
  0 <= hg_idx h < 2 ^ 32 ->
  let id := UINT32ENCODE seq_len ++ H5F_addr_encode f (hg_addr h) ++
            UINT32ENCODE (hg_idx h) ++ rest in
  UINT32DECODE id = Some (seq_len mod 2 ^ 32, drop 4 id) /\
  H5F_addr_decode f (drop 4 id) = Some (hg_addr h, UINT32ENCODE (hg_idx h) ++ rest) /\
  UINT32DECODE (UINT32ENCODE (hg_idx h) ++ rest) = Some (hg_idx h, rest).
Proof.
  intros Hcodec Hidx id. subst id.
  rewrite (drop_app_length' (UINT32ENCODE seq_len)) by done.
  rewrite !UINT32DECODE_ENCODE, Hcodec.
  by rewrite (Z.mod_small (hg_idx h)).
Qed.

(** X15. Put, then get. With an address codec that decodes what it encoded
    for the address of the new object, and a heap index that fits the four
    bytes of the identifier: the identifier [H5VL__native_blob_put] leaves
    makes [H5VL__native_blob_get] read the very heap object the insert
    returned, with one call of [H5HG_read] that decides the result; unless
    the heap placed the object at address 0, which the get takes for the
    nil identifier and answers with success without reading. *)
Theorem native_blob_put_then_get (blob : list byte) (size ctx_f ctx_seq_len : Z)
    (s : blob_state G) (h : H5HG_t) (g' : G) :
  H5HG_insert ctx_f size blob (gheap s) = Some (h, g') ->
  (4 + length (H5F_addr_encode ctx_f (hg_addr h)) + 4 <= length (id_mem s))%nat ->
  (forall r, H5F_addr_decode ctx_f (H5F_addr_encode ctx_f (hg_addr h) ++ r) =
             Some (hg_addr h, r)) ->
  0 <= hg_idx h < 2 ^ 32 ->
  exists s1,
    H5VL__native_blob_put blob size ctx_f ctx_seq_len s = (Val SUCCEED, s1) /\
    forall sg : blob_state G,
      H5VL__native_blob_get (id_mem s1) ctx_f sg =
        if 0 <? hg_addr h then
          match H5HG_read ctx_f h (buf_mem sg) (gheap sg) with
          | Some (buf', g2) =>
              (Val SUCCEED,
               with_gheap g2 (with_buf_mem buf' (log_heap_call (Call_H5HG_read ctx_f h) sg)))
          | None =>
              (Exit FAIL (H5E_push H5E_DATATYPE H5E_READERROR
                                   "unable to read VL information"),
               log_heap_call (Call_H5HG_read ctx_f h) sg)
          end
        else (Val SUCCEED, sg).
Proof.
  intros Hins Hlen Hcodec Hidx.
  eexists. split; [by apply native_blob_put_run|].
  intros sg. cbn [with_id_mem id_mem].
  destruct (native_blob_identity ctx_f ctx_seq_len h
              (drop (4 + length (H5F_addr_encode ctx_f (hg_addr h)) + 4) (id_mem s))
              Hcodec Hidx) as (_ & Haddr & Hix).
  unfold_blob. rewrite Haddr. cbv beta iota zeta. rewrite Hix. cbv beta iota zeta.
  destruct h as [addr idx]. cbn [hg_addr hg_idx].
  destruct (0 <? addr); [|done].
  destruct (H5HG_read _ _ _ _) as [[buf' g2]|]; done.
Qed.

(** X16. Put, then delete. Under the same conditions, [H5VL_BLOB_DELETE]
    on the identifier the put left removes the heap object the insert
    returned, with one call of [H5HG_remove], exactly when the sequence
    length the put was given is not 0 modulo [2 ^ 32] and the object is not
    at address 0. A blob put under the sequence length 0 is never removed
    from the heap by its delete, which succeeds without a call. *)
Theorem native_blob_put_then_delete (blob : list byte) (size ctx_f ctx_seq_len : Z)
    (s : blob_state G) (h : H5HG_t) (g' : G) :
  H5HG_insert ctx_f size blob (gheap s) = Some (h, g') ->
  (4 + length (H5F_addr_encode ctx_f (hg_addr h)) + 4 <= length (id_mem s))%nat ->
  (forall r, H5F_addr_decode ctx_f (H5F_addr_encode ctx_f (hg_addr h) ++ r) =
             Some (hg_addr h, r)) ->
  0 <= hg_idx h < 2 ^ 32 ->
  exists s1,
    H5VL__native_blob_put blob size ctx_f ctx_seq_len s = (Val SUCCEED, s1) /\
    gheap s1 = g' /\
    H5VL__native_blob_specific H5VL_BLOB_DELETE ctx_f s1 =
      if (0 <? ctx_seq_len mod 2 ^ 32) && (0 <? hg_addr h) then
        match H5HG_remove ctx_f h g' with
        | Some g2 =>
            (Val SUCCEED, with_gheap g2 (log_heap_call (Call_H5HG_remove ctx_f h) s1))
        | None =>
            (Exit FAIL (H5E_push H5E_VOL H5E_CANTREMOVE "unable to remove heap object"),
             log_heap_call (Call_H5HG_remove ctx_f h) s1)
        end
      else (Val SUCCEED, s1).
Proof.
  intros Hins Hlen Hcodec Hidx.
  eexists. split; [by apply native_blob_put_run|]. split; [done|].
  destruct (native_blob_identity ctx_f ctx_seq_len h
              (drop (4 + length (H5F_addr_encode ctx_f (hg_addr h)) + 4) (id_mem s))
              Hcodec Hidx) as (Hseq & Haddr & Hix).
  unfold_blob. cbn [with_id_mem id_mem]. rewrite Hseq. cbv beta iota zeta.
  destruct (0 <? ctx_seq_len mod 2 ^ 32); [|done]. cbn [andb].
  rewrite Haddr. cbv beta iota zeta. rewrite Hix. cbv beta iota zeta.
  destruct h as [addr idx]. cbn [hg_addr hg_idx].
  destruct (0 <? addr); [|done].
  unfold log_heap_call, with_gheap, with_id_mem. cbn [gheap heap_calls id_mem buf_mem out_size out_isnull].
  destruct (H5HG_remove _ _ _) as [g2|]; done.
Qed.

(** X17. Put, then the two queries. On the identifier the put left,
    [H5VL_BLOB_GETSIZE] reports the sequence length the put was given,
    reduced modulo [2 ^ 32], and [H5VL_BLOB_ISNULL] reports whether the
    heap placed the object at address 0; neither changes anything else. *)
Theorem native_blob_put_then_query (blob : list byte) (size ctx_f ctx_seq_len : Z)
    (s : blob_state G) (h : H5HG_t) (g' : G) :
  H5HG_insert ctx_f size blob (gheap s) = Some (h, g') ->
  (4 + length (H5F_addr_encode ctx_f (hg_addr h)) + 4 <= length (id_mem s))%nat ->
  (forall r, H5F_addr_decode ctx_f (H5F_addr_encode ctx_f (hg_addr h) ++ r) =
             Some (hg_addr h, r)) ->
  exists s1,
    H5VL__native_blob_put blob size ctx_f ctx_seq_len s = (Val SUCCEED, s1) /\
    (forall f, H5VL__native_blob_specific H5VL_BLOB_GETSIZE f s1 =
                 (Val SUCCEED, with_out_size (ctx_seq_len mod 2 ^ 32) s1)) /\
    H5VL__native_blob_specific H5VL_BLOB_ISNULL ctx_f s1 =
      (Val SUCCEED, with_out_isnull (hg_addr h =? 0) s1) /\
    (0 <= ctx_seq_len < 2 ^ 32 -> ctx_seq_len mod 2 ^ 32 = ctx_seq_len).
Proof.
  intros Hins Hlen Hcodec.
  eexists. split; [by apply native_blob_put_run|].
  split; [|split].
  - intros f. unfold_blob. cbn [with_id_mem id_mem].
    by rewrite UINT32DECODE_ENCODE.
  - unfold_blob. cbn [with_id_mem id_mem].
    rewrite (drop_app_length' (UINT32ENCODE ctx_seq_len)) by done.
    by rewrite Hcodec.
  - intros Hr. by apply Z.mod_small.
Qed.

(** X18. Set to nil, then delete. On a buffer that holds a blob
    identifier, after [H5VL_BLOB_SETNULL] the size query reports 0 and
    [H5VL_BLOB_DELETE] succeeds without decoding an address and without a
    call to the heap, whatever the address codec is. *)
Theorem native_blob_setnull_then_delete (f : Z) (s : blob_state G) :
  (4 + length (H5F_addr_encode f 0) + 4 <= length (id_mem s))%nat ->
  exists s1,
    H5VL__native_blob_specific H5VL_BLOB_SETNULL f s = (Val SUCCEED, s1) /\
    gheap s1 = gheap s /\ heap_calls s1 = heap_calls s /\
    (forall f', H5VL__native_blob_specific H5VL_BLOB_GETSIZE f' s1 =
                  (Val SUCCEED, with_out_size 0 s1)) /\
    (forall f', H5VL__native_blob_specific H5VL_BLOB_DELETE f' s1 = (Val SUCCEED, s1)).
Proof.
  intros Hlen. eexists. split; [by apply native_blob_setnull_run|].
  split; [done|]. split; [done|].
  split; intros f'; unfold_blob; cbn [with_id_mem id_mem];
    by rewrite UINT32DECODE_ENCODE.
Qed.

(** X19. What the callbacks leave alone, whatever their outcome. No
    operation of [H5VL__native_blob_specific] writes the object buffer;
    only [H5VL_BLOB_SETNULL] writes the identifier; only
    [H5VL_BLOB_DELETE] reaches the heap, with at most one call, a remove.
    [H5VL__native_blob_get] writes neither the identifier nor the two
    results and makes at most one call, a read. *)
Theorem native_blob_frame (op : H5VL_blob_specific_t) (f : Z) (id : list byte)
    (s : blob_state G) :
  let res := H5VL__native_blob_specific op f s in
  let got := H5VL__native_blob_get id f s in
  buf_mem (snd res) = buf_mem s /\
  (op <> H5VL_BLOB_SETNULL -> id_mem (snd res) = id_mem s) /\
  (op <> H5VL_BLOB_DELETE ->
   gheap (snd res) = gheap s /\ heap_calls (snd res) = heap_calls s) /\
  (heap_calls (snd res) = heap_calls s \/
   exists h, heap_calls (snd res) = heap_calls s ++ [Call_H5HG_remove f h]) /\
  id_mem (snd got) = id_mem s /\ out_size (snd got) = out_size s /\
  out_isnull (snd got) = out_isnull s /\
  (heap_calls (snd got) = heap_calls s \/
   exists h, heap_calls (snd got) = heap_calls s ++ [Call_H5HG_read f h]).
Proof.
  intros res got. subst res got.
  split; [|split; [|split; [|split]]].
  - destruct op; unfold_blob; unfold store_id; split_body; done.
  - intros Hop. destruct op; try done; unfold_blob; split_body; done.
  - intros Hop. destruct op; try done; unfold_blob; unfold store_id;
      split_body; done.
  - destruct op; unfold_blob; unfold store_id; split_body;
      first [ by left | right; by eexists ].
  - unfold_blob. split_body;
      repeat split; first [ done | by left | right; by eexists ].
Qed.

(** ** Properties of the memory-side write *)

Ltac unfold_mem_write :=
  cbv beta iota zeta delta
    [H5T__ref_mem_write mem_write_switch mem_write_attach mem_write_done
     mem_write_error after_call].

Ltac split_mem_write :=
  repeat first
    [ progress cbn [fst snd mw_calls mw_dst mw_lib negb]
    | rewrite Z.eqb_refl
    | match goal with
      | |- context [H5R__create_object ?a ?b ?c ?d] =>
          destruct (H5R__create_object a b c d) as [[? ?] ?]
      | |- context [H5R__create_region ?a ?b ?c ?d ?e] =>
          destruct (H5R__create_region a b c d e) as [[? ?] ?]
      | |- context [H5R__decode ?a ?b ?c ?d] =>
          destruct (H5R__decode a b c d) as [[? ?] ?]
      | |- context [H5S_close ?a ?b] => destruct (H5S_close a b) as [? ?]
      | |- context [H5F__get_file_id ?a ?b ?c] =>
          destruct (H5F__get_file_id a b c) as [? ?]
      | |- context [H5R__set_loc_id ?a ?b ?c] =>
          destruct (H5R__set_loc_id a b c) as [[? ?] ?]
      | |- context [H5I_dec_ref ?a ?b] => destruct (H5I_dec_ref a b) as [? ?]
      | |- context [H5R_REF_FILENAME ?a] => destruct (H5R_REF_FILENAME a)
      | |- context [negb (?x =? ?y)] => destruct (x =? y) eqn:?
      | |- context [if ?x <? 0 then _ else _] => destruct (x <? 0) eqn:?
      end ].

Ltac close_log :=
  rewrite <- ?app_assoc; cbn [app];
  eexists; split; [first [reflexivity | symmetry; apply app_nil_r]|].

Ltac last_call :=
  match goal with
  | |- exists pre status, [Call_H5I_dec_ref _ ?st] = _ => by exists [], st
  | |- exists pre status, [?a; Call_H5I_dec_ref _ ?st] = _ => by exists [a], st
  | |- exists pre status, [?a; ?b; Call_H5I_dec_ref _ ?st] = _ => by exists [a; b], st
  | |- exists pre status, [?a; ?b; ?c; Call_H5I_dec_ref _ ?st] = _ =>
      by exists [a; b; c], st
  | |- exists pre status, [?a; ?b; ?c; ?d; Call_H5I_dec_ref _ ?st] = _ =>
      by exists [a; b; c; d], st
  end.

Ltac use_tests :=
  repeat match goal with
         | H : (_ =? _) = _ |- _ => rewrite H
         | H : (_ <? _) = _ |- _ => rewrite H
         end.

(** X20. The location identifier is given back. On every path through
    [H5T__ref_mem_write], whatever the library calls return: the function
    asks [H5F__get_file_id] for an identifier at most once, and it calls
    [H5I_dec_ref] exactly on the identifiers it obtained that are not
    [H5I_INVALID_HID], once each, as the last call it makes; so an
    identifier obtained is released whether or not attaching it to the
    reference succeeded, and a call that obtained none releases none. *)
Theorem mem_write_releases_location
    (src_f : Z) (src_buf : list byte) (src_size : Z) (src_type : H5R_type_t)
    (s : mem_write_state L) :
  let res := H5T__ref_mem_write src_f src_buf src_size src_type s in
  exists new : list id_call,
    mw_calls (snd res) = mw_calls s ++ new /\
    (length (acquired_ids new) <= 1)%nat /\
    released_ids new =
      filter (fun id => negb (id =? H5I_INVALID_HID)) (acquired_ids new) /\
    (forall id, In id (released_ids new) ->
                exists pre status, new = pre ++ [Call_H5I_dec_ref id status]).
Proof.
  intros res. subst res. unfold_mem_write.
  destruct src_type; split_mem_write; close_log;
    unfold acquired_ids, released_ids, filter; cbn;
    use_tests; cbn;
    (split; [lia|]); (split; [done|]).
  all: try (intros id Hin; by destruct Hin).
  all: intros id [<-|[]]; last_call.
Qed.

(** X21. The dataspace of a legacy region reference. On every path through
    [H5T__ref_mem_write], whatever the library calls return: the function
    calls [H5R__create_region] only as its first call; when that call
    succeeds, the call right after it is [H5S_close] on the same dataspace,
    and when it fails it is the only call, the dataspace left open. Every
    call of [H5S_close] is the second call, right after the
    [H5R__create_region] that succeeded on that dataspace, so no other
    source type closes a dataspace. When the close fails it is the last
    call and the function returns [FAIL] with [H5E_CANTFREE], although the
    reference has been created. *)
Theorem mem_write_closes_region_space
    (src_f : Z) (src_buf : list byte) (src_size : Z) (src_type : H5R_type_t)
    (s : mem_write_state L) :
  let res := H5T__ref_mem_write src_f src_buf src_size src_type s in
  exists new : list id_call,
    mw_calls (snd res) = mw_calls s ++ new /\
    closed_spaces new = region_spaces new /\
    (src_type <> H5R_DATASET_REGION1 -> closed_spaces new = []) /\
    (forall space st,
       In (Call_H5R__create_region space st) new ->
       src_type = H5R_DATASET_REGION1 /\
       space = dsetreg_space src_buf /\
       (st < 0 -> new = [Call_H5R__create_region space st]) /\
       (0 <= st ->
        exists status rest,
          new = Call_H5R__create_region space st :: Call_H5S_close space status :: rest)) /\
    (forall space status,
       In (Call_H5S_close space status) new ->
       exists st rest,
         0 <= st /\
         new = Call_H5R__create_region space st :: Call_H5S_close space status :: rest /\
         (status < 0 ->
          rest = [] /\
          fst (fst res) = FAIL /\
          In (H5E_push_entry H5E_REFERENCE H5E_CANTFREE "Cannot close dataspace")
             (snd (fst res)))).
Proof.
  intros res. subst res. unfold_mem_write.
  destruct src_type; split_mem_write; close_log;
    unfold closed_spaces, region_spaces; cbn;
    use_tests; cbn;
    (split; [done|]); (split; [done|]).
  all: repeat match goal with
         | H : (_ <? _) = true |- _ => apply Z.ltb_lt in H
         | H : (_ <? _) = false |- _ => apply Z.ltb_ge in H
         end.
  all: split; [intros space st Hin|intros space status Hin]; cbn in Hin.
  all: repeat match goal with
         | H : _ \/ _ |- _ => destruct H
         | H : False |- _ => destruct H
         | H : _ = _ :> id_call |- _ =>
             first [discriminate H | injection H as <- <- | injection H as <-]
         end.
  all: try (split; [done|]; split; [done|]; split;
            [intros Hst; first [done | lia]
            |intros Hst; first [lia | by eexists _, _]]).
  all: eexists _, _; (split; [|split; [reflexivity|]]); [lia|].
  all: intros Hst; first [lia | repeat split; first [done | cbn; auto]].
Qed.

(** ** The state machine and the disk-side write *)

(** X22. The record size leaves room for the blob identifier. A generic
    type that has gone to disk in a container with blob identifiers of
    [blob_id_size] bytes is bound to the three generic disk converters and
    has a size of at least [H5_SIZEOF_UINT32_T + H5R_ENCODE_HEADER_SIZE +
    blob_id_size]; so on a destination of that size [H5T__ref_disk_write]
    stores header and length inside the destination and hands the put a
    place for the identifier, at offset 6, of at least [blob_id_size]
    bytes: the write does not leave the destination. *)
Theorem set_loc_disk_record_holds_identifier
    (f : Z) (dt dt' : H5T_shared_t) (src_buf : list byte) (src_size : Z)
    (s : conv_state B) :
  H5T__ref_set_loc f H5T_LOC_DISK dt = (Val TRUE, dt') ->
  r_rtype dt <> H5R_OBJECT1 ->
  r_rtype dt <> H5R_DATASET_REGION1 ->
  (forall ci,
     H5F__get_cont_info f (mk_cont_info H5VL_CONTAINER_INFO_VERSION 0 0 0) = Some ci ->
     0 <= ci_blob_id_size ci < SIZE_T_MODULUS - 6) ->
  length (dst_buf s) = Z.to_nat (size dt') ->
  (2 <= length src_buf)%nat ->
  exists ci,
    H5F__get_cont_info f (mk_cont_info H5VL_CONTAINER_INFO_VERSION 0 0 0) = Some ci /\
    r_getsize dt' = Some PTR_H5T__ref_disk_getsize /\
    r_read dt' = Some PTR_H5T__ref_disk_read /\
    r_write dt' = Some PTR_H5T__ref_disk_write /\
    H5_SIZEOF_UINT32_T + H5R_ENCODE_HEADER_SIZE + ci_blob_id_size ci <= size dt' /\
    (Z.to_nat (ci_blob_id_size ci) <= length (drop 6 (dst_buf s)))%nat /\
    fst (H5T__ref_disk_write src_buf src_size f (size dt') None s) <> Fault.
Proof.
  intros Hrun H1 H2 Hci Hlen Hsrc.
  assert (exists ci,
            H5F__get_cont_info f (mk_cont_info H5VL_CONTAINER_INFO_VERSION 0 0 0) = Some ci /\
            r_getsize dt' = Some PTR_H5T__ref_disk_getsize /\
            r_read dt' = Some PTR_H5T__ref_disk_read /\
            r_write dt' = Some PTR_H5T__ref_disk_write /\
            size_add (size_add H5_SIZEOF_UINT32_T H5R_ENCODE_HEADER_SIZE)
                     (ci_blob_id_size ci) <= size dt') as (ci & Hget & Hg & Hr & Hw & Hsz).
  { revert Hrun. unfold_body. intros Hrun. split_body.
    all: eexists; repeat split; try done; apply Z.le_max_l. }
  specialize (Hci _ Hget).
  assert (H5_SIZEOF_UINT32_T + H5R_ENCODE_HEADER_SIZE + ci_blob_id_size ci <= size dt')
    as Hfit.
  { revert Hsz.
    unfold size_add, size_wrap, SIZE_T_MODULUS, H5_SIZEOF_UINT32_T,
      H5R_ENCODE_HEADER_SIZE in *.
    rewrite (Z.mod_small (4 + 2)) by lia.
    rewrite Z.mod_small by lia. done. }
  exists ci. repeat (split; [done|]).
  assert (6 + Z.to_nat (ci_blob_id_size ci) <= length (dst_buf s))%nat as Hroom.
  { rewrite Hlen. unfold H5_SIZEOF_UINT32_T, H5R_ENCODE_HEADER_SIZE in Hfit. lia. }
  split; [rewrite length_drop; lia|].
  rewrite disk_write_tail_run by lia. cbn zeta.
  destruct (blob_put_cb _ _ _ _ _) as [[id' b2]|]; done.
Qed.

(** ** The direct-copy flag *)

(** X23. When the memory-side size query raises [*dst_copy]. Whenever
    [H5T__ref_mem_getsize] leaves [*dst_copy] set where it was clear, the
    handle is of type [H5R_OBJECT2], its file shares the container of the
    destination, the size returned is its cached [encode_size], which is
    not zero, and no call has been made: the flag is raised for nothing but
    an object reference that stays in its container. *)
Theorem mem_getsize_raises_copy_only_in_container
    (src_ref : href) (dst_f : Z) (s s' : conv_state B) (r : outcome Z) :
  H5R_IS_EXTERNAL <> 0 ->
  H5T__ref_mem_getsize src_ref dst_f s = (r, s') ->
  dst_copy s = false -> dst_copy s' = true ->
  ref_type src_ref = int8_cast (H5R_type_value H5R_OBJECT2) /\
  H5F_shared (H5VL_object_data (H5VL_vol_object (loc_id src_ref))) = H5F_shared dst_f /\
  encode_size src_ref <> 0 /\
  r = Val (encode_size src_ref) /\
  calls s' = calls s.
Proof.
  intros Hext. unfold_conv.
  destruct (H5VL_vol_object (loc_id src_ref) =? 0);
    [intros [= <- <-] H0 H1; congruence|].
  destruct (H5VL_object_data (H5VL_vol_object (loc_id src_ref)) =? 0);
    [intros [= <- <-] H0 H1; congruence|].
  rewrite Z.lor_0_l.
  destruct (H5F_shared _ =? H5F_shared dst_f) eqn:Hsh; cbn [negb].
  - apply Z.eqb_eq in Hsh. cbn.
    destruct (encode_size src_ref =? 0) eqn:Hsz; cbn.
    + destruct (ref_type src_ref =? int8_cast (H5R_type_value H5R_DATASET_REGION2));
        cbn; destruct (H5R__encode _ _ _ _) as [[? ?]|]; cbn;
        intros [= <- <-] H0 H1; cbn in H1; congruence.
    + apply Z.eqb_neq in Hsz.
      destruct (ref_type src_ref =? int8_cast (H5R_type_value H5R_OBJECT2)) eqn:Ht; cbn.
      * apply Z.eqb_eq in Ht. by intros [= <- <-] H0 H1.
      * intros [= <- <-] H0 H1. congruence.
  - rewrite (proj2 (Z.eqb_neq _ _) Hext). cbn.
    destruct (ref_type src_ref =? int8_cast (H5R_type_value H5R_DATASET_REGION2));
      cbn; destruct (H5R__encode _ _ _ _) as [[? ?]|]; cbn;
      intros [= <- <-] H0 H1; cbn in H1; congruence.
Qed.

(** X24. When the disk-side size query raises [*dst_copy]. Whenever
    [H5T__ref_disk_getsize] leaves [*dst_copy] set where it was clear, the
    record starts with the tag [H5R_OBJECT2] and a flags byte without the
    external flag, and the size returned is [src_size], the size of the
    record itself; the length field has not been read. *)
Theorem disk_getsize_raises_copy_only_for_object
    (src_buf : list byte) (src_size : Z) (s s' : conv_state B) (r : outcome Z) :
  H5T__ref_disk_getsize src_buf src_size s = (r, s') ->
  dst_copy s = false -> dst_copy s' = true ->
  exists tag fl rest,
    src_buf = tag :: fl :: rest /\
    byte_val tag = H5R_type_value H5R_OBJECT2 /\
    Z.land (byte_val fl) H5R_IS_EXTERNAL = 0 /\
    r = Val src_size.
Proof.
  unfold_conv.
  destruct src_buf as [|tag [|fl rest]].
  - intros [= <- <-] H0 H1. congruence.
  - destruct (_ || _); intros [= <- <-] H0 H1; congruence.
  - destruct (_ || _); [intros [= <- <-] H0 H1; congruence|].
    destruct (_ && _) eqn:Hdc.
    + apply andb_true_iff in Hdc as [H1 H2].
      apply Z.eqb_eq in H1, H2.
      intros [= <- <-] _ _. by exists tag, fl, rest.
    + destruct (UINT32DECODE rest) as [[len rest']|]; cbn;
        intros [= <- <-] H0 H1; congruence.
Qed.

End H5.

(** ** The properties on the concrete environment *)

Abbreviation set_loc_addr8 :=
  (H5T__ref_set_loc std_type_value 64 8 12 1 addr8_sizeof addr8_heap_id_size
                    addr8_cont_info token_encode 48).
Abbreviation set_loc_no_info :=
  (H5T__ref_set_loc std_type_value 64 8 12 1 addr8_sizeof addr8_heap_id_size
                    no_cont_info token_encode 48).
Abbreviation disk_getsize_std :=
  (H5T__ref_disk_getsize std_type_value (list (option (list byte))) 1).
Abbreviation mem_getsize_std :=
  (H5T__ref_mem_getsize std_type_value token_encode (list (option (list byte)))
                        ex_vol_object ex_object_data ex_shared ex_actual_name 1).
Abbreviation disk_read_list :=
  (H5T__ref_disk_read (list (option (list byte))) list_blob_get).
Abbreviation disk_write_list :=
  (H5T__ref_disk_write (list (option (list byte))) list_blob_put list_blob_delete).
Abbreviation native_specific_addr8 :=
  (H5VL__native_blob_specific (list (H5HG_t * list byte)) list_heap_remove
                              (le_addr_encode 8) (le_addr_decode 8)).
Abbreviation native_get_addr8 :=
  (H5VL__native_blob_get (list (H5HG_t * list byte)) list_heap_read (le_addr_decode 8)).
Abbreviation native_put_addr8 :=
  (H5VL__native_blob_put (list (H5HG_t * list byte)) list_heap_insert (le_addr_encode 8)).

Lemma set_loc_addr8_to_disk :
  set_loc_addr8 100 H5T_LOC_DISK ex_dt_mem = (Val TRUE, ex_dt_disk).
Proof. vm_compute. reflexivity. Qed.

(** Witness of C2: the generic type moves to disk in a container with
    12-byte blob identifiers and a trial encode of 11 bytes; its size
    becomes 18. *)
Lemma set_loc_disk_generic_size_witness :
  set_loc_addr8 100 H5T_LOC_DISK ex_dt_mem = (Val TRUE, ex_dt_disk) /\
  size ex_dt_disk = Z.max (H5_SIZEOF_UINT32_T + H5R_ENCODE_HEADER_SIZE + 12) 11.
Proof.
  pose proof set_loc_addr8_to_disk as Hrun.
  split; [exact Hrun|].
  destruct (set_loc_disk_generic_size _ _ _ _ _ _ _ _ _ _ _ _ _ Hrun)
    as (ci & buf & n & Hci & Henc & _ & _ & _ & Hsz); [discriminate|discriminate|].
  injection Hci as <-. vm_compute in Henc. injection Henc as <- <-.
  apply Hsz. vm_compute. split; [discriminate|reflexivity].
Defined.

(** Witness of C10 on the same transition: 144 = 8 * 18. *)
Lemma set_loc_prec_is_8_times_size_witness :
  set_loc_addr8 100 H5T_LOC_DISK ex_dt_mem = (Val TRUE, ex_dt_disk) /\
  assigns_size H5T_LOC_DISK ex_dt_mem = true /\
  prec ex_dt_disk = 8 * size ex_dt_disk.
Proof.
  pose proof set_loc_addr8_to_disk as Hrun.
  split; [exact Hrun|]. split; [reflexivity|].
  apply (set_loc_prec_is_8_times_size _ _ _ _ _ _ _ _ _ _ _ _ _ _ Hrun eq_refl).
  vm_compute. split; [discriminate|reflexivity].
Defined.

(** Counterexample to C6 as stated: after the transition of the disk type
    to [H5T_LOC_BADLOC] the size is still 18 and the precision 144; the
    width is not cleared. *)
Lemma set_loc_badloc_keeps_width :
  size (snd (set_loc_addr8 0 H5T_LOC_BADLOC ex_dt_disk)) = 18 /\
  prec (snd (set_loc_addr8 0 H5T_LOC_BADLOC ex_dt_disk)) = 144 /\
  ~ (exists dt',
       set_loc_addr8 0 H5T_LOC_BADLOC ex_dt_disk = (Val TRUE, dt') /\
       r_f dt' = 0 /\ size dt' = 0 /\
       r_getsize dt' = None /\ r_read dt' = None /\ r_write dt' = None).
Proof.
  split; [reflexivity|]. split; [reflexivity|].
  intros (dt' & Hrun & _ & Hsize & _).
  vm_compute in Hrun. injection Hrun as <-. discriminate Hsize.
Qed.

(** Witness of C6 as amended, on the same transition. *)
Lemma set_loc_badloc_resets_witness :
  ~ (r_loc ex_dt_disk = H5T_LOC_BADLOC /\ 0 = r_f ex_dt_disk) /\
  set_loc_addr8 0 H5T_LOC_BADLOC ex_dt_disk =
    (Val TRUE,
     mk_H5T_shared 18 144 H5R_OBJECT2 true H5T_LOC_BADLOC 0 None None None).
Proof.
  assert (~ (r_loc ex_dt_disk = H5T_LOC_BADLOC /\ 0 = r_f ex_dt_disk)) as Hne
    by (intros [H _]; discriminate H).
  split; [exact Hne|].
  exact (set_loc_badloc_resets std_type_value 64 8 12 1 addr8_sizeof
           addr8_heap_id_size addr8_cont_info token_encode 48 0 ex_dt_disk Hne).
Defined.

(** Witness of C7: the disk type asked to go to disk in the same
    file is left alone; the memory type asked to go to disk can only
    succeed with [TRUE]. *)
Lemma set_loc_unchanged_or_changed_witness :
  set_loc_addr8 100 H5T_LOC_DISK ex_dt_disk = (Val FALSE, ex_dt_disk) /\
  (forall r dt', set_loc_addr8 100 H5T_LOC_DISK ex_dt_mem = (Val r, dt') -> r = TRUE).
Proof.
  split.
  - apply (set_loc_unchanged_or_changed std_type_value 64 8 12 1 addr8_sizeof
             addr8_heap_id_size addr8_cont_info token_encode 48
             100 H5T_LOC_DISK ex_dt_disk); reflexivity.
  - apply (set_loc_unchanged_or_changed std_type_value 64 8 12 1 addr8_sizeof
             addr8_heap_id_size addr8_cont_info token_encode 48
             100 H5T_LOC_DISK ex_dt_mem).
    intros [H _]. discriminate H.
Defined.

(** Witness of C3: a tag outside the range, an object reference without the
    external flag, the same with the flag set, and a region reference. *)
Lemma disk_getsize_cases_witness :
  disk_getsize_std [Byte.x05; Byte.x00] 18 ex_conv0 =
    (Exit 0 (H5E_push H5E_ARGS H5E_BADVALUE "invalid reference type"), ex_conv0) /\
  disk_getsize_std (Byte.x02 :: Byte.x00 :: UINT32ENCODE 7) 18 ex_conv0 =
    (Val 18, with_dst_copy true ex_conv0) /\
  disk_getsize_std (Byte.x02 :: Byte.x01 :: UINT32ENCODE 7) 18 ex_conv0 =
    (Val (7 + H5R_ENCODE_HEADER_SIZE), ex_conv0) /\
  disk_getsize_std ex_record_abc 18 ex_conv0 =
    (Val (3 + H5R_ENCODE_HEADER_SIZE), ex_conv0).
Proof.
  split; [|split; [|split]].
  - apply (disk_getsize_cases std_type_value _ 1 Byte.x05 Byte.x00 [] 18 ex_conv0).
    right. vm_compute. discriminate.
  - apply (disk_getsize_cases std_type_value _ 1 Byte.x02 Byte.x00 (UINT32ENCODE 7)
             18 ex_conv0); [vm_compute; split; reflexivity|reflexivity|reflexivity].
  - apply (disk_getsize_cases std_type_value _ 1 Byte.x02 Byte.x01 (UINT32ENCODE 7)
             18 ex_conv0) with (rest' := []);
      [vm_compute; split; reflexivity| |reflexivity].
    intros [H _]. discriminate H.
  - apply (disk_getsize_cases std_type_value _ 1 Byte.x03 Byte.x00
             (drop 2 ex_record_abc) 18 ex_conv0) with (rest' := drop 6 ex_record_abc);
      [vm_compute; split; reflexivity| |reflexivity].
    intros [_ H]. discriminate H.
Defined.

(** Witness of C4: the cached handle asked for a destination in its own
    container, and asked for a destination in another container. *)
Lemma mem_getsize_cached_or_encoded_witness :
  (fst (mem_getsize_std ex_ref_cached 2100 ex_conv0) = Val 11 /\
   calls (snd (mem_getsize_std ex_ref_cached 2100 ex_conv0)) = [] /\
   dst_copy (snd (mem_getsize_std ex_ref_cached 2100 ex_conv0)) = true) /\
  (fst (mem_getsize_std ex_ref_cached 3000 ex_conv0) = Val 11 /\
   calls (snd (mem_getsize_std ex_ref_cached 3000 ex_conv0)) =
     [Call_H5R__encode (Some "file.h5"%string) ex_ref_cached None 1]) /\
  (fst (mem_getsize_std ex_ref_fresh 2100 ex_conv0) = Val 11 /\
   calls (snd (mem_getsize_std ex_ref_fresh 2100 ex_conv0)) =
     [Call_H5R__encode (Some "file.h5"%string) ex_ref_fresh None 0]).
Proof.
  assert (ex_vol_object 7 <> 0) as Hobj by discriminate.
  assert (ex_object_data (ex_vol_object 7) <> 0) as Hfile by discriminate.
  assert (1 <> 0) as Hext by discriminate.
  split; [|split].
  - destruct (mem_getsize_cached_or_encoded std_type_value token_encode _
                ex_vol_object ex_object_data ex_shared ex_actual_name 1
                ex_ref_cached 2100 ex_conv0
                Hobj Hfile Hext)
      as [Hcached _].
    destruct Hcached as (Hv & Hc & Ht & _); [reflexivity|discriminate|].
    split; [exact Hv|]. split; [exact Hc|]. apply Ht. reflexivity.
  - destruct (mem_getsize_cached_or_encoded std_type_value token_encode _
                ex_vol_object ex_object_data ex_shared ex_actual_name 1
                ex_ref_cached 3000 ex_conv0
                Hobj Hfile Hext)
      as [_ Henc].
    destruct Henc as (Hc & _ & Hv); [left; discriminate|].
    split; [exact Hv|exact Hc].
  - destruct (mem_getsize_cached_or_encoded std_type_value token_encode _
                ex_vol_object ex_object_data ex_shared ex_actual_name 1
                ex_ref_fresh 2100 ex_conv0
                Hobj Hfile Hext)
      as [_ Henc].
    destruct Henc as (Hc & _ & Hv); [right; reflexivity|].
    split; [exact Hv|exact Hc].
Defined.

(** Witness of C5: reading a record whose identifier names no blob, and
    reading [ex_record_abc] (a blob of 3 bytes) into a destination of
    capacity 6 and of capacity 5. *)
Lemma disk_read_failures_witness :
  fst (disk_read_list 100 (repeat Byte.x00 18) 18 5 (with_dst_buf (repeat Byte.x00 5) ex_conv1)) =
    Exit FAIL (H5E_push H5E_DATATYPE H5E_CANTGET "unable to get blob") /\
  fst (disk_read_list 100 ex_record_abc 18 6 (with_dst_buf (repeat Byte.x00 6) ex_conv1)) =
    Exit FAIL (H5E_push H5E_REFERENCE H5E_CANTDECODE "Expected data size does not match") /\
  fst (disk_read_list 100 ex_record_abc 18 5 (with_dst_buf (repeat Byte.x00 5) ex_conv1)) =
    Val SUCCEED.
Proof.
  assert (forall n : nat, (2 <= n)%nat -> (2 <= length (repeat Byte.x00 n))%nat) as Hrep
    by (intros n Hn; rewrite repeat_length; exact Hn).
  assert (forall c, H5R_ENCODE_HEADER_SIZE <= c < 7 ->
                    H5R_ENCODE_HEADER_SIZE <= c < SIZE_T_MODULUS) as Hcap
    by (intros c [H1 H2]; split; [exact H1|];
        apply (Z.lt_trans _ 7); [exact H2|reflexivity]).
  split; [|split].
  - apply (disk_read_failures _ list_blob_get 100 (repeat Byte.x00 18) 18 5
             (with_dst_buf (repeat Byte.x00 5) ex_conv1)).
    + apply (Hrep 18%nat). repeat constructor.
    + apply (Hrep 5%nat). repeat constructor.
    + apply Hcap. split; [discriminate|reflexivity].
    + reflexivity.
  - eapply (disk_read_failures _ list_blob_get 100 ex_record_abc 18 6
              (with_dst_buf (repeat Byte.x00 6) ex_conv1)
              ltac:(vm_compute; repeat constructor)
              (Hrep 6%nat ltac:(repeat constructor))
              (Hcap 6 ltac:(split; [discriminate|reflexivity]))).
    + vm_compute. reflexivity.
    + discriminate.
  - eapply (disk_read_failures _ list_blob_get 100 ex_record_abc 18 5
              (with_dst_buf (repeat Byte.x00 5) ex_conv1)
              ltac:(vm_compute; repeat constructor)
              (Hrep 5%nat ltac:(repeat constructor))
              (Hcap 5 ltac:(split; [discriminate|reflexivity]))).
    + vm_compute. reflexivity.
    + reflexivity.
Defined.

(** C1 (the code departs from the claim). A first write stores the payload
    of [ex_src_abc] and leaves [ex_record_abc]: the blob identifier stands
    at offset 6 of the record, after the 2-byte header and the 4-byte
    length, where [H5T__ref_disk_read] looks for it. The write that
    overwrites this record, given it as background buffer, issues its one
    delete on the bytes from offset 4 on, the upper half of the length
    field followed by the identifier. The Blob Store knows no such
    identifier: the delete fails, the write fails before any put, and the
    old blob stays in the store. A delete on the bytes from offset 6 on
    would have removed it. *)
Theorem disk_write_delete_misses_stored_identifier :
  disk_write_list ex_src_abc 5 100 18 None ex_conv0 =
    (Val SUCCEED, with_dst_buf ex_record_abc ex_conv1) /\
  drop 6 ex_record_abc = UINT32ENCODE 1 ++ repeat Byte.x00 8 /\
  calls (snd (disk_write_list ex_src_de 4 100 18 (Some ex_record_abc) ex_conv1)) =
    calls ex_conv1 ++ [Call_H5VL_blob_specific_DELETE 100 (drop 4 ex_record_abc)] /\
  drop 4 ex_record_abc <> drop 6 ex_record_abc /\
  fst (disk_write_list ex_src_de 4 100 18 (Some ex_record_abc) ex_conv1) =
    Exit FAIL (H5E_push H5E_DATATYPE H5E_CANTREMOVE "unable to delete blob") /\
  blobs (snd (disk_write_list ex_src_de 4 100 18 (Some ex_record_abc) ex_conv1)) =
    blobs ex_conv1 /\
  list_blob_delete 100 (drop 6 ex_record_abc) (blobs ex_conv1) = Some [None].
Proof.
  split; [vm_compute; reflexivity|].
  split; [reflexivity|].
  split; [vm_compute; reflexivity|].
  split; [vm_compute; discriminate|].
  split; [vm_compute; reflexivity|].
  split; vm_compute; reflexivity.
Qed.

(** Witness of X1: the record of the first write as background, and a
    background buffer whose bytes from offset 4 on are the identifier 1. *)
Lemma disk_write_delete_before_put_witness :
  calls (snd (disk_write_list ex_src_de 4 100 18 (Some ex_record_abc) ex_conv1)) =
    calls ex_conv1 ++ [Call_H5VL_blob_specific_DELETE 100 (drop 4 ex_record_abc)] /\
  calls (snd (disk_write_list ex_src_de 4 100 18
                (Some (repeat Byte.x00 4 ++ UINT32ENCODE 1)) ex_conv1)) =
    calls ex_conv1 ++
    [Call_H5VL_blob_specific_DELETE 100 (UINT32ENCODE 1);
     Call_H5VL_blob_put 100 [Byte.x64; Byte.x65] 2].
Proof.
  split.
  - apply (disk_write_delete_before_put _ list_blob_put list_blob_delete
             ex_src_de 4 100 18 ex_record_abc ex_conv1).
    reflexivity.
  - apply (disk_write_delete_before_put _ list_blob_put list_blob_delete
             ex_src_de 4 100 18 (repeat Byte.x00 4 ++ UINT32ENCODE 1) ex_conv1).
    + discriminate.
    + repeat constructor.
    + repeat constructor.
Defined.

(** Counterexample to C8 as stated: an identifier with sequence length 0
    and address 4096. The address is not 0, the heap holds the object, and
    [H5VL_BLOB_DELETE] succeeds without a call to the heap. *)
Lemma native_blob_delete_skips_empty_sequence :
  le_addr_decode 8 1 (drop 4 (ex_blob_id 0 4096 1)) = Some (4096, UINT32ENCODE 1) /\
  native_specific_addr8 H5VL_BLOB_DELETE 1 (ex_blob_state (ex_blob_id 0 4096 1)) =
    (Val SUCCEED, ex_blob_state (ex_blob_id 0 4096 1)) /\
  ~ In (Call_H5HG_remove 1 (mk_H5HG 4096 1))
       (heap_calls (snd (native_specific_addr8 H5VL_BLOB_DELETE 1
                           (ex_blob_state (ex_blob_id 0 4096 1))))).
Proof.
  split; [vm_compute; reflexivity|].
  split; [vm_compute; reflexivity|].
  vm_compute. intros H. exact H.
Qed.

(** Witness of C8 as amended: an empty sequence, a nil address, an object
    of the heap, and an object the heap does not hold. *)
Lemma native_blob_delete_cases_witness :
  native_specific_addr8 H5VL_BLOB_DELETE 1 (ex_blob_state (ex_blob_id 0 4096 1)) =
    (Val SUCCEED, ex_blob_state (ex_blob_id 0 4096 1)) /\
  native_specific_addr8 H5VL_BLOB_DELETE 1 (ex_blob_state (ex_blob_id 3 0 0)) =
    (Val SUCCEED, ex_blob_state (ex_blob_id 3 0 0)) /\
  native_specific_addr8 H5VL_BLOB_DELETE 1 (ex_blob_state (ex_blob_id 1 4096 1)) =
    (Val SUCCEED,
     with_gheap []
       (log_heap_call (Call_H5HG_remove 1 (mk_H5HG 4096 1))
          (ex_blob_state (ex_blob_id 1 4096 1)))) /\
  native_specific_addr8 H5VL_BLOB_DELETE 1 (ex_blob_state (ex_blob_id 1 4096 2)) =
    (Exit FAIL (H5E_push H5E_VOL H5E_CANTREMOVE "unable to remove heap object"),
     log_heap_call (Call_H5HG_remove 1 (mk_H5HG 4096 2))
       (ex_blob_state (ex_blob_id 1 4096 2))).
Proof.
  split; [|split; [|split]].
  - apply (native_blob_delete_cases _ list_heap_remove (le_addr_encode 8)
             (le_addr_decode 8) 1 (ex_blob_state (ex_blob_id 0 4096 1)) 0
             (drop 4 (ex_blob_id 0 4096 1))); reflexivity.
  - apply (native_blob_delete_cases _ list_heap_remove (le_addr_encode 8)
             (le_addr_decode 8) 1 (ex_blob_state (ex_blob_id 3 0 0)) 3
             (drop 4 (ex_blob_id 3 0 0)) eq_refl)
      with (addr := 0) (idx := 0) (vl2 := UINT32ENCODE 0) (vl3 := []);
      reflexivity.
  - apply (native_blob_delete_cases _ list_heap_remove (le_addr_encode 8)
             (le_addr_decode 8) 1 (ex_blob_state (ex_blob_id 1 4096 1)) 1
             (drop 4 (ex_blob_id 1 4096 1)) eq_refl)
      with (addr := 4096) (idx := 1) (vl2 := UINT32ENCODE 1) (vl3 := []);
      reflexivity.
  - apply (native_blob_delete_cases _ list_heap_remove (le_addr_encode 8)
             (le_addr_decode 8) 1 (ex_blob_state (ex_blob_id 1 4096 2)) 1
             (drop 4 (ex_blob_id 1 4096 2)) eq_refl)
      with (addr := 4096) (idx := 2) (vl2 := UINT32ENCODE 2) (vl3 := []);
      reflexivity.
Defined.

Lemma le_addr_nil_roundtrip (f : Z) (rest : list byte) :
  le_addr_decode 8 f (le_addr_encode 8 f 0 ++ rest) = Some (0, rest).
Proof. reflexivity. Qed.

(** Witness of C9: the identifier of the object (4096, 1) set to nil. *)
Lemma native_blob_setnull_isnull_get_witness :
  exists s1,
    native_specific_addr8 H5VL_BLOB_SETNULL 1 (ex_blob_state (ex_blob_id 1 4096 1)) =
      (Val SUCCEED, s1) /\
    (exists s2,
       native_specific_addr8 H5VL_BLOB_ISNULL 1 s1 = (Val SUCCEED, s2) /\
       out_isnull s2 = true) /\
    (forall sg, native_get_addr8 (id_mem s1) 1 sg = (Val SUCCEED, sg)).
Proof.
  apply (native_blob_setnull_isnull_get _ list_heap_read list_heap_remove
           (le_addr_encode 8) (le_addr_decode 8) 1
           (ex_blob_state (ex_blob_id 1 4096 1))).
  - apply le_addr_nil_roundtrip.
  - repeat constructor.
Defined.

(** Witness of X2. *)
Lemma set_loc_maxloc_fails_witness :
  set_loc_addr8 0 H5T_LOC_MAXLOC ex_dt_disk =
    (Exit FAIL (H5E_push H5E_DATATYPE H5E_BADRANGE "invalid reference datatype location"),
     ex_dt_disk).
Proof.
  apply (set_loc_maxloc_fails std_type_value 64 8 12 1 addr8_sizeof
           addr8_heap_id_size addr8_cont_info token_encode 48 0 ex_dt_disk).
  intros [H _]. discriminate H.
Defined.

(** Witness of X7: the transition of the disk type to [H5T_LOC_BADLOC]. *)
Lemma set_loc_keeps_width_witness :
  size (snd (set_loc_addr8 0 H5T_LOC_BADLOC ex_dt_disk)) = size ex_dt_disk /\
  prec (snd (set_loc_addr8 0 H5T_LOC_BADLOC ex_dt_disk)) = prec ex_dt_disk.
Proof.
  apply (set_loc_keeps_width std_type_value 64 8 12 1 addr8_sizeof
           addr8_heap_id_size addr8_cont_info token_encode 48
           0 H5T_LOC_BADLOC ex_dt_disk _
           (fst (set_loc_addr8 0 H5T_LOC_BADLOC ex_dt_disk))).
  - apply surjective_pairing.
  - right. reflexivity.
Defined.

(** Witness of X3: the disk type and the legacy object type go to memory. *)
Lemma set_loc_memory_binding_witness :
  set_loc_addr8 0 H5T_LOC_MEMORY ex_dt_disk = (Val TRUE, ex_dt_mem) /\
  set_loc_addr8 0 H5T_LOC_MEMORY ex_dt_obj1 =
    (Val TRUE, mk_H5T_shared 8 64 H5R_OBJECT1 false H5T_LOC_MEMORY 0 None None None).
Proof.
  split.
  - apply (set_loc_memory_binding std_type_value 64 8 12 1 addr8_sizeof
             addr8_heap_id_size addr8_cont_info token_encode 48 0 ex_dt_disk).
    intros [H _]. discriminate H.
  - apply (set_loc_memory_binding std_type_value 64 8 12 1 addr8_sizeof
             addr8_heap_id_size addr8_cont_info token_encode 48 0 ex_dt_obj1).
    intros [H _]. discriminate H.
Defined.

(** Witness of X4: the legacy object type goes to disk in file 100. *)
Lemma set_loc_disk_legacy_witness :
  set_loc_addr8 100 H5T_LOC_DISK ex_dt_obj1 =
    (Val TRUE,
     mk_H5T_shared 8 64 H5R_OBJECT1 false H5T_LOC_DISK 100
                   (Some PTR_H5T__ref_obj_disk_getsize)
                   (Some PTR_H5T__ref_obj_disk_read) None).
Proof.
  apply (set_loc_disk_legacy std_type_value 64 8 12 1 addr8_sizeof
           addr8_heap_id_size addr8_cont_info token_encode 48 100 ex_dt_obj1).
  - discriminate.
  - intros [H _]. discriminate H.
  - reflexivity.
Defined.

(** Witness of X5. *)
Lemma native_blob_getsize_decodes_witness :
  native_specific_addr8 H5VL_BLOB_GETSIZE 1 (ex_blob_state (ex_blob_id 3 4096 1)) =
    (Val SUCCEED, with_out_size 3 (ex_blob_state (ex_blob_id 3 4096 1))).
Proof.
  apply (native_blob_getsize_decodes _ list_heap_remove (le_addr_encode 8)
           (le_addr_decode 8) 1 (ex_blob_state (ex_blob_id 3 4096 1)) 3
           (drop 4 (ex_blob_id 3 4096 1))).
  reflexivity.
Defined.

(** Witness of X6: a put of three bytes over the identifier of the object
    (4096, 1) leaves the identifier of the new object (4096, 2). *)
Lemma native_blob_put_identifier_witness :
  native_put_addr8 [Byte.x64; Byte.x65; Byte.x66] 3 1 3
                   (ex_blob_state (ex_blob_id 1 4096 1)) =
    (Val SUCCEED,
     with_id_mem (ex_blob_id 3 4096 2)
       (with_gheap [(mk_H5HG 4096 1, [Byte.x61]);
                    (mk_H5HG 4096 2, [Byte.x64; Byte.x65; Byte.x66])]
          (log_heap_call (Call_H5HG_insert 1 3 [Byte.x64; Byte.x65; Byte.x66])
             (ex_blob_state (ex_blob_id 1 4096 1))))).
Proof.
  destruct (native_blob_put_identifier _ list_heap_insert (le_addr_encode 8)
              [Byte.x64; Byte.x65; Byte.x66] 3 1 3
              (ex_blob_state (ex_blob_id 1 4096 1))) as [_ Hput].
  apply (Hput (mk_H5HG 4096 2)).
  - reflexivity.
  - repeat constructor.
Defined.

(** The model on the concrete environment: what a write stores, a read
    returns. *)
Example disk_write_then_read :
  disk_write_list ex_src_abc 5 100 18 None ex_conv0 =
    (Val SUCCEED, with_dst_buf ex_record_abc ex_conv1) /\
  fst (disk_read_list 100 ex_record_abc 18 5 (with_dst_buf (repeat Byte.x00 5) ex_conv1)) =
    Val SUCCEED /\
  dst_buf (snd (disk_read_list 100 ex_record_abc 18 5
                  (with_dst_buf (repeat Byte.x00 5) ex_conv1))) = ex_src_abc /\
  fst (disk_getsize_std ex_record_abc 18 ex_conv1) = Val 5.
Proof. repeat split; vm_compute; reflexivity. Qed.

Abbreviation mem_read_std :=
  (H5T__ref_mem_read std_type_value token_encode (list (option (list byte)))
                     ex_vol_object ex_object_data ex_shared ex_actual_name 1).
Abbreviation mem_write_ex :=
  (H5T__ref_mem_write 0 Z 8 (-1) ex_dsetreg_space ex_create_object ex_create_region
                      ex_space_close ex_decode ex_ref_filename ex_get_file_id
                      ex_set_loc_id ex_dec_ref).

(** The disk type once it has gone to [H5T_LOC_BADLOC]. *)
Lemma set_loc_addr8_to_badloc :
  set_loc_addr8 7 H5T_LOC_BADLOC ex_dt_disk =
    (Val TRUE, mk_H5T_shared 18 144 H5R_OBJECT2 true H5T_LOC_BADLOC 0 None None None).
Proof. vm_compute. reflexivity. Qed.

(** Witness of X8: the transition to disk asked again, and the transition
    to [H5T_LOC_BADLOC] with the file pointer 7 asked again. *)
Lemma set_loc_repeated_witness :
  set_loc_addr8 100 H5T_LOC_DISK ex_dt_disk = (Val FALSE, ex_dt_disk) /\
  set_loc_addr8 7 H5T_LOC_BADLOC
    (mk_H5T_shared 18 144 H5R_OBJECT2 true H5T_LOC_BADLOC 0 None None None) =
    (Val TRUE, mk_H5T_shared 18 144 H5R_OBJECT2 true H5T_LOC_BADLOC 0 None None None).
Proof.
  split.
  - apply (set_loc_repeated std_type_value 64 8 12 1 addr8_sizeof addr8_heap_id_size
             addr8_cont_info token_encode 48 100 H5T_LOC_DISK ex_dt_mem ex_dt_disk
             set_loc_addr8_to_disk).
    left. discriminate.
  - apply (set_loc_repeated std_type_value 64 8 12 1 addr8_sizeof addr8_heap_id_size
             addr8_cont_info token_encode 48 7 H5T_LOC_BADLOC ex_dt_disk _
             set_loc_addr8_to_badloc).
    + reflexivity.
    + discriminate.
Defined.

(** Witness of X9: the disk transition that fails for want of the
    container info leaves the memory type with location and file pointer
    overwritten, and all else as it was. *)
Lemma set_loc_failure_frame_witness :
  snd (set_loc_no_info 100 H5T_LOC_DISK ex_dt_mem) =
    with_f 100 (with_loc H5T_LOC_DISK ex_dt_mem).
Proof.
  destruct (set_loc_failure_frame std_type_value 64 8 12 1 addr8_sizeof
              addr8_heap_id_size no_cont_info token_encode 48
              100 H5T_LOC_DISK ex_dt_mem _ _ (surjective_pairing _))
    as (_ & _ & Hfail).
  destruct Hfail as [H|[_ H]].
  - intros v Hv. vm_compute in Hv. discriminate Hv.
  - vm_compute in H. discriminate H.
  - exact H.
Defined.

Lemma disk_write_abc :
  disk_write_list ex_src_abc 5 100 18 None ex_conv0 =
    (Val SUCCEED, with_dst_buf ex_record_abc ex_conv1).
Proof. vm_compute. reflexivity. Qed.

(** Witness of X10: [ex_src_abc] written to the list store and read back
    into five bytes. *)
Lemma disk_write_read_round_trip_witness :
  exists sr,
    disk_read_list 100 ex_record_abc 18 5
      (with_dst_buf (repeat Byte.x00 5) (with_dst_buf ex_record_abc ex_conv1)) =
      (Val SUCCEED, sr) /\
    dst_buf sr = ex_src_abc.
Proof.
  apply (disk_write_read_round_trip _ list_blob_put list_blob_get list_blob_delete
           ex_src_abc 5 100 18 ex_conv0 (with_dst_buf ex_record_abc ex_conv1)
           (repeat Byte.x00 5)).
  - repeat constructor.
  - repeat constructor.
  - repeat constructor.
  - split; [discriminate|reflexivity].
  - exact disk_write_abc.
  - intros id' b' Hput. vm_compute in Hput. injection Hput as <- <-.
    eexists. vm_compute. reflexivity.
Defined.

(** Witness of X11: the size query on the record of [ex_src_abc] answers
    5. *)
Lemma disk_getsize_of_written_record_witness :
  disk_getsize_std ex_record_abc 18 ex_conv1 = (Val 5, ex_conv1).
Proof.
  apply (disk_getsize_of_written_record std_type_value _ list_blob_put list_blob_delete 1
           Byte.x03 Byte.x00 [Byte.x61; Byte.x62; Byte.x63] 5 100 18 ex_conv0
           (with_dst_buf ex_record_abc ex_conv1)).
  - repeat constructor.
  - exact disk_write_abc.
  - vm_compute. split; reflexivity.
  - intros [_ H]. discriminate H.
  - split; [discriminate|reflexivity].
Defined.

(** Witness of X12: an overwrite into a destination of seven bytes, too
    short for the list store to write its identifier: the old blob is gone,
    the put has failed, the destination has the new header and length. *)
Lemma disk_write_put_failure_witness :
  fst (disk_write_list ex_src_de 4 100 18 (Some (repeat Byte.x00 4 ++ UINT32ENCODE 1))
         (with_dst_buf (repeat Byte.xff 7) ex_conv1)) =
    Exit FAIL (H5E_push H5E_DATATYPE H5E_CANTSET "unable to put blob") /\
  blobs (snd (disk_write_list ex_src_de 4 100 18
                (Some (repeat Byte.x00 4 ++ UINT32ENCODE 1))
                (with_dst_buf (repeat Byte.xff 7) ex_conv1))) = [None] /\
  dst_buf (snd (disk_write_list ex_src_de 4 100 18
                  (Some (repeat Byte.x00 4 ++ UINT32ENCODE 1))
                  (with_dst_buf (repeat Byte.xff 7) ex_conv1))) =
    [Byte.x03; Byte.x00; Byte.x02; Byte.x00; Byte.x00; Byte.x00; Byte.xff].
Proof.
  apply (disk_write_put_failure _ list_blob_put list_blob_delete
           ex_src_de 4 100 18 (repeat Byte.x00 4 ++ UINT32ENCODE 1)
           (with_dst_buf (repeat Byte.xff 7) ex_conv1) [None]).
  - repeat constructor.
  - repeat constructor.
  - reflexivity.
  - reflexivity.
Defined.

(** Witness of X13: a handle with the identifier 0, which has no VOL
    object. *)
Lemma mem_read_unresolved_returns_zero_witness :
  exists (r : Z) (e : H5E_t),
    mem_read_std (mk_href 0 11 2 8 []) 2100 18 ex_conv0 = (Exit r e, ex_conv0) /\
    err_major e = H5E_ARGS /\ err_minor e = H5E_BADTYPE /\
    r = SUCCEED /\ ~ r < 0.
Proof.
  apply (mem_read_unresolved_returns_zero std_type_value token_encode _
           ex_vol_object ex_object_data ex_shared ex_actual_name 1
           (mk_href 0 11 2 8 []) 2100 18 ex_conv0).
  left. reflexivity.
Defined.

(** Witness of X14: the cached handle read for a destination in another
    container. *)
Lemma mem_read_encodes_like_getsize_witness :
  calls (snd (mem_read_std ex_ref_cached 3000 18 ex_conv0)) =
    [Call_H5R__encode (Some "file.h5"%string) ex_ref_cached
                      (Some (repeat Byte.x00 18, 18)) 1] /\
  fst (mem_read_std ex_ref_cached 3000 18 ex_conv0) = Val SUCCEED /\
  calls (snd (mem_getsize_std ex_ref_cached 3000 ex_conv0)) =
    [Call_H5R__encode (Some "file.h5"%string) ex_ref_cached None 1].
Proof.
  assert (ex_vol_object 7 <> 0) as Hobj by discriminate.
  assert (ex_object_data (ex_vol_object 7) <> 0) as Hfile by discriminate.
  destruct (mem_read_encodes_like_getsize std_type_value token_encode _
              ex_vol_object ex_object_data ex_shared ex_actual_name 1
              ex_ref_cached 3000 18 ex_conv0 Hobj Hfile)
    as (Hc & Hr & _ & _ & Hg).
  split; [exact Hc|]. split; [exact Hr|].
  apply Hg. left. discriminate.
Defined.

Lemma le_addr_4096_roundtrip (f : Z) (rest : list byte) :
  le_addr_decode 8 f (le_addr_encode 8 f 4096 ++ rest) = Some (4096, rest).
Proof. reflexivity. Qed.

(** Witness of X15: three bytes put into the heap that holds (4096, 1):
    the get on the new identifier reads the object (4096, 2). *)
Lemma native_blob_put_then_get_witness :
  exists s1,
    native_put_addr8 [Byte.x64; Byte.x65; Byte.x66] 3 1 3
                     (ex_blob_state (ex_blob_id 1 4096 1)) = (Val SUCCEED, s1) /\
    fst (native_get_addr8 (id_mem s1) 1 s1) = Val SUCCEED /\
    heap_calls (snd (native_get_addr8 (id_mem s1) 1 s1)) =
      heap_calls s1 ++ [Call_H5HG_read 1 (mk_H5HG 4096 2)].
Proof.
  destruct (native_blob_put_then_get _ list_heap_insert list_heap_read
              (le_addr_encode 8) (le_addr_decode 8)
              [Byte.x64; Byte.x65; Byte.x66] 3 1 3
              (ex_blob_state (ex_blob_id 1 4096 1)) (mk_H5HG 4096 2)
              [(mk_H5HG 4096 1, [Byte.x61]);
               (mk_H5HG 4096 2, [Byte.x64; Byte.x65; Byte.x66])])
    as (s1 & Hput & Hget).
  - reflexivity.
  - repeat constructor.
  - apply le_addr_4096_roundtrip.
  - split; [discriminate|reflexivity].
  - exists s1. split; [exact Hput|].
    rewrite Hget. vm_compute in Hput. injection Hput as <-.
    split; reflexivity.
Defined.

(** Witness of X16: the same put followed by its delete, which removes the
    object (4096, 2); and a put under the sequence length 0, whose delete
    leaves the object in the heap. *)
Lemma native_blob_put_then_delete_witness :
  (exists s1,
     native_put_addr8 [Byte.x64; Byte.x65; Byte.x66] 3 1 3
                      (ex_blob_state (ex_blob_id 1 4096 1)) = (Val SUCCEED, s1) /\
     gheap (snd (native_specific_addr8 H5VL_BLOB_DELETE 1 s1)) =
       [(mk_H5HG 4096 1, [Byte.x61])]) /\
  (exists s1,
     native_put_addr8 [Byte.x64; Byte.x65; Byte.x66] 3 1 0
                      (ex_blob_state (ex_blob_id 1 4096 1)) = (Val SUCCEED, s1) /\
     native_specific_addr8 H5VL_BLOB_DELETE 1 s1 = (Val SUCCEED, s1) /\
     gheap s1 = [(mk_H5HG 4096 1, [Byte.x61]);
                 (mk_H5HG 4096 2, [Byte.x64; Byte.x65; Byte.x66])]).
Proof.
  split.
  - destruct (native_blob_put_then_delete _ list_heap_insert list_heap_remove
                (le_addr_encode 8) (le_addr_decode 8)
                [Byte.x64; Byte.x65; Byte.x66] 3 1 3
                (ex_blob_state (ex_blob_id 1 4096 1)) (mk_H5HG 4096 2)
                [(mk_H5HG 4096 1, [Byte.x61]);
                 (mk_H5HG 4096 2, [Byte.x64; Byte.x65; Byte.x66])])
      as (s1 & Hput & _ & Hdel).
    + reflexivity.
    + repeat constructor.
    + apply le_addr_4096_roundtrip.
    + split; [discriminate|reflexivity].
    + exists s1. split; [exact Hput|]. rewrite Hdel. reflexivity.
  - destruct (native_blob_put_then_delete _ list_heap_insert list_heap_remove
                (le_addr_encode 8) (le_addr_decode 8)
                [Byte.x64; Byte.x65; Byte.x66] 3 1 0
                (ex_blob_state (ex_blob_id 1 4096 1)) (mk_H5HG 4096 2)
                [(mk_H5HG 4096 1, [Byte.x61]);
                 (mk_H5HG 4096 2, [Byte.x64; Byte.x65; Byte.x66])])
      as (s1 & Hput & Hheap & Hdel).
    + reflexivity.
    + repeat constructor.
    + apply le_addr_4096_roundtrip.
    + split; [discriminate|reflexivity].
    + exists s1. split; [exact Hput|]. split; [exact Hdel|exact Hheap].
Defined.

(** Witness of X17: the queries on the identifier of that put. *)
Lemma native_blob_put_then_query_witness :
  exists s1,
    native_put_addr8 [Byte.x64; Byte.x65; Byte.x66] 3 1 3
                     (ex_blob_state (ex_blob_id 1 4096 1)) = (Val SUCCEED, s1) /\
    native_specific_addr8 H5VL_BLOB_GETSIZE 1 s1 = (Val SUCCEED, with_out_size 3 s1) /\
    native_specific_addr8 H5VL_BLOB_ISNULL 1 s1 = (Val SUCCEED, with_out_isnull false s1).
Proof.
  destruct (native_blob_put_then_query _ list_heap_insert list_heap_remove
              (le_addr_encode 8) (le_addr_decode 8)
              [Byte.x64; Byte.x65; Byte.x66] 3 1 3
              (ex_blob_state (ex_blob_id 1 4096 1)) (mk_H5HG 4096 2)
              [(mk_H5HG 4096 1, [Byte.x61]);
               (mk_H5HG 4096 2, [Byte.x64; Byte.x65; Byte.x66])])
    as (s1 & Hput & Hsize & Hnull & _).
  - reflexivity.
  - repeat constructor.
  - apply le_addr_4096_roundtrip.
  - exists s1. split; [exact Hput|]. split; [exact (Hsize 1)|exact Hnull].
Defined.

(** Witness of X18: the identifier of the object (4096, 1) set to nil and
    then deleted: the object stays in the heap. *)
Lemma native_blob_setnull_then_delete_witness :
  exists s1,
    native_specific_addr8 H5VL_BLOB_SETNULL 1 (ex_blob_state (ex_blob_id 1 4096 1)) =
      (Val SUCCEED, s1) /\
    gheap s1 = [(mk_H5HG 4096 1, [Byte.x61])] /\
    native_specific_addr8 H5VL_BLOB_DELETE 1 s1 = (Val SUCCEED, s1).
Proof.
  destruct (native_blob_setnull_then_delete _ list_heap_remove
              (le_addr_encode 8) (le_addr_decode 8) 1
              (ex_blob_state (ex_blob_id 1 4096 1)))
    as (s1 & Hset & Hheap & _ & _ & Hdel).
  - repeat constructor.
  - exists s1. split; [exact Hset|]. split; [exact Hheap|exact (Hdel 1)].
Defined.

(** The model of [H5T__ref_mem_write] on the concrete library: an encoded
    object reference (header only) of file 100 gets the identifier 55
    attached and the function's own reference to it released, the count
    going 0, 1, 2, 1; when the reference cannot take the identifier, the
    identifier is released all the same; an external reference takes no
    identifier. *)
Example mem_write_runs :
  mem_write_ex 100 [Byte.x02; Byte.x00] 2 H5R_OBJECT2 ex_mem_write0 =
    ((SUCCEED, []),
     mk_mem_write_state (mk_href 55 2 2 0 []) 1
       [Call_H5R__decode 0; Call_H5F__get_file_id 100 false 55;
        Call_H5R__set_loc_id 55 0; Call_H5I_dec_ref 55 1]) /\
  mem_write_ex 100 [Byte.x02; Byte.x00] 99 H5R_OBJECT2 ex_mem_write0 =
    ((FAIL, [H5E_push_entry H5E_REFERENCE (H5E_MINOR H5E_CANTSET)
               "unable to attach location id to reference"]),
     mk_mem_write_state (mk_href 0 99 2 0 []) 0
       [Call_H5R__decode 0; Call_H5F__get_file_id 100 false 55;
        Call_H5R__set_loc_id 55 (-1); Call_H5I_dec_ref 55 0]) /\
  mem_write_ex 100 [Byte.x02; Byte.x01; Byte.x61] 3 H5R_OBJECT2 ex_mem_write0 =
    ((SUCCEED, []),
     mk_mem_write_state (mk_href 0 3 2 0 [Byte.x61]) 0 [Call_H5R__decode 0]).
Proof. repeat split; vm_compute; reflexivity. Qed.

(** Witness of X22: the generic type goes to disk in file 100 with a size
    of 18 bytes, room for a header, a length and an identifier of 12
    bytes. *)
Lemma set_loc_disk_record_holds_identifier_witness :
  exists ci,
    addr8_cont_info 100 (mk_cont_info 1 0 0 0) = Some ci /\
    r_getsize ex_dt_disk = Some PTR_H5T__ref_disk_getsize /\
    r_read ex_dt_disk = Some PTR_H5T__ref_disk_read /\
    r_write ex_dt_disk = Some PTR_H5T__ref_disk_write /\
    H5_SIZEOF_UINT32_T + H5R_ENCODE_HEADER_SIZE + ci_blob_id_size ci <= size ex_dt_disk /\
    (Z.to_nat (ci_blob_id_size ci) <= length (drop 6 (dst_buf ex_conv0)))%nat /\
    fst (disk_write_list ex_src_abc 5 100 (size ex_dt_disk) None ex_conv0) <> Fault.
Proof.
  apply (set_loc_disk_record_holds_identifier std_type_value 64 8 12 1 addr8_sizeof
           addr8_heap_id_size addr8_cont_info token_encode 48 _ list_blob_put
           list_blob_delete 100 ex_dt_mem ex_dt_disk ex_src_abc 5 ex_conv0
           set_loc_addr8_to_disk).
  - discriminate.
  - discriminate.
  - intros ci Hci. injection Hci as <-. split; [discriminate|reflexivity].
  - reflexivity.
  - repeat constructor.
Defined.

(** Witness of X23: the cached handle sized for a destination in its own
    container. *)
Lemma mem_getsize_raises_copy_only_in_container_witness :
  ref_type ex_ref_cached = int8_cast (std_type_value H5R_OBJECT2) /\
  ex_shared (ex_object_data (ex_vol_object (loc_id ex_ref_cached))) = ex_shared 2100 /\
  encode_size ex_ref_cached <> 0 /\
  fst (mem_getsize_std ex_ref_cached 2100 ex_conv0) = Val (encode_size ex_ref_cached) /\
  calls (snd (mem_getsize_std ex_ref_cached 2100 ex_conv0)) = calls ex_conv0.
Proof.
  apply (mem_getsize_raises_copy_only_in_container std_type_value token_encode _
           ex_vol_object ex_object_data ex_shared ex_actual_name 1
           ex_ref_cached 2100 ex_conv0).
  - discriminate.
  - apply surjective_pairing.
  - reflexivity.
  - reflexivity.
Defined.

(** Witness of X24: the record of an object reference without the external
    flag. *)
Lemma disk_getsize_raises_copy_only_for_object_witness :
  exists tag fl rest,
    Byte.x02 :: Byte.x00 :: UINT32ENCODE 7 = tag :: fl :: rest /\
    byte_val tag = std_type_value H5R_OBJECT2 /\
    Z.land (byte_val fl) 1 = 0 /\
    fst (disk_getsize_std (Byte.x02 :: Byte.x00 :: UINT32ENCODE 7) 18 ex_conv0) = Val 18.
Proof.
  apply (disk_getsize_raises_copy_only_for_object std_type_value _ 1
           (Byte.x02 :: Byte.x00 :: UINT32ENCODE 7) 18 ex_conv0
           (snd (disk_getsize_std (Byte.x02 :: Byte.x00 :: UINT32ENCODE 7) 18 ex_conv0))).
  - apply surjective_pairing.
  - reflexivity.
  - reflexivity.
Defined.

(** The same model on legacy region references: with the dataspace 5 the
    reference is created and the dataspace closed at once, before the
    identifier is attached; with the dataspace 0 the creation fails, it is
    the only call, and the dataspace is not closed. *)
Example mem_write_region_runs :
  mw_calls (snd (mem_write_ex 100 (repeat Byte.x00 8 ++ [Byte.x05]) 9
                   H5R_DATASET_REGION1 ex_mem_write0)) =
    [Call_H5R__create_region 5 0; Call_H5S_close 5 0;
     Call_H5F__get_file_id 100 false 55; Call_H5R__set_loc_id 55 0;
     Call_H5I_dec_ref 55 1] /\
  mem_write_ex 100 (repeat Byte.x00 9) 9 H5R_DATASET_REGION1 ex_mem_write0 =
    ((FAIL, [H5E_push_entry H5E_REFERENCE H5E_CANTCREATE
               "unable to create region reference"]),
     mk_mem_write_state (mk_href 0 0 0 0 []) 0 [Call_H5R__create_region 0 (-1)]).
Proof. split; vm_compute; reflexivity. Qed.
